(** * sciencedirect-rss2paper: a shallow embedding of the identifier
    resolver, the fetch orchestrator, the extraction pipeline and the run
    coordinator, with the properties of the specification stated over it.

    Layout: the definitions come first, one module per Python source
    file ([rss_parser], [article_fetcher], [content_extractor], [main]),
    preceded by the fragments of the Python runtime they rely on
    ([Py]: strings, [Re]: the backtracking regular expressions of [re],
    [Requests]: the network) and followed by the definitions that word the
    specification ([Spec]) and by sample inputs ([Fixtures]); the lemmas
    and theorems come after them.

    Conventions of the embedding.
    - A Python [str] is a [string]; one [ascii] stands for one code point
      below 256, and the character classes ([str.isspace], the classes
      [\s], [\w], [\d] of [re]) are the ones CPython has on that range.
    - [None] is [None]; a Python truthiness test on an [Optional[str]] is
      [truthy].
    - The libraries that parse ([xml.etree], [lxml], [bs4], [feedparser])
      and the network ([requests]) are outside the repository: the
      functions take the parser or the network as an argument and work on
      the tree, the entry list or the response it returns.
    - A call that may raise returns an [outcome]; an exception that the
      source catches is a case of the value it catches it from.
    - The recursion limit of the interpreter is visible where the depth of
      the calls depends on the input: [_collect_text], and the functions
      that reach it, take the number of frames there is room for. *)

From Stdlib Require Import Ascii NArith Lia.
From stdpp Require Import base option list gmap sets strings.

Local Open Scope N_scope.
Local Open Scope nat_scope.

(* ===================================================================== *)
(** * The Python string operations the sources use                        *)
(* ===================================================================== *)

Module Py.

(** The result of a call that can raise an exception it does not
    handle. *)
Inductive outcome (A : Type) : Type :=
| Returns (a : A)
| Raises.
Global Arguments Returns {A} a.
Global Arguments Raises {A}.

Definition chars (s : string) : list ascii := String.list_ascii_of_string s.
Definition str (l : list ascii) : string := String.string_of_list_ascii l.

(** [len(s)] *)
Definition len (s : string) : nat := String.length s.

(** Truthiness of a [str]: non-empty. *)
Definition nonempty (s : string) : bool :=
  match s with EmptyString => false | String _ _ => true end.

(** Truthiness of an [Optional[str]]: neither [None] nor [""]. *)
Definition truthy (o : option string) : bool :=
  match o with Some s => nonempty s | None => false end.

(** [o or ""] *)
Definition or_empty (o : option string) : string :=
  match o with Some s => s | None => "" end.

(** [a or b] on optional strings. *)
Definition or_else (a b : option string) : option string :=
  if truthy a then a else b.

Definition code (c : ascii) : N := N_of_ascii c.

Definition in_range (lo hi : N) (c : ascii) : bool :=
  ((lo <=? code c) && (code c <=? hi))%N.

(** [str.isspace] on one character; the class [\s] of [re] is the same. *)
Definition isspace (c : ascii) : bool :=
  in_range 9 13 c || in_range 28 32 c || (code c =? 133)%N || (code c =? 160)%N.

(** The class [\d] of [re] (decimal digits). *)
Definition isdigit (c : ascii) : bool := in_range 48 57 c.

Definition isupper_ascii (c : ascii) : bool := in_range 65 90 c.
Definition islower_ascii (c : ascii) : bool := in_range 97 122 c.

(** The class [\w] of [re]: [str.isalnum] or the underscore. *)
Definition isword (c : ascii) : bool :=
  isdigit c || isupper_ascii c || islower_ascii c || (code c =? 95)%N
  || (code c =? 170)%N || (code c =? 178)%N || (code c =? 179)%N
  || (code c =? 181)%N || (code c =? 185)%N || (code c =? 186)%N
  || in_range 188 190 c || in_range 192 214 c || in_range 216 246 c
  || in_range 248 255 c.

(** [c.lower()] on the code points below 256: the ASCII capitals and
    the Latin-1 capitals (192 to 222 but the multiplication sign 215)
    move up by 32. *)
Definition lower (c : ascii) : ascii :=
  if isupper_ascii c || in_range 192 214 c || in_range 216 222 c
  then ascii_of_N (code c + 32) else c.

Fixpoint drop_while (p : ascii -> bool) (l : list ascii) : list ascii :=
  match l with
  | [] => []
  | c :: l' => if p c then drop_while p l' else l
  end.

Definition lstrip_by (p : ascii -> bool) (l : list ascii) : list ascii :=
  drop_while p l.
Definition rstrip_by (p : ascii -> bool) (l : list ascii) : list ascii :=
  rev (drop_while p (rev l)).

(** [s.strip()] *)
Definition strip (s : string) : string :=
  str (rstrip_by isspace (lstrip_by isspace (chars s))).

(** [s.rstrip(cs)]: drops the trailing characters that occur in [cs]. *)
Definition rstrip_chars (cs : string) (s : string) : string :=
  str (rstrip_by (fun c => bool_decide (c ∈ chars cs)) (chars s)).

(** [s[:n]] for [n >= 0] *)
Fixpoint take (n : nat) (s : string) : string :=
  match n, s with
  | S n', String c s' => String c (take n' s')
  | _, _ => ""
  end.

(** [sep.join(parts)] *)
Fixpoint join (sep : string) (parts : list string) : string :=
  match parts with
  | [] => ""
  | [p] => p
  | p :: rest => p +:+ sep +:+ join sep rest
  end.

(** [x in parts] on a list of strings. *)
Definition mem (x : string) (parts : list string) : bool :=
  bool_decide (x ∈ parts).

(** [sub in s]: substring test. *)
Fixpoint starts_with (p s : list ascii) : bool :=
  match p, s with
  | [], _ => true
  | a :: p', b :: s' => bool_decide (a = b) && starts_with p' s'
  | _ :: _, [] => false
  end.
Fixpoint contains_l (p s : list ascii) : bool :=
  starts_with p s ||
  match s with
  | [] => false
  | _ :: s' => contains_l p s'
  end.
Definition contains (sub s : string) : bool := contains_l (chars sub) (chars s).

(** [s.lower()] *)
Definition lower_str (s : string) : string := str (map lower (chars s)).

(** [re.sub(r"\s+", " ", s)]: every maximal run of white space becomes
    one space. [in_run] tells that the previous character was white. *)
Fixpoint collapse_ws (in_run : bool) (l : list ascii) : list ascii :=
  match l with
  | [] => []
  | c :: l' =>
      if isspace c
      then (if in_run then collapse_ws true l' else " "%char :: collapse_ws true l')
      else c :: collapse_ws false l'
  end.
Definition re_sub_ws (s : string) : string := str (collapse_ws false (chars s)).

(** [s.split(sep, 1)[1]] when [sep] (one character) occurs in [s]:
    what follows its first occurrence. *)
Fixpoint after_first (sep : ascii) (l : list ascii) : option (list ascii) :=
  match l with
  | [] => None
  | c :: l' => if bool_decide (c = sep) then Some l' else after_first sep l'
  end.

(** [s.split(sep)[0]] for a one-character [sep]: what precedes its first
    occurrence, the whole of [s] when there is none. *)
Fixpoint before_first (sep : ascii) (l : list ascii) : list ascii :=
  match l with
  | [] => []
  | c :: l' => if bool_decide (c = sep) then [] else c :: before_first sep l'
  end.

(** The line boundaries of [str.splitlines] below 256. *)
Definition is_linebreak (c : ascii) : bool :=
  in_range 10 13 c || in_range 28 30 c || (code c =? 133)%N.

(** [s.splitlines()]: the lines without their ends; a carriage return
    followed by a line feed is one end, and no empty line follows the last
    end. [cur] holds the current line, last character first. *)
Fixpoint splitlines_go (cur : list ascii) (l : list ascii) : list string :=
  match l with
  | [] => match cur with
          | [] => []
          | _ :: _ => [str (rev cur)]
          end
  | c :: l' =>
      if is_linebreak c then
        str (rev cur) ::
          match l' with
          | c' :: l'' =>
              if (code c =? 13)%N && (code c' =? 10)%N
              then splitlines_go [] l''
              else splitlines_go [] l'
          | [] => []
          end
      else splitlines_go (c :: cur) l'
  end.
Definition splitlines (s : string) : list string := splitlines_go [] (chars s).

End Py.

(* ===================================================================== *)
(** * The fragment of [re] the two patterns of [rss_parser] use           *)
(* ===================================================================== *)

Module Re.

(** Patterns: the empty pattern, word boundary, one character of a class (a literal is a
    singleton class), sequence, greedy option, greedy repetition
    [p{n,}] of a class, and the capturing group 1. *)
Inductive regex : Type :=
| Empty
| Boundary
| Char (p : ascii -> bool)
| Seq (r1 r2 : regex)
| Opt (r : regex)
| Repeat (p : ascii -> bool) (n : nat)
| Group (r : regex).

(** A position in the subject: the character before it, if any, and
    what follows. *)
Definition is_word_opt (o : option ascii) : bool :=
  match o with Some c => Py.isword c | None => false end.

(** [\b] holds where exactly one side is a word character. *)
Definition at_boundary (prev : option ascii) (rest : list ascii) : bool :=
  xorb (is_word_opt prev) (is_word_opt (head rest)).

(** The matcher is the backtracking one of [re], in continuation-passing
    style: [k] is what remains to be matched; the first success in the
    order of the alternatives tried (longest repetition first) wins.
    The value carried is the text of group 1. *)
Definition cont : Type :=
  option ascii -> list ascii -> option (list ascii) -> option (option (list ascii)).

Fixpoint repeat_greedy (p : ascii -> bool) (k : cont) (n : nat)
    (prev : option ascii) (s : list ascii) (cap : option (list ascii))
    : option (option (list ascii)) :=
  let stop := match n with O => k prev s cap | S _ => None end in
  match s with
  | c :: s' =>
      if p c then
        match repeat_greedy p k (pred n) (Some c) s' cap with
        | Some r => Some r
        | None => stop
        end
      else stop
  | [] => stop
  end.

Fixpoint rmatch (r : regex) (k : cont)
    (prev : option ascii) (s : list ascii) (cap : option (list ascii))
    : option (option (list ascii)) :=
  match r with
  | Empty => k prev s cap
  | Boundary => if at_boundary prev s then k prev s cap else None
  | Char p =>
      match s with
      | c :: s' => if p c then k (Some c) s' cap else None
      | [] => None
      end
  | Seq r1 r2 => rmatch r1 (rmatch r2 k) prev s cap
  | Opt r' =>
      match rmatch r' k prev s cap with
      | Some x => Some x
      | None => k prev s cap
      end
  | Repeat p n => repeat_greedy p k n prev s cap
  | Group r' =>
      rmatch r' (fun prev' s' _ => k prev' s' (Some (take (length s - length s') s)))
             prev s cap
  end.

Definition accept : cont := fun _ _ cap => Some cap.

(** [pattern.search(text)]: the leftmost start at which the pattern
    matches. The result is [m.group(1)]. *)
Fixpoint search_from (r : regex) (prev : option ascii) (s : list ascii)
    : option (option (list ascii)) :=
  match rmatch r accept prev s None with
  | Some cap => Some cap
  | None =>
      match s with
      | c :: s' => search_from r (Some c) s'
      | [] => None
      end
  end.

Definition search (r : regex) (text : string) : option (option (list ascii)) :=
  search_from r None (Py.chars text).

(** [m.group(1) if m else None], for a pattern whose group 1 takes part
    in every match. *)
Definition search_group1 (r : regex) (text : string) : option string :=
  match search r text with
  | Some (Some g) => Some (Py.str g)
  | _ => None
  end.

Definition lit (c : ascii) : regex := Char (fun x => bool_decide (x = c)).
Definition lit_i (c : ascii) : regex :=
  Char (fun x => bool_decide (Py.lower x = Py.lower c)).

(** A literal string, as the sequence of its characters. *)
Definition lits (mk : ascii -> regex) (s : string) : regex :=
  foldr (fun c r => Seq (mk c) r) Empty (Py.chars s).

(** The character before the position reached by reading [pre] from a
    position whose previous character is [prev]. *)
Definition last_or (prev : option ascii) (pre : list ascii) : option ascii :=
  match last pre with
  | Some c => Some c
  | None => prev
  end.

(** The texts a pattern can read, the boundary assertions aside. *)
Fixpoint reads (r : regex) (pre : list ascii) : Prop :=
  match r with
  | Empty => pre = []
  | Boundary => pre = []
  | Char p => exists c, pre = [c] /\ p c = true
  | Seq r1 r2 => exists a b, pre = a ++ b /\ reads r1 a /\ reads r2 b
  | Opt r' => pre = [] \/ reads r' pre
  | Repeat p n => n <= length pre /\ Forall (fun c => p c = true) pre
  | Group r' => reads r' pre
  end.

End Re.

(* ===================================================================== *)
(** * [requests]: the network as an oracle, with the requests recorded    *)
(* ===================================================================== *)

Module Requests.

Record Request : Type := mkRequest {
  req_url : string;
  req_headers : list (string * string);
  req_params : list (string * string);
}.

Record Response : Type := mkResponse {
  status_code : nat;
  resp_text : string;
  resp_headers : gmap string string;
}.

(** What the outside world answers to a GET: [None] is a transport
    failure ([requests.get] raises a [RequestException]). Time-outs are
    among them; the bound itself is not modelled. *)
Definition Network : Type := Request -> option Response.

(** Code that talks to the network: it reads the oracle and records, in
    order, the requests it sends. *)
Definition IO (A : Type) : Type := Network -> A * list Request.

Definition ret {A} (a : A) : IO A := fun _ => (a, []).
Definition bind {A B} (m : IO A) (k : A -> IO B) : IO B :=
  fun net =>
    let '(a, t1) := m net in
    let '(b, t2) := k a net in
    (b, t1 ++ t2).

Definition result {A} (m : IO A) (net : Network) : A := fst (m net).
Definition trace {A} (m : IO A) (net : Network) : list Request := snd (m net).

(** [requests.get(url, headers=..., params=...)] *)
Definition get (r : Request) : IO (option Response) :=
  fun net => (net r, [r]).

(** [resp.raise_for_status()] raises for the 4xx and 5xx codes. *)
Definition raises_for_status (resp : Response) : bool :=
  (400 <=? status_code resp) && (status_code resp <? 600).

(** [requests.get] followed by [raise_for_status], inside a
    [try ... except RequestException]: [None] when either raised. *)
Definition get_ok (r : Request) : IO (option Response) :=
  bind (get r) (fun o =>
    ret (match o with
         | Some resp => if raises_for_status resp then None else Some resp
         | None => None
         end)).

End Requests.

Notation "'do' x <- c ; k" := (Requests.bind c (fun x => k))
  (at level 10, x name, c at level 100, k at level 200, only parsing).

(* ===================================================================== *)
(** * config.py                                                           *)
(* ===================================================================== *)

Module Config.

(** The values [config.py] reads from the environment when it is loaded;
    [ELSEVIER_ARTICLE_BASE] is a constant of the file. *)
Record t : Type := mk {
  ELSEVIER_API_KEY : string;
  SCIENCE_DIRECT_COOKIE : string;
}.

Definition ELSEVIER_ARTICLE_BASE : string :=
  "https://api.elsevier.com/content/article".


(** [get_rss_feeds_from_env], on the value of [RSS_FEEDS] in the
    environment ([None] when it is not set). *)
Definition get_rss_feeds_from_env (RSS_FEEDS : option string) : list string :=
  let raw := Py.strip (default "" RSS_FEEDS) in
  if negb (Py.nonempty raw) then []
  else map Py.strip (List.filter (fun u => Py.nonempty (Py.strip u)) (Py.splitlines raw)).

End Config.

(* ===================================================================== *)
(** * rss_parser.py                                                       *)
(* ===================================================================== *)

Module RssParser.

(** [[0-9A-Za-z]] *)
Definition is_alnum_ascii (c : ascii) : bool :=
  Py.isdigit c || Py.isupper_ascii c || Py.islower_ascii c.

(** [PII_PATTERN], compiled with [re.IGNORECASE]:
    [/science/article(?:/abs)?/pii/(S[0-9A-Za-z]+)]. On the code points
    below 256, the ones the strings here are made of, [re.IGNORECASE]
    pairs each ASCII letter of the pattern with its other case and with
    nothing else, which is what [Re.lit_i] and [is_alnum_ascii] do. Beyond
    them it also pairs [s] with U+017F, [k] with U+212A and [i] with
    U+0130 and U+0131: a link that holds one of these is outside this
    definition. *)
Definition PII_PATTERN : Re.regex :=
  Re.Seq (Re.lits Re.lit_i "/science/article")
 (Re.Seq (Re.Opt (Re.lits Re.lit_i "/abs"))
 (Re.Seq (Re.lits Re.lit_i "/pii/")
         (Re.Group (Re.Seq (Re.lit_i "S") (Re.Repeat is_alnum_ascii 1))))).

(** The class of the DOI suffix: anything but white space, the double
    quote (code 34), the single quote and the two angle brackets. *)
Definition doi_char (c : ascii) : bool :=
  negb (Py.isspace c || (Py.code c =? 34)%N || bool_decide (c ∈ Py.chars "'<>")).

(** [DOI_PATTERN]: a word boundary, group 1 made of [10.], four digits
    or more, a slash and one character or more of the class above, and a
    word boundary. *)
Definition DOI_PATTERN : Re.regex :=
  Re.Seq Re.Boundary
 (Re.Seq (Re.Group
           (Re.Seq (Re.lits Re.lit "10.")
           (Re.Seq (Re.Repeat Py.isdigit 4)
           (Re.Seq (Re.lit "/")
                   (Re.Repeat doi_char 1)))))
         Re.Boundary).

Record RSSItem : Type := mkRSSItem {
  title : string;
  link : string;
  doi : option string;
  pii : option string;
  description : string;
}.

(** [RSSItem.article_id] *)
Definition article_id (self : RSSItem) : option (string * string) :=
  if Py.truthy (doi self) then Some ("doi", Py.or_empty (doi self))
  else if Py.truthy (pii self) then Some ("pii", Py.or_empty (pii self))
  else None.

Definition _extract_pii (link : string) : option string :=
  Re.search_group1 PII_PATTERN link.

Definition _extract_doi_from_text (text : string) : option string :=
  match Re.search_group1 DOI_PATTERN text with
  | Some g => Some (Py.rstrip_chars ".,;" g)
  | None => None
  end.

(** A feed entry as [feedparser] hands it over: a dictionary from field
    names to strings. *)
Abbreviation entry := (gmap string string).

(** [entry.get(key, "")] *)
Definition get_or_empty (e : entry) (key : string) : string :=
  default "" (e !! key).

(** [a or b] on strings. *)
Definition str_or (a b : string) : string := if Py.nonempty a then a else b.

(** The loop [for raw in (link, desc)] of [_extract_doi]: the first text
    with a DOI decides. *)
Fixpoint first_doi (raws : list string) : option string :=
  match raws with
  | [] => None
  | raw :: rest =>
      let d := _extract_doi_from_text raw in
      if Py.truthy d then d else first_doi rest
  end.

Definition _extract_doi (e : entry) : option string :=
  let link := str_or (get_or_empty e "link") "" in
  let desc := str_or (get_or_empty e "description")
                     (str_or (get_or_empty e "summary") "") in
  match first_doi [link; desc] with
  | Some d => Some d
  | None =>
      let dc_id := str_or (get_or_empty e "dc_identifier") (get_or_empty e "prism_doi") in
      if Py.nonempty (Py.strip dc_id)
      then Py.or_else (_extract_doi_from_text dc_id) (Some (Py.strip dc_id))
      else None
  end.

(** One turn of the loop of [parse_feed_content]: the item appended for
    an entry, [None] where the loop does [continue]. The values of an
    entry are strings, so the branch for a description that has a [get]
    method leaves it as it is. *)
Definition parse_entry (e : entry) : option RSSItem :=
  let link := Py.strip (Py.or_empty (e !! "link")) in
  if negb (Py.nonempty link) then None
  else
    let title := Py.strip (Py.or_empty (e !! "title")) in
    let description :=
      Py.or_empty (Py.or_else (e !! "description")
                              (Py.or_else (Some (get_or_empty e "summary")) (Some ""))) in
    let description := Py.strip (str_or description "") in
    let pii := _extract_pii link in
    let doi := Py.or_else (_extract_doi e)
                          (_extract_doi_from_text (link +:+ " " +:+ description)) in
    Some {| title := title; link := link; doi := doi; pii := pii;
            description := description |}.

(** The body of [parse_feed_content] after [feedparser.parse]:
    [entries] is [parsed.get("entries", [])]. *)
Fixpoint parse_entries (entries : list entry) (items : list RSSItem) : list RSSItem :=
  match entries with
  | [] => items
  | e :: rest =>
      match parse_entry e with
      | Some it => parse_entries rest (items ++ [it])
      | None => parse_entries rest items
      end
  end.

Section Feeds.
(** [feedparser.parse(content, ...)["entries"]] *)
Variable feedparser_entries : string -> list entry.

Definition parse_feed_content (content : string) : list RSSItem :=
  parse_entries (feedparser_entries content) [].

(** [parse_feed_url]: [None] stands for the exception that [requests]
    raises, which [parse_feeds] catches. *)
Definition parse_feed_url (feed_url : string) : Requests.IO (option (list RSSItem)) :=
  do o <- Requests.get_ok (Requests.mkRequest feed_url [] []) ;
  Requests.ret (match o with
                | Some resp => Some (parse_feed_content (Requests.resp_text resp))
                | None => None
                end).

(** [parse_feeds], with the items it yields collected in a list: a
    feed that fails is skipped. *)
Fixpoint parse_feeds (feed_urls : list string) : Requests.IO (list RSSItem) :=
  match feed_urls with
  | [] => Requests.ret []
  | url :: rest =>
      do o <- parse_feed_url url ;
      do items <- parse_feeds rest ;
      Requests.ret (match o with Some l => l ++ items | None => items end)
  end.
End Feeds.

End RssParser.

(* ===================================================================== *)
(** * article_fetcher.py                                                  *)
(* ===================================================================== *)

Module ArticleFetcher.
Import RssParser.

Definition USER_AGENT : string :=
  "SDRSS/1.0 (ScienceDirect RSS full-text fetcher; +https://github.com/sdrss)".

Inductive Source : Type := api | crawl.

Global Instance Source_eq_dec : EqDecision Source.
Proof. solve_decision. Defined.

Record FetchedArticle : Type := mkFetched {
  source : Source;
  raw_body : string;
  content_type : string;
  item : RSSItem;
}.

(** [resp.headers.get("Content-Type", "").split(";")[0].strip()] *)
Definition media_type (resp : Requests.Response) : string :=
  Py.strip (Py.str (Py.before_first ";"
    (Py.chars (default "" (Requests.resp_headers resp !! "Content-Type"))))).

Section Fetch.
Variable cfg : Config.t.

Definition api_request (key id_type id_value accept : string) : Requests.Request :=
  Requests.mkRequest
    (Config.ELSEVIER_ARTICLE_BASE +:+ "/" +:+ id_type +:+ "/" +:+ id_value)
    [("X-ELS-APIKey", key); ("User-Agent", USER_AGENT); ("Accept", accept)]
    [("httpAccept", accept)].

Definition fetch_via_api (it : RSSItem) (api_key : option string) (accept : string)
    : Requests.IO (option FetchedArticle) :=
  let key := Py.strip (Py.or_empty (Py.or_else api_key (Some (Config.ELSEVIER_API_KEY cfg)))) in
  if negb (Py.nonempty key) then Requests.ret None
  else
    match article_id it with
    | None => Requests.ret None
    | Some (id_type, id_value) =>
        do o <- Requests.get_ok (api_request key id_type id_value accept) ;
        Requests.ret
          (match o with
           | Some resp =>
               Some {| source := api;
                       raw_body := Requests.resp_text resp;
                       content_type := str_or (media_type resp) accept;
                       item := it |}
           | None => None
           end)
    end.

Definition crawl_request (it : RSSItem) (cookie : string) : Requests.Request :=
  Requests.mkRequest
    (link it)
    ([("User-Agent", USER_AGENT); ("Accept", "text/html,application/xhtml+xml")]
       ++ (if Py.nonempty cookie then [("Cookie", cookie)] else []))
    [].

Definition fetch_via_crawl (it : RSSItem) (cookie : option string)
    : Requests.IO (option FetchedArticle) :=
  let cookie := Py.strip (Py.or_empty (Py.or_else cookie (Some (Config.SCIENCE_DIRECT_COOKIE cfg)))) in
  do o <- Requests.get_ok (crawl_request it cookie) ;
  Requests.ret
    (match o with
     | Some resp =>
         Some {| source := crawl;
                 raw_body := Requests.resp_text resp;
                 content_type := str_or (media_type resp) "text/html";
                 item := it |}
     | None => None
     end).

Definition fetch_article (it : RSSItem) (prefer_api : bool)
    (api_key cookie : option string) : Requests.IO (option FetchedArticle) :=
  if prefer_api then
    do result <- fetch_via_api it api_key "application/xml" ;
    match result with
    | Some r => Requests.ret (Some r)
    | None => fetch_via_crawl it cookie
    end
  else fetch_via_crawl it cookie.
End Fetch.

End ArticleFetcher.

(* ===================================================================== *)
(** * content_extractor.py                                                *)
(* ===================================================================== *)

Module ContentExtractor.
Import ArticleFetcher.

Record ExtractedContent : Type := mkExtracted {
  abstract : string;
  full_text : string;
  ec_source : Source;
}.

(** ** The parsed XML document

    What both [xml.etree] and [lxml] build from a document: elements
    with a namespace URI (if any), a local name, the text before the
    first child, the children, and the text after the end tag (the
    tail). Comments and processing instructions are not represented. *)
#[local] Unset Elimination Schemes.
Inductive Element : Type :=
  mkElement (ns : option string) (local : string) (text : option string)
            (children : list Element) (tail : option string).
#[local] Set Elimination Schemes.

(** Induction on a document, with the property known for the children. *)
Fixpoint Element_ind (P : Element -> Prop)
    (step : forall ns local text children tail,
        Forall P children -> P (mkElement ns local text children tail))
    (e : Element) : P e :=
  match e with
  | mkElement ns local text children tail =>
      step ns local text children tail
        ((fix all (cs : list Element) : Forall P cs :=
            match cs with
            | [] => List.Forall_nil P
            | c :: cs' => List.Forall_cons P c cs' (Element_ind P step c) (all cs')
            end) children)
  end.

Definition el_ns (e : Element) := let 'mkElement n _ _ _ _ := e in n.
Definition el_local (e : Element) := let 'mkElement _ l _ _ _ := e in l.
Definition el_text (e : Element) := let 'mkElement _ _ t _ _ := e in t.
Definition el_children (e : Element) := let 'mkElement _ _ _ c _ := e in c.
Definition el_tail (e : Element) := let 'mkElement _ _ _ _ t := e in t.

(** [el.tag] of [xml.etree]: the local name, preceded by the namespace
    URI in braces when there is one. *)
Definition el_tag (e : Element) : string :=
  match el_ns e with
  | Some uri => "{" +:+ uri +:+ "}" +:+ el_local e
  | None => el_local e
  end.

(** [el.iter()]: the element and its descendants, in document order. *)
Fixpoint iter (e : Element) : list Element :=
  match e with
  | mkElement _ _ _ cs _ => e :: flat_map iter cs
  end.

Definition _strip_ns (tag : string) : string :=
  if Py.nonempty tag then
    match Py.after_first "}" (Py.chars tag) with
    | Some rest => Py.str rest
    | None => tag
    end
  else "".

(** [buf.append(s)] under [if s:] *)
Definition append_if (buf : list string) (o : option string) : list string :=
  if Py.truthy o then buf ++ [Py.or_empty o] else buf.

(** [_collect_text(el, buf)]: the buffer after the call. *)
Fixpoint _collect_text (el : Element) (buf : list string) : list string :=
  match el with
  | mkElement _ _ t cs _ =>
      fold_left (fun b child => append_if (_collect_text child b) (el_tail child))
                cs (append_if buf t)
  end.

(** ** [extract_from_api_xml], after the parse *)

Definition find_all_with_tag (parent : Element) (local_name : string) : list Element :=
  List.filter (fun el => bool_decide (_strip_ns (el_tag el) = local_name)) (iter parent).

Definition text_of (el : Element) : string :=
  Py.strip (Py.join " " (_collect_text el [])).

(** The body of the loops that collect candidates: [t] is kept when it
    is non-empty and longer than [min]. *)
Definition long_enough (min : nat) (t : string) : bool :=
  Py.nonempty t && (min <? Py.len t).

(** [if t and len(t) > 20 and t not in abstract_parts: append] *)
Definition add_abstract (abstract_parts : list string) (t : string) : list string :=
  if long_enough 20 t && negb (Py.mem t abstract_parts)
  then abstract_parts ++ [t] else abstract_parts.

(** [if t and len(t) > min: append] *)
Definition add_body (min : nat) (body_parts : list string) (t : string) : list string :=
  if long_enough min t then body_parts ++ [t] else body_parts.

Definition et_abstract_parts (root : Element) : list string :=
  let abstract_parts :=
    fold_left (fun parts name =>
                 fold_left (fun parts el => add_abstract parts (text_of el))
                           (find_all_with_tag root name) parts)
              ["description"; "abstract"] [] in
  match abstract_parts with
  | [] => abstract_parts
  | _ :: _ => take 3 abstract_parts
  end.

(** The loop with [break]: the first element named [body]. *)
Fixpoint first_named (name : string) (els : list Element) : option Element :=
  match els with
  | [] => None
  | el :: rest =>
      if bool_decide (_strip_ns (el_tag el) = name) then Some el
      else first_named name rest
  end.

Definition et_body_parts (root : Element) : list string :=
  let body_parts :=
    match first_named "body" (iter root) with
    | Some body_el =>
        fold_left (fun parts tag =>
                     fold_left (fun parts el => add_body 30 parts (text_of el))
                               (find_all_with_tag body_el tag) parts)
                  ["section"; "para"; "p"] []
    | None => []
    end in
  match body_parts with
  | [] => fold_left (fun parts el => add_body 50 parts (text_of el))
                    (find_all_with_tag root "para") body_parts
  | _ :: _ => body_parts
  end.

(** [sep.join(parts) if parts else ""], with the blank-line separator:
    two line feeds (code 10). *)
Definition blank_line : string := String "010" (String "010" "").

Definition join_parts (parts : list string) : string :=
  match parts with
  | [] => ""
  | _ :: _ => Py.join blank_line parts
  end.

(** Lines 105 to 110: the abstract stands in for an empty body when it
    is longer than 200, and is then cut at 500. *)
Definition et_finish (abstract full_text : string) : ExtractedContent :=
  if negb (Py.nonempty full_text) && (200 <? Py.len abstract) then
    {| abstract := if 500 <? Py.len abstract
                   then Py.take 500 abstract +:+ "..." else abstract;
       full_text := abstract;
       ec_source := api |}
  else {| abstract := abstract; full_text := full_text; ec_source := api |}.

Definition et_extract (root : Element) : ExtractedContent :=
  et_finish (join_parts (et_abstract_parts root)) (join_parts (et_body_parts root)).

Definition empty_api : ExtractedContent :=
  {| abstract := ""; full_text := ""; ec_source := api |}.

(** ** [extract_from_api_xml] under the recursion limit

    [_collect_text] calls itself once per level of the element, and the
    interpreter raises [RecursionError] when calls nest deeper than its
    recursion limit allows. Nothing in [extract_from_api_xml] catches that
    error. [frames] is the number of nested calls of [_collect_text] for
    which there is room when [text_of] calls it. The definitions above
    give the values computed when there is room enough; the ones below
    follow the same lines of the source and say when there is not. The
    other calls of the module nest to a depth that does not depend on the
    document; the interpreter is taken to have room for them. *)

(** The number of levels of an element. *)
Fixpoint height (el : Element) : nat :=
  match el with
  | mkElement _ _ _ cs _ => S (max_list (map height cs))
  end.

(** A [for] loop whose body may raise: it is left at the first iteration
    that does. *)
Fixpoint for_each {A S : Type} (body : S -> A -> option S) (l : list A) (s : S)
    : option S :=
  match l with
  | [] => Some s
  | x :: l' =>
      match body s x with
      | Some s' => for_each body l' s'
      | None => None
      end
  end.

(** [_collect_text(el, buf)] with room for [frames] nested calls: the
    buffer after the call, or [None] for [RecursionError]. *)
Fixpoint _collect_text_in (frames : nat) (el : Element) (buf : list string)
    : option (list string) :=
  match frames with
  | 0 => None
  | S frames' =>
      for_each (fun b child =>
                  match _collect_text_in frames' child b with
                  | Some b' => Some (append_if b' (el_tail child))
                  | None => None
                  end)
               (el_children el) (append_if buf (el_text el))
  end.

Definition text_of_in (frames : nat) (el : Element) : option string :=
  match _collect_text_in frames el [] with
  | Some buf => Some (Py.strip (Py.join " " buf))
  | None => None
  end.

(** The loop body [t = text_of(el)] followed by a conditional append. *)
Definition flatten_then (frames : nat) (add : list string -> string -> list string)
    (parts : list string) (el : Element) : option (list string) :=
  match text_of_in frames el with
  | Some t => Some (add parts t)
  | None => None
  end.

Definition et_abstract_parts_in (frames : nat) (root : Element) : option (list string) :=
  match
    for_each (fun parts name =>
                for_each (flatten_then frames add_abstract)
                         (find_all_with_tag root name) parts)
             ["description"; "abstract"] []
  with
  | Some [] => Some []
  | Some ((_ :: _) as abstract_parts) => Some (take 3 abstract_parts)
  | None => None
  end.

Definition et_body_parts_in (frames : nat) (root : Element) : option (list string) :=
  match
    match first_named "body" (iter root) with
    | Some body_el =>
        for_each (fun parts tag =>
                    for_each (flatten_then frames (add_body 30))
                             (find_all_with_tag body_el tag) parts)
                 ["section"; "para"; "p"] []
    | None => Some []
    end
  with
  | Some [] =>
      for_each (flatten_then frames (add_body 50)) (find_all_with_tag root "para") []
  | Some ((_ :: _) as body_parts) => Some body_parts
  | None => None
  end.

(** Lines 61 to 110: the two loops one after the other, then the closing
    step; [Raises] is the [RecursionError] of the first call of [text_of]
    that runs out of frames. *)
Definition et_extract_in (frames : nat) (root : Element) : Py.outcome ExtractedContent :=
  match et_abstract_parts_in frames root with
  | Some abstract_parts =>
      match et_body_parts_in frames root with
      | Some body_parts =>
          Py.Returns (et_finish (join_parts abstract_parts) (join_parts body_parts))
      | None => Py.Raises
      end
  | None => Py.Raises
  end.

(** ** [extract_from_api_xml_lxml], after the parse *)

(** [el.itertext()]: the text of the element, then for each child its
    own texts and its tail. *)
Fixpoint itertext (el : Element) : list string :=
  match el with
  | mkElement _ _ t cs _ =>
      option_list t ++ flat_map (fun c => itertext c ++ option_list (el_tail c)) cs
  end.

(** The string value of an element in XPath. *)
Definition string_value (el : Element) : string := Py.join "" (itertext el).

(** White space of XPath (space, tab, line feed, carriage return). *)
Definition xpath_space (c : ascii) : bool :=
  (Py.code c =? 32)%N || (Py.code c =? 9)%N || (Py.code c =? 10)%N || (Py.code c =? 13)%N.

Fixpoint xpath_collapse (in_run : bool) (l : list ascii) : list ascii :=
  match l with
  | [] => []
  | c :: l' =>
      if xpath_space c
      then (if in_run then xpath_collapse true l' else " "%char :: xpath_collapse true l')
      else c :: xpath_collapse false l'
  end.

(** [normalize-space(.)] *)
Definition normalize_space (s : string) : string :=
  Py.str (Py.rstrip_by xpath_space
           (xpath_collapse false (Py.lstrip_by xpath_space (Py.chars s)))).

(** [//*[local-name()=name and string-length(normalize-space(.))>20]] *)
Definition xpath_named_long (root : Element) (name : string) : list Element :=
  List.filter (fun el => bool_decide (el_local el = name)
                         && (20 <? Py.len (normalize_space (string_value el))))
              (iter root).

(** [//*[local-name()=name]] *)
Definition xpath_named (root : Element) (name : string) : list Element :=
  List.filter (fun el => bool_decide (el_local el = name)) (iter root).

(** [.//*[local-name()='para' or local-name()='section']]: the proper
    descendants, in document order. *)
Definition xpath_para_or_section (el : Element) : list Element :=
  List.filter (fun d => bool_decide (el_local d = "para") || bool_decide (el_local d = "section"))
              (flat_map iter (el_children el)).

(** [(el.text or "") + "".join(el.itertext())], white space collapsed
    and stripped. *)
Definition lxml_text_of (el : Element) : string :=
  Py.strip (Py.re_sub_ws (Py.or_empty (el_text el) +:+ Py.join "" (itertext el))).

Definition lxml_abstract_parts (root : Element) : list string :=
  let abstract_parts :=
    fold_left (fun parts name =>
                 fold_left (fun parts el => add_abstract parts (lxml_text_of el))
                           (xpath_named_long root name) parts)
              ["description"; "abstract"] [] in
  take 3 abstract_parts.

Definition lxml_body_parts (root : Element) : list string :=
  let body_parts :=
    match xpath_named root "body" with
    | body0 :: _ =>
        fold_left (fun parts el => add_body 30 parts (lxml_text_of el))
                  (xpath_para_or_section body0) []
    | [] => []
    end in
  match body_parts with
  | [] => fold_left (fun parts el => add_body 50 parts (lxml_text_of el))
                    (xpath_named root "para") body_parts
  | _ :: _ => body_parts
  end.

(** Lines 164 to 169. *)
Definition lxml_finish (abstract full_text : string) : ExtractedContent :=
  if negb (Py.nonempty full_text) && (200 <? Py.len abstract) then
    {| abstract := abstract; full_text := abstract; ec_source := api |}
  else {| abstract := abstract; full_text := full_text; ec_source := api |}.

Definition lxml_extract (root : Element) : ExtractedContent :=
  lxml_finish (join_parts (lxml_abstract_parts root)) (join_parts (lxml_body_parts root)).

(** ** The parsed HTML document

    What [BeautifulSoup(raw_body, "lxml")] builds: text nodes and tags
    with their attributes, as written in the page. The soup itself is
    the tag that holds the top-level nodes. Only the strings that
    [get_text] returns are represented as text nodes. *)
#[local] Unset Elimination Schemes.
Inductive Node : Type :=
| NText (s : string)
| NTag (name : string) (attrs : list (string * string)) (children : list Node).
#[local] Set Elimination Schemes.

Definition node_name (n : Node) : string :=
  match n with NTag name _ _ => name | NText _ => "" end.
Definition node_attrs (n : Node) : list (string * string) :=
  match n with NTag _ attrs _ => attrs | NText _ => [] end.
Definition node_children (n : Node) : list Node :=
  match n with NTag _ _ cs => cs | NText _ => [] end.

(** A tag and the tags below it, in document order. *)
Fixpoint tags_in (n : Node) : list Node :=
  match n with
  | NText _ => []
  | NTag _ _ cs => n :: flat_map tags_in cs
  end.

(** The tags strictly below a tag: what [select] and
    [find_all(recursive=True)] search. *)
Definition descendant_tags (n : Node) : list Node :=
  flat_map tags_in (node_children n).

(** The tags among the children: what [find_all(recursive=False)]
    searches. *)
Definition child_tags (n : Node) : list Node :=
  List.filter (fun c => match c with NTag _ _ _ => true | NText _ => false end)
              (node_children n).

Fixpoint strings (n : Node) : list string :=
  match n with
  | NText s => [s]
  | NTag _ _ cs => flat_map strings cs
  end.

(** [el.get_text(separator=" ", strip=True)]: every string stripped,
    the empty ones dropped, joined by one space. *)
Definition get_text (n : Node) : string :=
  Py.join " " (List.filter Py.nonempty (map Py.strip (strings n))).

Fixpoint attr_get (attrs : list (string * string)) (key : string) : option string :=
  match attrs with
  | [] => None
  | (k, v) :: rest => if bool_decide (k = key) then Some v else attr_get rest key
  end.

(** The white-space separated tokens of an attribute value. *)
Fixpoint tokens_go (cur : list ascii) (l : list ascii) : list string :=
  match l with
  | [] => match cur with [] => [] | _ :: _ => [Py.str (rev cur)] end
  | c :: l' =>
      if Py.isspace c
      then match cur with
           | [] => tokens_go [] l'
           | _ :: _ => Py.str (rev cur) :: tokens_go [] l'
           end
      else tokens_go (c :: cur) l'
  end.
Definition class_list (n : Node) : list string :=
  tokens_go [] (Py.chars (Py.or_empty (attr_get (node_attrs n) "class"))).

(** The CSS selectors of the two tables of [extract_from_html]. *)
Inductive selector : Type :=
| AttrContains (attr sub : string)   (* [attr*='sub'] *)
| HasClass (c : string)              (* .c *)
| HasAttr (attr : string)            (* [attr] *)
| TagClass (tag c : string)          (* tag.c *)
| HasId (i : string).                (* #i *)

Definition has_class (c : string) (n : Node) : bool :=
  bool_decide (c ∈ class_list n).

Definition matches (sel : selector) (n : Node) : bool :=
  match sel with
  | AttrContains attr sub =>
      match attr_get (node_attrs n) attr with
      | Some v => Py.contains sub (Py.join " " (tokens_go [] (Py.chars v)))
      | None => false
      end
  | HasClass c => has_class c n
  | HasAttr attr => bool_decide (is_Some (attr_get (node_attrs n) attr))
  | TagClass tag c => bool_decide (node_name n = tag) && has_class c n
  | HasId i => bool_decide (attr_get (node_attrs n) "id" = Some i)
  end.

(** [soup.select(sel)] *)
Definition select (soup : Node) (sel : selector) : list Node :=
  List.filter (matches sel) (descendant_tags soup).

Definition is_p_or_div (n : Node) : bool :=
  bool_decide (node_name n = "p") || bool_decide (node_name n = "div").

Definition abstract_selectors : list selector :=
  [AttrContains "class" "abstract"; HasClass "abstract";
   HasAttr "data-abstract"; TagClass "div" "abstract-group"].

Definition body_selectors : list selector :=
  [HasClass "body"; AttrContains "class" "article-body";
   AttrContains "class" "Body"; TagClass "div" "article-body";
   TagClass "section" "body"; HasId "body"; HasClass "main-content"].

Definition html_abstract_parts (soup : Node) : list string :=
  take 3
    (fold_left (fun parts sel =>
                  fold_left (fun parts el => add_abstract parts (get_text el))
                            (select soup sel) parts)
               abstract_selectors []).

(** The innermost loop: the leaf paragraphs of one container. *)
Definition add_leaves (el : Node) (body_parts : list string) : list string :=
  fold_left (fun parts p =>
               match List.filter is_p_or_div (child_tags p) with
               | _ :: _ => parts
               | [] => add_body 40 parts (get_text p)
               end)
            (List.filter is_p_or_div (descendant_tags el)) body_parts.

(** The loop over the containers one selector matches, left at the
    first container after which [body_parts] is not empty. *)
Fixpoint body_of_containers (els : list Node) (body_parts : list string) : list string :=
  match els with
  | [] => body_parts
  | el :: rest =>
      match add_leaves el body_parts with
      | [] => body_of_containers rest []
      | (_ :: _) as parts => parts
      end
  end.

(** The loop over the selectors, left in the same way. *)
Fixpoint body_of_selectors (soup : Node) (sels : list selector)
    (body_parts : list string) : list string :=
  match sels with
  | [] => body_parts
  | sel :: rest =>
      match body_of_containers (select soup sel) body_parts with
      | [] => body_of_selectors soup rest []
      | (_ :: _) as parts => parts
      end
  end.

Definition html_body_parts (soup : Node) : list string :=
  match body_of_selectors soup body_selectors [] with
  | [] => fold_left (fun parts p => add_body 80 parts (get_text p))
                    (List.filter (fun n => bool_decide (node_name n = "p"))
                                 (descendant_tags soup)) []
  | (_ :: _) as parts => parts
  end.

(** Lines 224 to 229. *)
Definition html_finish (abstract full_text : string) : ExtractedContent :=
  if negb (Py.nonempty full_text) && Py.nonempty abstract then
    {| abstract := abstract; full_text := abstract; ec_source := crawl |}
  else {| abstract := abstract; full_text := full_text; ec_source := crawl |}.

Definition html_extract (soup : Node) : ExtractedContent :=
  html_finish (join_parts (html_abstract_parts soup)) (join_parts (html_body_parts soup)).

(** What [ET.fromstring] does on a string: it returns the root, raises
    [ET.ParseError] (the document is not well-formed), or raises another
    exception, which [extract_from_api_xml] does not catch. The parser
    encodes the string before it reads it, and that fails with
    [UnicodeEncodeError] on a string that holds a lone surrogate. *)
Inductive et_parse : Type :=
| Parsed (root : Element)
| ParseError
| OtherError.

Section Parsers.
Variable ET_fromstring : string -> et_parse.
(** [etree.fromstring(raw_body.encode("utf-8"))]: [None] for any
    exception, all of them caught alike. *)
Variable lxml_fromstring : string -> option Element.
(** [BeautifulSoup(raw_body, "lxml")] never raises. *)
Variable BeautifulSoup : string -> Node.

(** In the three functions below [frames] is the room there is for
    [_collect_text] in [extract_from_api_xml] (see [et_extract_in]). *)
Definition extract_from_api_xml (frames : nat) (raw_body : string)
    : Py.outcome ExtractedContent :=
  match ET_fromstring raw_body with
  | Parsed root => et_extract_in frames root
  | ParseError => Py.Returns empty_api
  | OtherError => Py.Raises
  end.

(** The path-query extractor walks the document in the library, without
    Python calls that nest with it: only its fallback can raise. *)
Definition extract_from_api_xml_lxml (frames : nat) (raw_body : string)
    : Py.outcome ExtractedContent :=
  match lxml_fromstring raw_body with
  | None => extract_from_api_xml frames raw_body
  | Some root => Py.Returns (lxml_extract root)
  end.

Definition extract_from_html (raw_body : string) : ExtractedContent :=
  html_extract (BeautifulSoup raw_body).

(** [frames] is the room of the call of [extract_from_api_xml] in the
    handler; the one made inside [extract_from_api_xml_lxml] is one call
    deeper and has one frame less. The handler, [except Exception],
    catches [RecursionError] as well. *)
Definition extract_content (frames : nat) (fetched : FetchedArticle)
    : Py.outcome ExtractedContent :=
  let ct := Py.lower_str (content_type fetched) in
  if Py.contains "xml" ct || bool_decide (source fetched = api)
  then match extract_from_api_xml_lxml (Nat.pred frames) (raw_body fetched) with
       | Py.Returns c => Py.Returns c
       | Py.Raises => extract_from_api_xml frames (raw_body fetched)
       end
  else Py.Returns (extract_from_html (raw_body fetched)).
End Parsers.

End ContentExtractor.

(* ===================================================================== *)
(** * main.py                                                             *)
(* ===================================================================== *)

Module Main.
Import RssParser ArticleFetcher ContentExtractor.

(** The loop of [dedupe_by_link], with its two variables. *)
Fixpoint dedupe_loop (items : list RSSItem) (seen : gset string) (out : list RSSItem)
    : list RSSItem :=
  match items with
  | [] => out
  | x :: rest =>
      if bool_decide (link x ∉ seen)
      then dedupe_loop rest ({[link x]} ∪ seen) (out ++ [x])
      else dedupe_loop rest seen out
  end.

Definition dedupe_by_link (items : list RSSItem) : list RSSItem :=
  dedupe_loop items ∅ [].

(** One object of the JSON array that [run] writes. *)
Record Result : Type := mkResult {
  r_title : string;
  r_link : string;
  r_doi : option string;
  r_pii : option string;
  r_abstract : string;
  r_full_text : string;
  r_source : string;
  r_error : option string;
}.

Definition source_name (s : Source) : string :=
  match s with api => "api" | crawl => "crawl" end.

Definition skipped (it : RSSItem) (error : string) : Result :=
  {| r_title := title it; r_link := link it; r_doi := doi it; r_pii := pii it;
     r_abstract := ""; r_full_text := ""; r_source := "skip";
     r_error := Some error |}.

(** [items[:limit]] for an [int] limit: a negative one counts from the
    end. *)
Definition slice_to {A} (limit : Z) (l : list A) : list A :=
  if (0 <=? limit)%Z then take (Z.to_nat limit) l
  else take (length l - Z.to_nat (- limit)) l.

(** How [run] ends: [sys.exit(1)] when no feed is given, an uncaught
    exception, or the list written to [articles.json]. *)
Inductive run_result : Type :=
| Exit1
| Crashed
| Written (results : list Result).

Section Run.
Variable cfg : Config.t.
Variable feedparser_entries : string -> list entry.
Variable ET_fromstring : string -> et_parse.
Variable lxml_fromstring : string -> option Element.
Variable BeautifulSoup : string -> Node.
(** The room [extract_content] has when [run] calls it (see
    [ContentExtractor.extract_content]): the same for every item. *)
Variable frames : nat.

(** The body of the loop of [run] over the items. *)
Definition process (it : RSSItem) (prefer_api : bool)
    : Requests.IO (Py.outcome Result) :=
  match article_id it with
  | None => Requests.ret (Py.Returns (skipped it "no_doi_or_pii"))
  | Some _ =>
      do fetched <- fetch_article cfg it prefer_api
                      (Py.or_else (Some (Config.ELSEVIER_API_KEY cfg)) None) None ;
      Requests.ret
        (match fetched with
         | None => Py.Returns (skipped it "fetch_failed")
         | Some f =>
             match extract_content ET_fromstring lxml_fromstring BeautifulSoup frames f with
             | Py.Raises => Py.Raises
             | Py.Returns extracted =>
                 Py.Returns
                   {| r_title := title it; r_link := link it;
                      r_doi := doi it; r_pii := pii it;
                      r_abstract := abstract extracted;
                      r_full_text := full_text extracted;
                      r_source := source_name (ec_source extracted);
                      r_error := None |}
             end
         end)
  end.

(** The loop: an exception on one item ends it. *)
Fixpoint process_all (items : list RSSItem) (prefer_api : bool)
    : Requests.IO (Py.outcome (list Result)) :=
  match items with
  | [] => Requests.ret (Py.Returns [])
  | it :: rest =>
      do r <- process it prefer_api ;
      match r with
      | Py.Raises => Requests.ret Py.Raises
      | Py.Returns r =>
          do rs <- process_all rest prefer_api ;
          Requests.ret (match rs with
                        | Py.Returns rs => Py.Returns (r :: rs)
                        | Py.Raises => Py.Raises
                        end)
      end
  end.

(** The items [run] works on: every feed parsed, the duplicates
    dropped, the limit applied. *)
Definition run_items (feed_urls : list string) (limit : option Z)
    : Requests.IO (list RSSItem) :=
  do items <- parse_feeds feedparser_entries feed_urls ;
  let items := dedupe_by_link items in
  Requests.ret (match limit with Some n => slice_to n items | None => items end).

Definition run (feed_urls : list string) (limit : option Z) (prefer_api : bool)
    : Requests.IO run_result :=
  match feed_urls with
  | [] => Requests.ret Exit1
  | _ :: _ =>
      do items <- run_items feed_urls limit ;
      do results <- process_all items prefer_api ;
      Requests.ret (match results with
                    | Py.Returns rs => Written rs
                    | Py.Raises => Crashed
                    end)
  end.
End Run.

Section Cli.
Variable cfg : Config.t.
Variable feedparser_entries : string -> list entry.
Variable ET_fromstring : string -> et_parse.
Variable lxml_fromstring : string -> option Element.
Variable BeautifulSoup : string -> Node.
Variable frames : nat.

(** [main], after the command line is parsed: [rss_urls], [limit] and
    [no_api] are the arguments, [RSS_FEEDS] the variable of the
    environment. The output directory is not modelled. *)
Definition main (rss_urls : list string) (limit : option Z) (no_api : bool)
    (RSS_FEEDS : option string) : Requests.IO run_result :=
  let feed_urls :=
    match rss_urls with
    | [] => Config.get_rss_feeds_from_env RSS_FEEDS
    | _ :: _ => rss_urls
    end in
  run cfg feedparser_entries ET_fromstring lxml_fromstring BeautifulSoup frames
      feed_urls limit (negb no_api).
End Cli.

End Main.

(* ===================================================================== *)
(** * Definitions of the specification side                               *)
(* ===================================================================== *)

Module Spec.
Import RssParser ArticleFetcher ContentExtractor Main.

(** The link of an entry as [parse_feed_content] reads it. *)
Definition entry_link (e : entry) : string := Py.strip (Py.or_empty (e !! "link")).

(** A request to the API channel carries the key header. *)
Definition is_api_request (r : Requests.Request) : bool :=
  bool_decide ("X-ELS-APIKey" ∈ map fst (Requests.req_headers r)).

(** The key [fetch_via_api] works with and the cookie [fetch_via_crawl]
    sends. *)
Definition api_key_of (cfg : Config.t) (api_key : option string) : string :=
  Py.strip (Py.or_empty (Py.or_else api_key (Some (Config.ELSEVIER_API_KEY cfg)))).
Definition cookie_of (cfg : Config.t) (cookie : option string) : string :=
  Py.strip (Py.or_empty (Py.or_else cookie (Some (Config.SCIENCE_DIRECT_COOKIE cfg)))).

(** Deduplication by equality that keeps the first occurrence. *)
Fixpoint keep_first (l : list string) : list string :=
  match l with
  | [] => []
  | x :: l' => x :: List.filter (fun y => negb (bool_decide (y = x))) (keep_first l')
  end.

(** The abstract candidates as the specification words them: the texts of
    the elements locally named [description] or [abstract], in document
    order, those longer than 20 kept, deduplicated, the first three. *)
Definition named_one_of (names : list string) (el : Element) : bool :=
  bool_decide (_strip_ns (el_tag el) ∈ names).

Definition abstract_parts_in_document_order (root : Element) : list string :=
  take 3 (keep_first
            (List.filter (long_enough 20)
               (map text_of
                    (List.filter (named_one_of ["description"; "abstract"]) (iter root))))).

(** The same with the elements in the order in which the two extractors
    visit them: every [description] of the document, then every
    [abstract]. *)
Definition et_candidates (root : Element) : list Element :=
  find_all_with_tag root "description" ++ find_all_with_tag root "abstract".

Definition lxml_candidates (root : Element) : list Element :=
  xpath_named_long root "description" ++ xpath_named_long root "abstract".

Definition abstract_parts_in_pass_order (flatten : Element -> string)
    (candidates : list Element) : list string :=
  take 3 (keep_first (List.filter (long_enough 20) (map flatten candidates))).

(** The invariant on an empty full text as the specification words it:
    the abstract is empty too, or the collected abstract was longer than
    200 characters and was not promoted. *)
Definition empty_full_text_invariant_as_stated
    (collected_abstract : string) (r : ExtractedContent) : Prop :=
  full_text r = "" →
  abstract r = ""
  ∨ (200 < Py.len collected_abstract ∧ full_text r ≠ collected_abstract).

(** What one feed contributes to [parse_feeds]: its items when the GET
    answers with a status that [raise_for_status] accepts, nothing
    otherwise. *)
Definition feed_request (url : string) : Requests.Request := Requests.mkRequest url [] [].

Definition feed_items (feedparser_entries : string -> list entry)
    (net : Requests.Network) (url : string) : list RSSItem :=
  match net (feed_request url) with
  | Some resp =>
      if Requests.raises_for_status resp then []
      else parse_feed_content feedparser_entries (Requests.resp_text resp)
  | None => []
  end.

(** A result of [run] that copies the fields of an item. *)
Definition record_of (it : RSSItem) (r : Result) : Prop :=
  r_title r = title it ∧ r_link r = link it ∧ r_doi r = doi it ∧ r_pii r = pii it.

(** The two kinds of result: an extraction, from one of the two origins
    and without error, or a skip, with one of the two error codes and
    empty texts. *)
Definition well_formed_record (r : Result) : Prop :=
  (r_error r = None ∧ (r_source r = "api" ∨ r_source r = "crawl"))
  ∨ ((r_error r = Some "no_doi_or_pii" ∨ r_error r = Some "fetch_failed")
     ∧ r_source r = "skip" ∧ r_abstract r = "" ∧ r_full_text r = "").

(** The items a run works on, from the items its feeds yield. *)
Definition selected_items (limit : option Z) (items : list RSSItem) : list RSSItem :=
  match limit with
  | Some n => slice_to n (dedupe_by_link items)
  | None => dedupe_by_link items
  end.

(** A string made of ASCII characters. *)
Definition ascii_only (s : string) : Prop :=
  Forall (λ c, (Py.code c < 128)%N) (Py.chars s).

(** An element whose names hold no closing brace: neither its local name
    nor its namespace URI, if it has one. *)
Definition brace_free (str : string) : Prop := "}"%char ∉ Py.chars str.

Definition well_named (el : Element) : Prop :=
  brace_free (el_local el) ∧ ∀ uri, el_ns el = Some uri → brace_free uri.

(** The body candidates read as a selection: inside the first [body], the
    texts longer than 30; when there are none, the texts longer than 50 of
    the [para] elements of the document. *)
Definition body_or_fallback (in_body fallback : list string) : list string :=
  match in_body with
  | [] => List.filter (long_enough 50) fallback
  | _ :: _ => in_body
  end.

Definition et_body_selection (root : Element) : list string :=
  body_or_fallback
    (match first_named "body" (iter root) with
     | Some body_el =>
         List.filter (long_enough 30)
           (map text_of (find_all_with_tag body_el "section"
                         ++ find_all_with_tag body_el "para"
                         ++ find_all_with_tag body_el "p"))
     | None => []
     end)
    (map text_of (find_all_with_tag root "para")).

Definition lxml_body_selection (root : Element) : list string :=
  body_or_fallback
    (match xpath_named root "body" with
     | body0 :: _ =>
         List.filter (long_enough 30) (map lxml_text_of (xpath_para_or_section body0))
     | [] => []
     end)
    (map lxml_text_of (xpath_named root "para")).

(** The abstract parts made from the texts of the candidates, in the
    order in which they are met: those longer than 20, deduplicated, the
    first three. *)
Definition dedup_cap (texts : list string) : list string :=
  take 3 (keep_first (List.filter (long_enough 20) texts)).

(** The elements that [extract_from_api_xml] hands to [text_of], in the
    order of the calls: the abstract candidates, the [section], [para]
    and [p] elements of the first [body], and, when none of these gave a
    body part, the [para] elements of the document. *)
Definition et_body_elements (root : Element) : list Element :=
  match first_named "body" (iter root) with
  | Some body_el =>
      find_all_with_tag body_el "section" ++ find_all_with_tag body_el "para"
      ++ find_all_with_tag body_el "p"
  | None => []
  end.

Definition et_flattened (root : Element) : list Element :=
  et_candidates root ++ et_body_elements root
  ++ match List.filter (long_enough 30) (map text_of (et_body_elements root)) with
     | [] => find_all_with_tag root "para"
     | _ :: _ => []
     end.

(** There is room to flatten the element. *)
Definition fits (frames : nat) (el : Element) : bool := height el <=? frames.

(** A document in which the only candidates are [p] elements: no element
    is named [description], [abstract], [section] or [para], whether the
    name is read off the tag or is the local name. *)
Definition names_but_p : list string := ["description"; "abstract"; "section"; "para"].

Definition p_only (root : Element) : Prop :=
  Forall (λ el, (_strip_ns (el_tag el) ∉ names_but_p) ∧ (el_local el ∉ names_but_p))
         (iter root).

(** The texts longer than 30 of the [p] elements of the first [body]. *)
Definition p_texts (root : Element) : list string :=
  match first_named "body" (iter root) with
  | Some body_el =>
      List.filter (long_enough 30) (map text_of (find_all_with_tag body_el "p"))
  | None => []
  end.

End Spec.

(* ===================================================================== *)
(** * Sample inputs                                                       *)
(* ===================================================================== *)

Module Fixtures.
Import RssParser ArticleFetcher ContentExtractor Main.

Definition cfg0 : Config.t :=
  {| Config.ELSEVIER_API_KEY := "k3y"; Config.SCIENCE_DIRECT_COOKIE := "" |}.

Definition pii_link : string :=
  "https://www.sciencedirect.com/science/article/pii/S0304397520301234".

Definition item_a : RSSItem :=
  {| title := "First"; link := pii_link; doi := None;
     pii := Some "S0304397520301234"; description := "" |}.
Definition item_b : RSSItem :=
  {| title := "Second"; link := pii_link; doi := None;
     pii := Some "S0304397520301234"; description := "again" |}.

Definition feed_url : string := "https://rss.sciencedirect.com/publication/science/03043975".

(** A feed whose two entries have the same link. *)
Definition feed_entries (content : string) : list entry :=
  if bool_decide (content = "FEED")
  then [ list_to_map [("link", pii_link); ("title", "First")];
         list_to_map [("link", "  " +:+ pii_link); ("title", "Second ");
                      ("summary", "again")] ]
  else [].

Definition html_headers : gmap string string :=
  {[ "Content-Type" := "text/html; charset=utf-8" ]}.

(** A network where the feed and the article page answer and the API
    refuses with 403. *)
Definition net_api_403 : Requests.Network :=
  fun r =>
    if bool_decide (Requests.req_url r = feed_url)
    then Some (Requests.mkResponse 200 "FEED" ∅)
    else if bool_decide (Requests.req_url r = pii_link)
    then Some (Requests.mkResponse 200 "<html></html>" html_headers)
    else Some (Requests.mkResponse 403 "" ∅).

(** ** XML documents, with the tree both parsers build from each *)

Definition leaf (name text : string) : Element :=
  mkElement None name (Some text) [] None.

(** An abstract of 26 characters and nothing else. *)
Definition doc_short : string :=
  "<root><abstract>abcdefghijklmnopqrstuvwxyz</abstract></root>".
Definition tree_short : Element :=
  mkElement None "root" None [leaf "abstract" "abcdefghijklmnopqrstuvwxyz"] None.

(** An abstract of 600 characters, held by a child element, and no body. *)
Definition text600 : string := Py.str (replicate 600 "x"%char).
Definition doc_600 : string :=
  "<root><abstract><b>" +:+ text600 +:+ "</b></abstract></root>".
Definition tree_600 : Element :=
  mkElement None "root" None
    [mkElement None "abstract" None [leaf "b" text600] None] None.

(** Five distinct abstracts. *)
Definition abstract_n (n : string) : string := "Abstract number " +:+ n +:+ " of the article".
Definition doc_five : string :=
  "<root><abstract>" +:+ abstract_n "1" +:+ "</abstract><abstract>" +:+ abstract_n "2"
  +:+ "</abstract><abstract>" +:+ abstract_n "3" +:+ "</abstract><abstract>"
  +:+ abstract_n "4" +:+ "</abstract><abstract>" +:+ abstract_n "5"
  +:+ "</abstract></root>".
Definition tree_five : Element :=
  mkElement None "root" None
    (map (fun n => leaf "abstract" (abstract_n n)) ["1"; "2"; "3"; "4"; "5"]) None.

(** Three abstracts followed by a description. *)
Definition description_text : string := "A description that comes last".
Definition doc_mixed : string :=
  "<root><abstract>" +:+ abstract_n "1" +:+ "</abstract><abstract>" +:+ abstract_n "2"
  +:+ "</abstract><abstract>" +:+ abstract_n "3" +:+ "</abstract><description>"
  +:+ description_text +:+ "</description></root>".
Definition tree_mixed : Element :=
  mkElement None "root" None
    (map (fun n => leaf "abstract" (abstract_n n)) ["1"; "2"; "3"]
       ++ [leaf "description" description_text]) None.

(** A document without any of the names the extractors look for. *)
Definition doc_plain : string := "<root><title>A title</title></root>".
Definition tree_plain : Element :=
  mkElement None "root" None [leaf "title" "A title"] None.

(** A body whose only paragraph is a [p] element; its text is held by a
    child element. *)
Definition paragraph_text : string := "A paragraph of the body, long enough to be kept".
Definition doc_body_p : string :=
  "<root><body><p><b>" +:+ paragraph_text +:+ "</b></p></body></root>".
Definition tree_body_p : Element :=
  mkElement None "root" None
    [mkElement None "body" None
       [mkElement None "p" None [leaf "b" paragraph_text] None] None] None.

Definition sample_documents : list (string * Element) :=
  [(doc_short, tree_short); (doc_600, tree_600); (doc_five, tree_five);
   (doc_mixed, tree_mixed); (doc_plain, tree_plain); (doc_body_p, tree_body_p)].

Fixpoint lookup_document (docs : list (string * Element)) (raw : string) : option Element :=
  match docs with
  | [] => None
  | (d, t) :: rest => if bool_decide (d = raw) then Some t else lookup_document rest raw
  end.

(** The two XML parsers on the sample documents; every other string is
    rejected as not well-formed. *)
Definition sample_ET (raw : string) : et_parse :=
  match lookup_document sample_documents raw with
  | Some t => Parsed t
  | None => ParseError
  end.
Definition sample_lxml (raw : string) : option Element :=
  lookup_document sample_documents raw.

Definition doc_malformed : string := "<a><b></a>".

(** ** An HTML page: one [div] of class [abstract-group] with a text of
    30 characters, and no paragraph. *)
Definition page_abstract_only : string :=
  "<div class='abstract-group'>Foo bar baz... (30 characters)</div>".
Definition soup_abstract_only : Node :=
  NTag "[document]" []
    [NTag "html" []
       [NTag "body" []
          [NTag "div" [("class", "abstract-group")]
             [NText "Foo bar baz... (30 characters)"]]]].
Definition sample_soup (raw : string) : Node :=
  if bool_decide (raw = page_abstract_only) then soup_abstract_only
  else NTag "[document]" [] [].

(** ** A feed entry with one DOI in its link, followed by a full stop,
    and another one in its description. *)
Definition doi_entry : entry :=
  list_to_map [("link", "https://doi.org/10.1016/j.tcs.2020.01.001.");
               ("description", "See also 10.9999/other.paper; and more")].

(** A feed entry without DOI in its link or description, identified by
    its [dc_identifier] field. *)
Definition dc_entry : entry :=
  list_to_map [("link", "https://example.org/articles/42");
               ("description", "An article");
               ("dc_identifier", " urn:issn:0304-3975 ")].

(** A network where the API answers the request for the sample item with
    a small document, and nothing else answers. *)
Definition xml_headers : gmap string string :=
  {[ "Content-Type" := "application/xml; charset=utf-8" ]}.

Definition net_api_ok : Requests.Network :=
  fun r =>
    if bool_decide (Requests.req_url r
                    = "https://api.elsevier.com/content/article/pii/S0304397520301234")
    then Some (Requests.mkResponse 200 doc_short xml_headers)
    else None.

(** ** Bodies on which [extract_from_api_xml] raises *)

(** The room of the samples: about what the default recursion limit of
    1000 leaves to [_collect_text] in a run started from the command
    line. *)
Definition frames0 : nat := 990.

(** A body that is not well-formed and that [ET.fromstring] cannot even
    encode: [<a>], the lone surrogate U+D800, [</a>]. It is the text of a
    response whose bytes are the ones below and whose declared charset is
    UTF-7. The extractors never look into a body, they hand it to a
    parser; this body, which the alphabet of the strings used here cannot
    spell, is named by those bytes, and the parsers below do on the name
    what the libraries do on the body: [UnicodeEncodeError] in both. *)
Definition doc_surrogate : string := "<a>+2AA-</a>".

(** An abstract whose text lies under 3000 nested elements: well-formed,
    parsed by [xml.etree], refused by [lxml] for its depth. *)
Fixpoint nest (n : nat) (inner : Element) : Element :=
  match n with
  | 0 => inner
  | S n' => mkElement None "b" None [nest n' inner] None
  end.
Definition tree_deep : Element :=
  mkElement None "root" None
    [mkElement None "abstract" None [nest 3000 (leaf "i" (abstract_n "1"))] None] None.
Definition doc_deep : string :=
  "<root><abstract>" +:+ Py.str (concat (replicate 3000 (Py.chars "<b>")))
  +:+ "<i>" +:+ abstract_n "1" +:+ "</i>"
  +:+ Py.str (concat (replicate 3000 (Py.chars "</b>"))) +:+ "</abstract></root>".

(** The two XML parsers on these two bodies and on the sample
    documents. *)
Definition strict_ET (raw : string) : et_parse :=
  if bool_decide (raw = doc_surrogate) then OtherError
  else if bool_decide (raw = doc_deep) then Parsed tree_deep
  else sample_ET raw.
Definition strict_lxml (raw : string) : option Element :=
  if bool_decide (raw = doc_surrogate) then None
  else if bool_decide (raw = doc_deep) then None
  else sample_lxml raw.

End Fixtures.

(* ===================================================================== *)
(** * Lemmas on the string operations and on the network monad            *)
(* ===================================================================== *)

Section IOFacts.
Context {A B : Type}.
Implicit Types (m : Requests.IO A) (k : A -> Requests.IO B) (net : Requests.Network).

Lemma result_bind m k net :
  Requests.result (Requests.bind m k) net
  = Requests.result (k (Requests.result m net)) net.
Proof.
  unfold Requests.result, Requests.bind.
  destruct (m net) as [a t1]; simpl. by destruct (k a net).
Qed.

Lemma trace_bind m k net :
  Requests.trace (Requests.bind m k) net
  = Requests.trace m net ++ Requests.trace (k (Requests.result m net)) net.
Proof.
  unfold Requests.trace, Requests.result, Requests.bind.
  destruct (m net) as [a t1]; simpl. by destruct (k a net).
Qed.

Lemma result_ret (a : A) net : Requests.result (Requests.ret a) net = a.
Proof. reflexivity. Qed.

Lemma trace_ret (a : A) net : Requests.trace (Requests.ret a) net = [].
Proof. reflexivity. Qed.
End IOFacts.

Lemma nonempty_true_iff (s : string) : Py.nonempty s = true ↔ s ≠ "".
Proof. destruct s; simpl; split; congruence. Qed.

Lemma nonempty_false_iff (s : string) : Py.nonempty s = false ↔ s = "".
Proof. destruct s; simpl; split; congruence. Qed.

(* ===================================================================== *)
(** * Lists and documents                                                 *)
(* ===================================================================== *)

Section Loops.
Import ContentExtractor Spec.
Implicit Types (ts acc parts : list string) (t : string) (m : nat).

Lemma fold_left_map_arg {A B C} (g : C → B → C) (f : A → B) (l : list A) (c : C) :
  fold_left (λ b a, g b (f a)) l c = fold_left g (map f l) c.
Proof. revert c. induction l as [|a l IH]; intros c; simpl; [done|apply IH]. Qed.

Lemma filter_elem {A} (f : A → bool) (l : list A) (x : A) :
  x ∈ List.filter f l ↔ x ∈ l ∧ f x = true.
Proof. rewrite !list_elem_of_In. apply filter_In. Qed.

(** The loop that appends the body candidates is a filter. *)
Lemma fold_add_body m ts : ∀ acc,
  fold_left (add_body m) ts acc = acc ++ List.filter (long_enough m) ts.
Proof.
  induction ts as [|t ts IH]; intros acc; simpl; [by rewrite app_nil_r|].
  rewrite IH. unfold add_body. destruct (long_enough m t); [|done].
  by rewrite <- app_assoc.
Qed.

Lemma body_loop_spec {A} m (flatten : A → string) (els : list A) acc :
  fold_left (λ parts el, add_body m parts (flatten el)) els acc
  = acc ++ List.filter (long_enough m) (map flatten els).
Proof. by rewrite fold_left_map_arg, fold_add_body. Qed.
End Loops.

Section Documents.
Import ContentExtractor Spec.
Implicit Types (root el d : Element) (name : string).

Lemma iter_self el : el ∈ iter el.
Proof. destruct el. simpl. apply list_elem_of_here. Qed.

Lemma elem_of_flat_map_iter (cs : list Element) d :
  d ∈ flat_map iter cs ↔ ∃ c, c ∈ cs ∧ d ∈ iter c.
Proof.
  rewrite list_elem_of_In, in_flat_map. split; intros (c & Hc & Hd); exists c.
  - by rewrite !list_elem_of_In.
  - by rewrite <- !list_elem_of_In.
Qed.

(** The descendants of an element of the document are in the document. *)
Lemma iter_trans root : ∀ el d, el ∈ iter root → d ∈ iter el → d ∈ iter root.
Proof.
  induction root as [ns local text children tail IH] using Element_ind.
  intros el d Hel Hd. simpl in Hel. apply elem_of_cons in Hel as [->|Hel]; [done|].
  apply elem_of_flat_map_iter in Hel as (c & Hc & Hel).
  simpl. apply list_elem_of_further, elem_of_flat_map_iter. exists c. split; [done|].
  rewrite Forall_forall in IH. by apply (IH c Hc el d).
Qed.

Lemma iter_children el d : d ∈ flat_map iter (el_children el) → d ∈ iter el.
Proof. destruct el. simpl. apply list_elem_of_further. Qed.

Lemma first_named_elem name (els : list Element) el :
  first_named name els = Some el → el ∈ els.
Proof.
  induction els as [|e els IH]; simpl; [done|].
  case_bool_decide; [intros [= ->]; apply list_elem_of_here|].
  intros Hf. by apply list_elem_of_further, IH.
Qed.
End Documents.

(* ===================================================================== *)
(** * content_extractor: the recursion limit                              *)
(* ===================================================================== *)

Section RecursionLimit.
Import ContentExtractor Spec.
Implicit Types (root el d : Element) (frames : nat) (parts buf : list string).

(** A loop whose body succeeds exactly on the elements that pass a test
    runs to its end exactly when all of them pass. *)
Lemma for_each_spec {A S} (body : S → A → option S) (ok : A → bool) (g : S → A → S)
    (l : list A) :
  (∀ s x, x ∈ l → body s x = if ok x then Some (g s x) else None) →
  ∀ s, for_each body l s = if forallb ok l then Some (fold_left g l s) else None.
Proof.
  induction l as [|x l IH]; intros Hbody s; simpl; [done|].
  rewrite (Hbody s x) by apply list_elem_of_here.
  destruct (ok x); simpl; [|done].
  apply IH. intros s' y Hy. by apply Hbody, list_elem_of_further.
Qed.

Lemma max_list_le (l : list nat) (n : nat) : max_list l ≤ n ↔ Forall (λ x, x ≤ n) l.
Proof.
  induction l as [|x l IH]; simpl; [split; [constructor|lia]|].
  rewrite Forall_cons, <- IH. lia.
Qed.

Lemma height_le el frames :
  height el ≤ S frames ↔ Forall (λ c, height c ≤ frames) (el_children el).
Proof.
  destruct el as [ns local text cs tail]. simpl.
  rewrite <- Nat.succ_le_mono, max_list_le, Forall_fmap. done.
Qed.

Lemma height_positive el : 0 < height el.
Proof. destruct el. simpl. lia. Qed.

Lemma fits_children el frames :
  fits (S frames) el = forallb (fits frames) (el_children el).
Proof.
  apply eq_true_iff_eq. unfold fits. rewrite forallb_forall, Nat.leb_le, height_le.
  rewrite Forall_forall. split; intros H c Hc.
  - apply Nat.leb_le, H. by apply list_elem_of_In.
  - apply Nat.leb_le, H. by apply list_elem_of_In.
Qed.

(** [_collect_text] raises exactly on an element with more levels than
    there are frames, and computes the same buffer otherwise. *)
Lemma collect_text_in_spec frames : ∀ el buf,
  _collect_text_in frames el buf
  = if fits frames el then Some (_collect_text el buf) else None.
Proof.
  induction frames as [|frames IH]; intros el buf.
  - unfold fits. pose proof (height_positive el) as Hpos.
    destruct (height el <=? 0) eqn:Hle; [apply Nat.leb_le in Hle; lia|done].
  - rewrite fits_children. destruct el as [ns local text cs tail].
    cbn [_collect_text_in el_children el_text _collect_text].
    apply (for_each_spec _ (fits frames)
             (λ b child, append_if (_collect_text child b) (el_tail child))).
    intros b child _. rewrite IH. by destruct (fits frames child).
Qed.

Lemma text_of_in_spec frames el :
  text_of_in frames el = if fits frames el then Some (text_of el) else None.
Proof.
  unfold text_of_in, text_of. rewrite collect_text_in_spec. by destruct (fits frames el).
Qed.

Lemma flatten_loop_spec frames (add : list string → string → list string)
    (els : list Element) parts :
  for_each (flatten_then frames add) els parts
  = if forallb (fits frames) els
    then Some (fold_left (λ parts el, add parts (text_of el)) els parts) else None.
Proof.
  apply (for_each_spec _ (fits frames) (λ parts el, add parts (text_of el))).
  intros ps el _. unfold flatten_then. rewrite text_of_in_spec. by destruct (fits frames el).
Qed.

Lemma et_abstract_parts_in_spec frames root :
  et_abstract_parts_in frames root
  = if forallb (fits frames) (et_candidates root)
    then Some (et_abstract_parts root) else None.
Proof.
  unfold et_abstract_parts_in, et_abstract_parts, et_candidates.
  cbn [for_each fold_left]. rewrite forallb_app, !flatten_loop_spec.
  destruct (forallb _ (find_all_with_tag root "description")); [|done].
  rewrite flatten_loop_spec.
  destruct (forallb _ (find_all_with_tag root "abstract")); [|done].
  cbn [andb]. by destruct (fold_left _ (find_all_with_tag root "abstract") _).
Qed.

(** The part of the body loop that is inside the first [body]. *)
Lemma et_in_body_loop frames (body_el : Element) :
  for_each (λ parts tag,
              for_each (flatten_then frames (add_body 30))
                       (find_all_with_tag body_el tag) parts)
           ["section"; "para"; "p"] []
  = if forallb (fits frames)
         (find_all_with_tag body_el "section" ++ find_all_with_tag body_el "para"
          ++ find_all_with_tag body_el "p")
    then Some (List.filter (long_enough 30)
                 (map text_of (find_all_with_tag body_el "section"
                               ++ find_all_with_tag body_el "para"
                               ++ find_all_with_tag body_el "p")))
    else None.
Proof.
  cbn [for_each]. rewrite !forallb_app, flatten_loop_spec.
  destruct (forallb _ (find_all_with_tag body_el "section")); [|done].
  rewrite flatten_loop_spec.
  destruct (forallb _ (find_all_with_tag body_el "para")); [|done].
  rewrite flatten_loop_spec.
  destruct (forallb _ (find_all_with_tag body_el "p")); [|done].
  cbn [andb]. f_equal. rewrite !body_loop_spec. cbn [app].
  by rewrite !map_app, !List.filter_app, app_assoc.
Qed.

Lemma et_body_parts_unfold root :
  et_body_parts root
  = match List.filter (long_enough 30) (map text_of (et_body_elements root)) with
    | [] => List.filter (long_enough 50) (map text_of (find_all_with_tag root "para"))
    | (_ :: _) as body_parts => body_parts
    end.
Proof.
  unfold et_body_parts, et_body_elements.
  destruct (first_named "body" (iter root)) as [body_el|]; cbn [fold_left].
  - rewrite !body_loop_spec. cbn [app].
    rewrite !map_app, !List.filter_app.
    rewrite <- (app_assoc (List.filter _ (map _ (find_all_with_tag body_el "section")))
                          (List.filter _ (map _ (find_all_with_tag body_el "para")))).
    match goal with |- match ?l with _ => _ end = _ => by destruct l end.
  - by rewrite body_loop_spec.
Qed.

Lemma et_body_parts_in_spec frames root :
  et_body_parts_in frames root
  = if forallb (fits frames)
         (et_body_elements root
          ++ match List.filter (long_enough 30) (map text_of (et_body_elements root)) with
             | [] => find_all_with_tag root "para"
             | _ :: _ => []
             end)
    then Some (et_body_parts root) else None.
Proof.
  rewrite et_body_parts_unfold. unfold et_body_parts_in, et_body_elements.
  rewrite forallb_app.
  destruct (first_named "body" (iter root)) as [body_el|].
  - rewrite et_in_body_loop.
    destruct (forallb _ (_ ++ _ ++ _)); [|done]. cbn [andb].
    destruct (List.filter _ _) as [|t ts]; [|done].
    rewrite flatten_loop_spec. destruct (forallb _ _); [|done].
    by rewrite body_loop_spec.
  - cbn [forallb andb map List.filter]. rewrite flatten_loop_spec.
    destruct (forallb _ _); [|done]. by rewrite body_loop_spec.
Qed.

(** What [extract_from_api_xml] does with a parsed document: it raises
    exactly when one of the elements it flattens has more levels than
    there are frames, and returns the extraction otherwise. *)
Lemma et_extract_in_spec frames root :
  et_extract_in frames root
  = if forallb (fits frames) (et_flattened root)
    then Py.Returns (et_extract root) else Py.Raises.
Proof.
  unfold et_extract_in, et_flattened, et_extract.
  rewrite forallb_app, et_abstract_parts_in_spec, et_body_parts_in_spec.
  destruct (forallb _ (et_candidates root)); [|done].
  by destruct (forallb _ _).
Qed.

Lemma height_iter root : ∀ el, el ∈ iter root → height el ≤ height root.
Proof.
  induction root as [ns local text children tail IH] using Element_ind.
  intros el. simpl. intros [->|Hel]%elem_of_cons; [done|].
  apply elem_of_flat_map_iter in Hel as (c & Hc & Hel).
  rewrite Forall_forall in IH. specialize (IH c Hc el Hel).
  assert (height c ≤ max_list (map height children)) as Hmax.
  { apply max_list_elem_of_le, list_elem_of_fmap. by exists c. }
  lia.
Qed.

Lemma find_all_in_document (parent : Element) name el :
  el ∈ find_all_with_tag parent name → el ∈ iter parent.
Proof. unfold find_all_with_tag. by intros [? _]%filter_elem. Qed.

Lemma et_flattened_in_document root el : el ∈ et_flattened root → el ∈ iter root.
Proof.
  unfold et_flattened, et_candidates, et_body_elements. rewrite !elem_of_app.
  intros [[H|H]|[H|H]]; try by eapply find_all_in_document.
  - destruct (first_named "body" (iter root)) as [body_el|] eqn:Hbody; [|by inversion H].
    apply first_named_elem in Hbody.
    apply (iter_trans root body_el); [done|].
    rewrite !elem_of_app in H. destruct H as [H|[H|H]]; by eapply find_all_in_document.
  - destruct (List.filter _ _); [by eapply find_all_in_document|by inversion H].
Qed.

(** A document with no more levels than there are frames is extracted. *)
Lemma et_extract_in_room frames root :
  height root ≤ frames → et_extract_in frames root = Py.Returns (et_extract root).
Proof.
  intros Hroom. rewrite et_extract_in_spec.
  assert (forallb (fits frames) (et_flattened root) = true) as ->; [|done].
  apply forallb_forall. intros el Hel%list_elem_of_In%et_flattened_in_document.
  apply Nat.leb_le. pose proof (height_iter root el Hel). lia.
Qed.

(** Room for the tallest of the elements that are flattened is enough. *)
Lemma et_extract_in_fits frames root (n : nat) :
  Forall (λ el, height el ≤ n) (et_flattened root) → n ≤ frames →
  et_extract_in frames root = Py.Returns (et_extract root).
Proof.
  intros Hall Hn. rewrite et_extract_in_spec.
  assert (forallb (fits frames) (et_flattened root) = true) as ->; [|done].
  apply forallb_forall. intros el Hel%list_elem_of_In.
  rewrite Forall_forall in Hall. apply Nat.leb_le. specialize (Hall el Hel). lia.
Qed.

Lemma fits_mono frames frames' el : frames ≤ frames' → fits frames el = true → fits frames' el = true.
Proof. unfold fits. rewrite !Nat.leb_le. lia. Qed.

(** More room never turns a result into an error, nor changes it. *)
Lemma et_extract_in_mono frames frames' root (c : ExtractedContent) :
  frames ≤ frames' →
  et_extract_in frames root = Py.Returns c → et_extract_in frames' root = Py.Returns c.
Proof.
  intros Hle. rewrite !et_extract_in_spec.
  destruct (forallb (fits frames) _) eqn:Hfits; [|done]. intros [= <-].
  assert (forallb (fits frames') (et_flattened root) = true) as ->; [|done].
  rewrite forallb_forall in Hfits |- *. intros el Hel. by apply (fits_mono frames), Hfits.
Qed.

Section Dispatching.
Variable ET_fromstring : string → et_parse.
Variable lxml_fromstring : string → option Element.
Variable BeautifulSoup : string → Node.

Lemma extract_from_api_xml_mono frames frames' raw (c : ExtractedContent) :
  frames ≤ frames' →
  extract_from_api_xml ET_fromstring frames raw = Py.Returns c →
  extract_from_api_xml ET_fromstring frames' raw = Py.Returns c.
Proof.
  intros Hle. unfold extract_from_api_xml.
  destruct (ET_fromstring raw); [by apply et_extract_in_mono|done|done].
Qed.

(** On the structured side [extract_content] returns what the path-query
    extractor returns on a body its parser accepts, and otherwise does what
    [extract_from_api_xml] does when called in the handler: the first
    attempt, one call deeper, changes nothing to the outcome. *)
Lemma extract_content_structured frames (f : ArticleFetcher.FetchedArticle) :
  Py.contains "xml" (Py.lower_str (ArticleFetcher.content_type f))
  || bool_decide (ArticleFetcher.source f = ArticleFetcher.api) = true →
  extract_content ET_fromstring lxml_fromstring BeautifulSoup frames f
  = match lxml_fromstring (ArticleFetcher.raw_body f) with
    | Some root => Py.Returns (lxml_extract root)
    | None => extract_from_api_xml ET_fromstring frames (ArticleFetcher.raw_body f)
    end.
Proof.
  intros Hxml. unfold extract_content. cbv zeta. rewrite Hxml.
  unfold extract_from_api_xml_lxml.
  destruct (lxml_fromstring (ArticleFetcher.raw_body f)) as [root|]; [done|].
  destruct (extract_from_api_xml ET_fromstring (Nat.pred frames) _) as [c|] eqn:Hfirst;
    [|done].
  symmetry. apply (extract_from_api_xml_mono (Nat.pred frames)); [lia|done].
Qed.

Lemma extract_content_html frames (f : ArticleFetcher.FetchedArticle) :
  Py.contains "xml" (Py.lower_str (ArticleFetcher.content_type f))
  || bool_decide (ArticleFetcher.source f = ArticleFetcher.api) = false →
  extract_content ET_fromstring lxml_fromstring BeautifulSoup frames f
  = Py.Returns (html_extract (BeautifulSoup (ArticleFetcher.raw_body f))).
Proof. intros Hxml. unfold extract_content. cbv zeta. by rewrite Hxml. Qed.
End Dispatching.
End RecursionLimit.

(* ===================================================================== *)
(** * rss_parser: the items of a feed                                     *)
(* ===================================================================== *)

Section ParseEntries.
Import RssParser Spec.

Lemma parse_entry_link (e : entry) (it : RSSItem) :
  parse_entry e = Some it → link it = entry_link e ∧ entry_link e ≠ "".
Proof.
  unfold parse_entry, entry_link.
  destruct (Py.nonempty (Py.strip (Py.or_empty (e !! "link")))) eqn:Hl; simpl; [|done].
  intros [= <-]; simpl. split; [done|]. by apply nonempty_true_iff.
Qed.

Lemma parse_entry_skips (e : entry) :
  parse_entry e = None ↔ entry_link e = "".
Proof.
  unfold parse_entry, entry_link.
  destruct (Py.nonempty (Py.strip (Py.or_empty (e !! "link")))) eqn:Hl; simpl.
  - apply nonempty_true_iff in Hl. split; [done|]. intros. contradiction.
  - apply nonempty_false_iff in Hl. by split.
Qed.

(** The accumulator of the loop only grows at its end. *)
Lemma parse_entries_acc (es : list entry) (items : list RSSItem) :
  parse_entries es items = items ++ parse_entries es [].
Proof.
  revert items. induction es as [|e es IH]; intros items; simpl.
  - by rewrite app_nil_r.
  - destruct (parse_entry e) as [it|]; [|apply IH].
    rewrite (IH (items ++ [it])), (IH [it]). by rewrite <- app_assoc.
Qed.

Lemma parse_entries_links (es : list entry) :
  map link (parse_entries es []) = List.filter Py.nonempty (map entry_link es).
Proof.
  induction es as [|e es IH]; simpl; [done|].
  destruct (parse_entry e) as [it|] eqn:He.
  - apply parse_entry_link in He as [Hl Hne].
    rewrite parse_entries_acc. simpl. rewrite IH, Hl.
    apply nonempty_true_iff in Hne. by rewrite Hne.
  - apply parse_entry_skips in He. rewrite He. simpl. apply IH.
Qed.
End ParseEntries.

(** C10. Every item that [parse_feed_content] returns has a non-empty
    link: the links of the items are, in order, the stripped links of the
    entries that are not empty, so an entry whose link is missing or
    blank yields no item and every other entry yields one. *)
Theorem parse_feed_content_links_nonempty
    (feedparser_entries : string -> list RssParser.entry) (content : string) :
  let items := RssParser.parse_feed_content feedparser_entries content in
  map RssParser.link items
    = List.filter Py.nonempty (map Spec.entry_link (feedparser_entries content))
  ∧ Forall (λ it, RssParser.link it ≠ "") items.
Proof.
  unfold RssParser.parse_feed_content. simpl.
  pose proof (parse_entries_links (feedparser_entries content)) as Hl.
  split; [exact Hl|].
  apply Forall_forall. intros it Hit.
  assert (RssParser.link it ∈ map RssParser.link
            (RssParser.parse_entries (feedparser_entries content) [])) as Hin.
  { apply list_elem_of_fmap. eauto. }
  rewrite Hl in Hin. apply list_elem_of_In, filter_In in Hin as [_ Hne].
  by apply nonempty_true_iff.
Qed.

(* ===================================================================== *)
(** * main: deduplication on the link                                     *)
(* ===================================================================== *)

Lemma if_bool_decide_ext {A} (P Q : Prop) `{!Decision P, !Decision Q} (a b : A) :
  (P ↔ Q) → (if bool_decide P then a else b) = (if bool_decide Q then a else b).
Proof. intros HPQ. by rewrite (bool_decide_ext P Q HPQ). Qed.

Section Dedupe.
Import RssParser Main.
Implicit Types (items out : list RSSItem) (seen : gset string) (x : RSSItem).

Lemma dedupe_loop_out items seen out :
  dedupe_loop items seen out = out ++ dedupe_loop items seen [].
Proof.
  revert seen out. induction items as [|y items IH]; intros seen out; simpl.
  - by rewrite app_nil_r.
  - case_bool_decide; [|apply IH].
    rewrite (IH _ (out ++ [y])), (IH _ [y]). by rewrite <- app_assoc.
Qed.

(** A link already seen acts as a filter on what remains. *)
Lemma dedupe_loop_seen items seen out (k : string) :
  dedupe_loop items ({[k]} ∪ seen) out
  = dedupe_loop (List.filter (λ y, negb (bool_decide (link y = k))) items) seen out.
Proof.
  revert seen out. induction items as [|y items IH]; intros seen out; simpl; [done|].
  destruct (decide (link y = k)) as [Heq|Hne].
  - rewrite (bool_decide_eq_true_2 _ Heq). simpl.
    rewrite bool_decide_eq_false_2 by set_solver. apply IH.
  - rewrite (bool_decide_eq_false_2 _ Hne). simpl.
    destruct (decide (link y ∈ seen)) as [Hin|Hnin].
    + rewrite !bool_decide_eq_false_2 by set_solver. apply IH.
    + rewrite !bool_decide_eq_true_2 by set_solver.
      replace ({[link y]} ∪ ({[k]} ∪ seen)) with ({[k]} ∪ ({[link y]} ∪ seen))
        by set_solver.
      apply IH.
Qed.

Lemma dedupe_by_link_cons x items :
  dedupe_by_link (x :: items)
  = x :: dedupe_by_link (List.filter (λ y, negb (bool_decide (link y = link x))) items).
Proof.
  unfold dedupe_by_link. simpl.
  rewrite bool_decide_eq_true_2 by set_solver.
  rewrite dedupe_loop_out, dedupe_loop_seen. done.
Qed.

Lemma dedupe_loop_snoc items seen out x :
  dedupe_loop (items ++ [x]) seen out
  = if bool_decide (link x ∈ seen ∨ link x ∈ map link items)
    then dedupe_loop items seen out
    else dedupe_loop items seen out ++ [x].
Proof.
  revert seen out. induction items as [|y items IH]; intros seen out; simpl.
  - destruct (decide (link x ∈ seen)) as [Hin|Hnin].
    + rewrite bool_decide_eq_false_2 by set_solver.
      rewrite bool_decide_eq_true_2; [done|]. by left.
    + rewrite bool_decide_eq_true_2 by done.
      rewrite bool_decide_eq_false_2; [done|].
      intros [?|Hm]; [done|]. by apply elem_of_nil in Hm.
  - destruct (decide (link y ∈ seen)) as [Hin|Hnin].
    + rewrite bool_decide_eq_false_2 by (intros Hn; by apply Hn).
      rewrite IH. apply if_bool_decide_ext. rewrite elem_of_cons.
      split; [tauto|]. intros [?|[Heq|?]]; [tauto| |tauto]. left. by rewrite Heq.
    + rewrite bool_decide_eq_true_2 by done.
      rewrite IH. apply if_bool_decide_ext.
      rewrite elem_of_cons, elem_of_union, elem_of_singleton. tauto.
Qed.

Lemma dedupe_by_link_snoc items x :
  dedupe_by_link (items ++ [x])
  = if bool_decide (link x ∈ map link items)
    then dedupe_by_link items
    else dedupe_by_link items ++ [x].
Proof.
  unfold dedupe_by_link. rewrite dedupe_loop_snoc.
  apply if_bool_decide_ext. split; [|tauto].
  intros [Hm|?]; [|done]. by apply elem_of_empty in Hm.
Qed.

Lemma dedupe_by_link_links items (l : string) :
  l ∈ map link (dedupe_by_link items) ↔ l ∈ map link items.
Proof.
  induction items as [|x items IH] using rev_ind; [done|].
  rewrite dedupe_by_link_snoc, map_app, elem_of_app. simpl.
  case_bool_decide as Hx.
  - rewrite IH. split; [by left|]. intros [?|Hl]; [done|].
    apply list_elem_of_singleton in Hl. by subst.
  - rewrite map_app, elem_of_app, IH. done.
Qed.

Lemma dedupe_by_link_NoDup items : NoDup (map link (dedupe_by_link items)).
Proof.
  induction items as [|x items IH] using rev_ind; [constructor|].
  rewrite dedupe_by_link_snoc. case_bool_decide as Hx; [done|].
  rewrite map_app. apply NoDup_app. split; [done|]. split.
  - intros l Hl Hl'. apply list_elem_of_singleton in Hl'. subst l.
    apply Hx. by apply dedupe_by_link_links.
  - apply NoDup_singleton.
Qed.

Lemma dedupe_by_link_sublist items : dedupe_by_link items `sublist_of` items.
Proof.
  induction items as [|x items IH] using rev_ind; [done|].
  rewrite dedupe_by_link_snoc. case_bool_decide.
  - by apply sublist_inserts_r.
  - by apply sublist_app.
Qed.

Lemma dedupe_by_link_pair (a b : RSSItem) :
  link a = link b → dedupe_by_link [a; b] = [a].
Proof.
  intros Hab. rewrite dedupe_by_link_cons. simpl.
  by rewrite bool_decide_eq_true_2.
Qed.
End Dedupe.

(* ===================================================================== *)
(** * main: the coordinator returns one result per deduplicated item      *)
(* ===================================================================== *)

(** The sample documents have three levels at most. *)
Lemma sample_ET_shallow (raw : string) (root : ContentExtractor.Element) :
  Fixtures.sample_ET raw = ContentExtractor.Parsed root →
  ContentExtractor.height root ≤ Fixtures.frames0.
Proof.
  unfold Fixtures.sample_ET, Fixtures.sample_documents, Fixtures.lookup_document.
  repeat (case_bool_decide; [intros [= <-]; vm_compute; lia|]).
  done.
Qed.

Section Coordinator.
Import RssParser ArticleFetcher ContentExtractor Main.
Variable cfg : Config.t.
Variable feedparser_entries : string -> list entry.
Variable ET_fromstring : string -> et_parse.
Variable lxml_fromstring : string -> option Element.
Variable BeautifulSoup : string -> Node.
Variable frames : nat.
(** The XML parser raises nothing but its parse error. *)
Hypothesis ET_only_parse_errors : ∀ raw, ET_fromstring raw ≠ OtherError.
(** No document has more levels than the interpreter has room for. *)
Hypothesis ET_within_frames :
  ∀ raw root, ET_fromstring raw = Parsed root → height root ≤ frames.

Lemma extract_from_api_xml_returns (raw : string) :
  ∃ c, extract_from_api_xml ET_fromstring frames raw = Py.Returns c.
Proof.
  unfold extract_from_api_xml.
  pose proof (ET_only_parse_errors raw) as Hne.
  pose proof (ET_within_frames raw) as Hroom.
  destruct (ET_fromstring raw) as [root| |]; [|eauto|done].
  rewrite et_extract_in_room by by apply Hroom. eauto.
Qed.

Lemma extract_content_returns (f : FetchedArticle) :
  ∃ c, extract_content ET_fromstring lxml_fromstring BeautifulSoup frames f = Py.Returns c.
Proof.
  destruct (Py.contains "xml" (Py.lower_str (content_type f))
            || bool_decide (source f = api)) eqn:Hxml.
  - rewrite extract_content_structured by done.
    destruct (lxml_fromstring (raw_body f)); [eauto|].
    apply extract_from_api_xml_returns.
  - rewrite extract_content_html by done. eauto.
Qed.

Lemma process_returns (it : RSSItem) (prefer_api : bool) (net : Requests.Network) :
  ∃ r, Requests.result
         (process cfg ET_fromstring lxml_fromstring BeautifulSoup frames it prefer_api) net
       = Py.Returns r
     ∧ r_link r = link it ∧ r_title r = title it.
Proof.
  unfold process. destruct (article_id it); [|by eexists].
  rewrite result_bind, result_ret.
  destruct (Requests.result _ net) as [f|]; [|by eexists].
  destruct (extract_content_returns f) as [c ->]. by eexists.
Qed.

Lemma process_all_returns (items : list RSSItem) (prefer_api : bool)
    (net : Requests.Network) :
  ∃ rs, Requests.result
          (process_all cfg ET_fromstring lxml_fromstring BeautifulSoup frames items
             prefer_api) net
        = Py.Returns rs
      ∧ map r_link rs = map link items ∧ map r_title rs = map title items.
Proof.
  induction items as [|it items (rs & Hrs & Hl & Ht)]; simpl; [by exists []|].
  rewrite result_bind.
  destruct (process_returns it prefer_api net) as (r & -> & Hr & Hr').
  rewrite result_bind, Hrs, result_ret.
  exists (r :: rs). simpl. by rewrite Hr, Hr', Hl, Ht.
Qed.

Lemma run_writes_deduplicated (feed_urls : list string) (prefer_api : bool)
    (net : Requests.Network) :
  feed_urls ≠ [] →
  ∃ rs, Requests.result
          (run cfg feedparser_entries ET_fromstring lxml_fromstring BeautifulSoup frames
               feed_urls None prefer_api) net
        = Written rs
      ∧ map r_link rs
        = map link (dedupe_by_link
                      (Requests.result (parse_feeds feedparser_entries feed_urls) net))
      ∧ map r_title rs
        = map title (dedupe_by_link
                      (Requests.result (parse_feeds feedparser_entries feed_urls) net)).
Proof.
  intros Hne. unfold run, run_items. destruct feed_urls as [|u us]; [done|].
  rewrite !result_bind, !result_ret.
  destruct (process_all_returns
              (dedupe_by_link
                 (Requests.result (parse_feeds feedparser_entries (u :: us)) net))
              prefer_api net) as (rs & -> & Hl & Ht).
  by exists rs.
Qed.

(** A run that writes its results, whatever the parsers do. *)
Lemma process_copies (it : RSSItem) (prefer_api : bool) (net : Requests.Network)
    (r : Result) :
  Requests.result
    (process cfg ET_fromstring lxml_fromstring BeautifulSoup frames it prefer_api) net
  = Py.Returns r →
  r_link r = link it ∧ r_title r = title it.
Proof.
  unfold process. destruct (article_id it); [|by intros [= <-]].
  rewrite result_bind, result_ret.
  destruct (Requests.result _ net) as [f|]; [|by intros [= <-]].
  destruct (extract_content _ _ _ _ f) as [c|]; [|done]. by intros [= <-].
Qed.

Lemma process_all_copies (items : list RSSItem) (prefer_api : bool)
    (net : Requests.Network) : ∀ rs,
  Requests.result
    (process_all cfg ET_fromstring lxml_fromstring BeautifulSoup frames items prefer_api) net
  = Py.Returns rs →
  map r_link rs = map link items ∧ map r_title rs = map title items.
Proof.
  induction items as [|it items IH]; intros rs; simpl.
  - rewrite result_ret. by intros [= <-].
  - rewrite result_bind.
    destruct (Requests.result (process _ _ _ _ _ it prefer_api) net) as [r|] eqn:Hr;
      [|by rewrite result_ret].
    rewrite result_bind, result_ret.
    destruct (Requests.result (process_all _ _ _ _ _ items prefer_api) net) as [rs'|];
      [|done].
    intros [= <-]. apply process_copies in Hr as [Hl Ht].
    destruct (IH rs' eq_refl) as [Hls Hts]. simpl. by rewrite Hl, Ht, Hls, Hts.
Qed.

Lemma run_written_deduplicated (feed_urls : list string) (prefer_api : bool)
    (net : Requests.Network) (rs : list Result) :
  Requests.result
    (run cfg feedparser_entries ET_fromstring lxml_fromstring BeautifulSoup frames
         feed_urls None prefer_api) net
  = Written rs →
  map r_link rs
  = map link (dedupe_by_link
                (Requests.result (parse_feeds feedparser_entries feed_urls) net))
  ∧ map r_title rs
    = map title (dedupe_by_link
                   (Requests.result (parse_feeds feedparser_entries feed_urls) net)).
Proof.
  unfold run, run_items. destruct feed_urls as [|u us]; [by rewrite result_ret|].
  rewrite !result_bind, !result_ret.
  destruct (Requests.result (process_all _ _ _ _ _ _ prefer_api) net) as [rs'|] eqn:Hall;
    [|done].
  intros [= <-]. by apply process_all_copies in Hall.
Qed.
End Coordinator.

(** C9. [dedupe_by_link] is keyed on the link and keeps the first
    occurrence of each link: the head of the list is kept and the later
    items with its link are dropped; an item at the end is kept exactly
    when no earlier item has its link; the links of the output are those of
    the input, without repetition, and the output is a sublist of the
    input. Two items with the same link give the first one alone, and when
    a run reads two such items from its feeds (the XML parser raising
    nothing but parse errors, and no document having more levels than the
    interpreter has room for) it writes exactly one result, for the first
    of them. Whatever the parsers do, a run that reads two such items and
    writes its results writes that one result and no other. *)
Theorem dedupe_by_link_keeps_first_occurrence :
  (∀ x items,
     Main.dedupe_by_link (x :: items)
     = x :: Main.dedupe_by_link
              (List.filter (λ y, negb (bool_decide (RssParser.link y = RssParser.link x)))
                           items))
  ∧ (∀ items x,
       Main.dedupe_by_link (items ++ [x])
       = if bool_decide (RssParser.link x ∈ map RssParser.link items)
         then Main.dedupe_by_link items
         else Main.dedupe_by_link items ++ [x])
  ∧ (∀ items,
       NoDup (map RssParser.link (Main.dedupe_by_link items))
       ∧ Main.dedupe_by_link items `sublist_of` items
       ∧ ∀ l, l ∈ map RssParser.link (Main.dedupe_by_link items)
              ↔ l ∈ map RssParser.link items)
  ∧ (∀ a b, RssParser.link a = RssParser.link b → Main.dedupe_by_link [a; b] = [a])
  ∧ (∀ cfg feedparser_entries ET_fromstring lxml_fromstring BeautifulSoup frames
       feed_urls prefer_api net a b,
       (∀ raw, ET_fromstring raw ≠ ContentExtractor.OtherError) →
       (∀ raw root, ET_fromstring raw = ContentExtractor.Parsed root →
                    ContentExtractor.height root ≤ frames) →
       feed_urls ≠ [] →
       Requests.result (RssParser.parse_feeds feedparser_entries feed_urls) net = [a; b] →
       RssParser.link a = RssParser.link b →
       ∃ r, Requests.result
              (Main.run cfg feedparser_entries ET_fromstring lxml_fromstring BeautifulSoup
                        frames feed_urls None prefer_api) net
            = Main.Written [r]
          ∧ Main.r_link r = RssParser.link a ∧ Main.r_title r = RssParser.title a)
  ∧ (∀ cfg feedparser_entries ET_fromstring lxml_fromstring BeautifulSoup frames
       feed_urls prefer_api net a b rs,
       Requests.result (RssParser.parse_feeds feedparser_entries feed_urls) net = [a; b] →
       RssParser.link a = RssParser.link b →
       Requests.result
         (Main.run cfg feedparser_entries ET_fromstring lxml_fromstring BeautifulSoup
                   frames feed_urls None prefer_api) net
       = Main.Written rs →
       ∃ r, rs = [r]
            ∧ Main.r_link r = RssParser.link a ∧ Main.r_title r = RssParser.title a).
Proof.
  split; [exact dedupe_by_link_cons|].
  split; [exact dedupe_by_link_snoc|].
  split.
  { intros items. split; [apply dedupe_by_link_NoDup|].
    split; [apply dedupe_by_link_sublist|]. intros l. apply dedupe_by_link_links. }
  split; [exact dedupe_by_link_pair|].
  split.
  - intros cfg fp ET lx BS frames urls prefer net a b HET Hroom Hne Hfeeds Hab.
    destruct (run_writes_deduplicated cfg fp ET lx BS frames HET Hroom urls prefer net Hne)
      as (rs & Hrun & Hl & Ht).
    rewrite Hfeeds, (dedupe_by_link_pair a b Hab) in Hl, Ht. simpl in Hl, Ht.
    destruct rs as [|r [|r' rs]]; simplify_eq/=.
    exists r. by rewrite Hrun.
  - intros cfg fp ET lx BS frames urls prefer net a b rs Hfeeds Hab Hrun.
    apply run_written_deduplicated in Hrun as [Hl Ht].
    rewrite Hfeeds, (dedupe_by_link_pair a b Hab) in Hl, Ht. simpl in Hl, Ht.
    destruct rs as [|r [|r' rs]]; simplify_eq/=.
    by exists r.
Qed.

(** A run over one feed whose two entries have the same link, with the API
    refusing and the page answering: one result, for the first entry. *)
Lemma dedupe_by_link_keeps_first_occurrence_witness :
  ∃ r, Requests.result
         (Main.run Fixtures.cfg0 Fixtures.feed_entries Fixtures.sample_ET
                   Fixtures.sample_lxml Fixtures.sample_soup Fixtures.frames0
                   [Fixtures.feed_url] None true) Fixtures.net_api_403
       = Main.Written [r]
     ∧ Main.r_link r = Fixtures.pii_link ∧ Main.r_title r = "First".
Proof.
  destruct dedupe_by_link_keeps_first_occurrence as (_ & _ & _ & _ & Hrun & _).
  apply (Hrun Fixtures.cfg0 Fixtures.feed_entries Fixtures.sample_ET
              Fixtures.sample_lxml Fixtures.sample_soup Fixtures.frames0
              [Fixtures.feed_url] true Fixtures.net_api_403
              Fixtures.item_a Fixtures.item_b).
  - intros raw. unfold Fixtures.sample_ET.
    destruct (Fixtures.lookup_document _ raw); discriminate.
  - apply sample_ET_shallow.
  - discriminate.
  - vm_compute. reflexivity.
  - reflexivity.
Defined.

(* ===================================================================== *)
(** * rss_parser: the DOI of an entry                                     *)
(* ===================================================================== *)

Section StripFacts.
Implicit Types (p : ascii → bool) (l : list ascii) (c : ascii).

Lemma chars_str l : Py.chars (Py.str l) = l.
Proof. apply String.list_ascii_of_string_of_list_ascii. Qed.

Lemma str_chars (s : string) : Py.str (Py.chars s) = s.
Proof. apply String.string_of_list_ascii_of_string. Qed.

Lemma drop_while_snoc_stop p l c :
  p c = false → Py.drop_while p (l ++ [c]) = Py.drop_while p l ++ [c].
Proof.
  intros Hc. induction l as [|a l IH]; simpl; [by rewrite Hc|].
  destruct (p a); [exact IH|done].
Qed.

Lemma drop_while_head p l c : head (Py.drop_while p l) = Some c → p c = false.
Proof.
  induction l as [|a l IH]; simpl; [done|].
  destruct (p a) eqn:Ha; [exact IH|]. simpl. by intros [= <-].
Qed.

(** A character that is not stripped protects what precedes it. *)
Lemma rstrip_by_cons_keep p l c :
  p c = false → Py.rstrip_by p (c :: l) = c :: Py.rstrip_by p l.
Proof.
  intros Hc. unfold Py.rstrip_by. simpl.
  induction (rev l) as [|a m IH]; simpl.
  - by rewrite Hc.
  - destruct (p a); [exact IH|]. simpl. by rewrite rev_app_distr.
Qed.

(** What [rstrip] returns does not end with a stripped character. *)
Lemma rstrip_by_last p l c : last (Py.rstrip_by p l) = Some c → p c = false.
Proof.
  unfold Py.rstrip_by. destruct (Py.drop_while p (rev l)) as [|a m] eqn:Hd; [done|].
  simpl. rewrite last_snoc. intros [= <-].
  apply (drop_while_head p (rev l)). by rewrite Hd.
Qed.
End StripFacts.

Section RegexFacts.
Import Re.

Lemma repeat_greedy_inv p (k : cont) s : ∀ n prev cap x,
  repeat_greedy p k n prev s cap = Some x →
  ∃ prev' s' cap', k prev' s' cap' = Some x ∧ length s' ≤ length s.
Proof.
  induction s as [|c s IH]; intros n prev cap x; simpl.
  - destruct n; [|done]. intros Hk. by exists prev, [], cap.
  - destruct (p c).
    + destruct (repeat_greedy p k (pred n) (Some c) s cap) as [r|] eqn:Hr.
      * intros [= <-]. destruct (IH _ _ _ _ Hr) as (prev' & s' & cap' & Hk & Hlen).
        exists prev', s', cap'. split; [done|]. simpl. lia.
      * destruct n; [|done]. intros Hk. by exists prev, (c :: s), cap.
    + destruct n; [|done]. intros Hk. by exists prev, (c :: s), cap.
Qed.

(** A match hands to its continuation a suffix no longer than the text
    it started from. *)
Lemma rmatch_inv r : ∀ (k : cont) prev s cap x,
  rmatch r k prev s cap = Some x →
  ∃ prev' s' cap', k prev' s' cap' = Some x ∧ length s' ≤ length s.
Proof.
  induction r as [| |p|r1 IH1 r2 IH2|r IH|p n|r IH]; intros k prev s cap x; simpl.
  - intros Hk. by exists prev, s, cap.
  - destruct (at_boundary prev s); [|done]. intros Hk. by exists prev, s, cap.
  - destruct s as [|c s]; [done|]. destruct (p c); [|done].
    intros Hk. exists (Some c), s, cap. split; [done|]. simpl. lia.
  - intros H1. destruct (IH1 _ _ _ _ _ H1) as (p1 & s1 & c1 & H2 & Hl1).
    destruct (IH2 _ _ _ _ _ H2) as (p2 & s2 & c2 & Hk & Hl2).
    exists p2, s2, c2. split; [done|lia].
  - destruct (rmatch r k prev s cap) as [y|] eqn:Hr.
    + intros [= <-]. by apply IH in Hr.
    + intros Hk. by exists prev, s, cap.
  - apply repeat_greedy_inv.
  - intros Hr. destruct (IH _ _ _ _ _ Hr) as (p1 & s1 & c1 & Hk & Hl).
    by exists p1, s1, (Some (take (length s - length s1) s)).
Qed.

(** A match of [DOI_PATTERN] captures a text that starts with [10.] *)
Lemma doi_match_prefix prev s cap :
  rmatch RssParser.DOI_PATTERN accept prev s None = Some cap →
  ∃ l, cap = Some ("1" :: "0" :: "." :: l)%char.
Proof.
  unfold RssParser.DOI_PATTERN. simpl.
  destruct (at_boundary prev s); [|done].
  destruct s as [|c1 [|c2 [|c3 s3]]]; simpl; try done;
    repeat (case_bool_decide; simpl; try done).
  subst. intros Hm. apply repeat_greedy_inv in Hm as (p1 & s1 & cap1 & Hm & Hl1).
  simpl in Hm. destruct s1 as [|c s1]; [done|]. destruct (bool_decide _); [|done].
  apply repeat_greedy_inv in Hm as (p2 & s2 & cap2 & Hm & Hl2).
  destruct (at_boundary p2 s2); [|done].
  unfold accept in Hm. injection Hm as <-.
  replace (S (S (S (length s3))) - length s2)
    with (S (S (S (length s3 - length s2)))) by (simpl in *; lia).
  simpl. eauto.
Qed.

Lemma search_from_unfold r prev s :
  search_from r prev s
  = match rmatch r accept prev s None with
    | Some cap => Some cap
    | None => match s with
              | c :: s' => search_from r (Some c) s'
              | [] => None
              end
    end.
Proof. by destruct s. Qed.

Lemma doi_search_prefix s : ∀ prev cap,
  search_from RssParser.DOI_PATTERN prev s = Some cap →
  ∃ l, cap = Some ("1" :: "0" :: "." :: l)%char.
Proof.
  induction s as [|c s IH]; intros prev cap; rewrite search_from_unfold;
    destruct (rmatch RssParser.DOI_PATTERN accept prev _ None) eqn:Hm;
    try done; try (intros [= <-]; by apply doi_match_prefix in Hm).
  apply IH.
Qed.
End RegexFacts.

Section ExtractDoi.
Import RssParser.

Lemma str_or_empty_r (a : string) : str_or a "" = a.
Proof. by destruct a. Qed.

Lemma doi_group_prefix (text g : string) :
  Re.search_group1 DOI_PATTERN text = Some g →
  ∃ l, g = Py.str ("1" :: "0" :: "." :: l)%char.
Proof.
  unfold Re.search_group1, Re.search.
  destruct (Re.search_from _ _ _) as [[cap|]|] eqn:Hs; try done.
  intros [= <-]. apply doi_search_prefix in Hs as [l [= ->]]. eauto.
Qed.

(** A DOI that is found is a true value: the loop of [_extract_doi]
    returns it. *)
Lemma extract_doi_from_text_truthy (text d : string) :
  _extract_doi_from_text text = Some d → Py.truthy (Some d) = true.
Proof.
  unfold _extract_doi_from_text.
  destruct (Re.search_group1 DOI_PATTERN text) as [g|] eqn:Hg; [|done].
  intros [= <-]. apply doi_group_prefix in Hg as [l ->].
  unfold Py.rstrip_chars. rewrite chars_str.
  rewrite rstrip_by_cons_keep by done. done.
Qed.

Lemma extract_doi_from_text_stripped (text d : string) (c : ascii) :
  _extract_doi_from_text text = Some d →
  last (Py.chars d) = Some c → c ≠ "."%char ∧ c ≠ ","%char ∧ c ≠ ";"%char.
Proof.
  unfold _extract_doi_from_text.
  destruct (Re.search_group1 DOI_PATTERN text) as [g|]; [|done].
  intros [= <-]. unfold Py.rstrip_chars. rewrite chars_str.
  intros Hl%rstrip_by_last. apply bool_decide_eq_false in Hl.
  repeat split; intros ->; apply Hl; vm_compute; set_solver.
Qed.

Lemma first_doi_hit (raw d : string) (rest : list string) :
  _extract_doi_from_text raw = Some d → first_doi (raw :: rest) = Some d.
Proof.
  intros Hd. simpl. rewrite Hd. by rewrite (extract_doi_from_text_truthy raw d Hd).
Qed.

Lemma first_doi_miss (raw : string) (rest : list string) :
  _extract_doi_from_text raw = None → first_doi (raw :: rest) = first_doi rest.
Proof. intros Hd. simpl. by rewrite Hd. Qed.

Lemma extract_doi_link (e : entry) (d : string) :
  _extract_doi_from_text (get_or_empty e "link") = Some d → _extract_doi e = Some d.
Proof.
  intros Hd. unfold _extract_doi. rewrite !str_or_empty_r.
  by rewrite (first_doi_hit _ d _ Hd).
Qed.

Lemma extract_doi_description (e : entry) (d : string) :
  _extract_doi_from_text (get_or_empty e "link") = None →
  _extract_doi_from_text
    (str_or (get_or_empty e "description") (get_or_empty e "summary")) = Some d →
  _extract_doi e = Some d.
Proof.
  intros Hl Hd. unfold _extract_doi. rewrite !str_or_empty_r.
  rewrite (first_doi_miss _ _ Hl). by rewrite (first_doi_hit _ d _ Hd).
Qed.

Lemma parse_entry_doi (e : entry) (it : RSSItem) (d : string) :
  parse_entry e = Some it → _extract_doi e = Some d → Py.truthy (Some d) = true →
  doi it = Some d.
Proof.
  unfold parse_entry. destruct (negb _); [done|].
  intros [= <-] Hd Ht. simpl. unfold Py.or_else. by rewrite Hd, Ht.
Qed.
End ExtractDoi.

(** C8. For every feed entry, a DOI matched in the link is the one
    [_extract_doi] returns, whatever the description holds; the
    description is used when the link has none; the item built from the
    entry carries the DOI of the link. The DOI returned for a text is the
    match of [DOI_PATTERN] with its trailing full stops, commas and
    semicolons stripped, so it ends with none of them. *)
Theorem extract_doi_prefers_link_and_strips (e : RssParser.entry) :
  let link := RssParser.get_or_empty e "link" in
  let desc := RssParser.str_or (RssParser.get_or_empty e "description")
                               (RssParser.get_or_empty e "summary") in
  (∀ d, RssParser._extract_doi_from_text link = Some d →
        RssParser._extract_doi e = Some d
        ∧ ∀ it, RssParser.parse_entry e = Some it → RssParser.doi it = Some d)
  ∧ (∀ d, RssParser._extract_doi_from_text link = None →
          RssParser._extract_doi_from_text desc = Some d →
          RssParser._extract_doi e = Some d)
  ∧ (∀ text d, RssParser._extract_doi_from_text text = Some d →
       (∃ g, Re.search_group1 RssParser.DOI_PATTERN text = Some g
             ∧ d = Py.rstrip_chars ".,;" g)
       ∧ ∀ c, last (Py.chars d) = Some c → c ≠ "."%char ∧ c ≠ ","%char ∧ c ≠ ";"%char).
Proof.
  simpl. split; [|split].
  - intros d Hd. pose proof (extract_doi_link e d Hd) as He. split; [done|].
    intros it Hit. apply (parse_entry_doi e it d Hit He).
    apply (extract_doi_from_text_truthy _ _ Hd).
  - apply extract_doi_description.
  - intros text d Hd. split.
    + unfold RssParser._extract_doi_from_text in Hd.
      destruct (Re.search_group1 _ text) as [g|]; [|done].
      injection Hd as <-. eauto.
    + intros c. by apply (extract_doi_from_text_stripped text).
Qed.

(** The DOI of the link wins over the one of the description, and the
    full stop that follows it is not part of it. *)
Lemma extract_doi_prefers_link_and_strips_witness :
  RssParser._extract_doi_from_text (RssParser.get_or_empty Fixtures.doi_entry "description")
    = Some "10.9999/other.paper"
  ∧ RssParser._extract_doi Fixtures.doi_entry = Some "10.1016/j.tcs.2020.01.001".
Proof.
  split; [vm_compute; reflexivity|].
  destruct (extract_doi_prefers_link_and_strips Fixtures.doi_entry) as (Hlink & _ & _).
  apply Hlink. vm_compute. reflexivity.
Defined.

(* ===================================================================== *)
(** * article_fetcher: the order of the channels                          *)
(* ===================================================================== *)

Section FetchFacts.
Import RssParser ArticleFetcher Spec.
Variable cfg : Config.t.
Implicit Types (it : RSSItem) (net : Requests.Network) (api_key cookie : option string).

Lemma get_ok_trace (r : Requests.Request) net :
  Requests.trace (Requests.get_ok r) net = [r].
Proof. reflexivity. Qed.

Lemma api_request_is_api (key id_type id_value accept : string) :
  is_api_request (api_request key id_type id_value accept) = true.
Proof. apply bool_decide_eq_true. simpl. apply list_elem_of_here. Qed.

Lemma crawl_request_not_api it (c : string) :
  is_api_request (crawl_request it c) = false.
Proof.
  apply bool_decide_eq_false. unfold crawl_request. simpl.
  destruct (Py.nonempty c); simpl; intros Hin;
    repeat (apply elem_of_cons in Hin as [Hin|Hin]; [done|]);
    by apply elem_of_nil in Hin.
Qed.

Lemma fetch_via_api_trace it api_key (accept : string) net :
  Forall (λ r, is_api_request r = true)
         (Requests.trace (fetch_via_api cfg it api_key accept) net).
Proof.
  unfold fetch_via_api. destruct (negb _); [constructor|].
  destruct (article_id it) as [[id_type id_value]|]; [|constructor].
  rewrite trace_bind, get_ok_trace, trace_ret. simpl.
  constructor; [apply api_request_is_api | constructor].
Qed.

(** Without a key or without an identifier the API channel fails before
    any request. *)
Lemma fetch_via_api_unavailable it api_key (accept : string) net :
  api_key_of cfg api_key = "" ∨ article_id it = None →
  Requests.result (fetch_via_api cfg it api_key accept) net = None
  ∧ Requests.trace (fetch_via_api cfg it api_key accept) net = [].
Proof.
  unfold fetch_via_api, api_key_of. intros [Hk|Hid].
  - by rewrite Hk.
  - destruct (negb _); [done|]. by rewrite Hid.
Qed.

Lemma fetch_via_crawl_trace it cookie net :
  Requests.trace (fetch_via_crawl cfg it cookie) net
  = [crawl_request it (cookie_of cfg cookie)].
Proof. reflexivity. Qed.

Lemma fetch_article_api_success it api_key cookie net (r : FetchedArticle) :
  Requests.result (fetch_via_api cfg it api_key "application/xml") net = Some r →
  Requests.result (fetch_article cfg it true api_key cookie) net = Some r
  ∧ Requests.trace (fetch_article cfg it true api_key cookie) net
    = Requests.trace (fetch_via_api cfg it api_key "application/xml") net.
Proof.
  intros Hr. unfold fetch_article.
  rewrite result_bind, trace_bind, Hr. simpl.
  by rewrite trace_ret, app_nil_r.
Qed.

Lemma fetch_article_api_failure it api_key cookie net :
  Requests.result (fetch_via_api cfg it api_key "application/xml") net = None →
  Requests.result (fetch_article cfg it true api_key cookie) net
  = Requests.result (fetch_via_crawl cfg it cookie) net
  ∧ Requests.trace (fetch_article cfg it true api_key cookie) net
    = Requests.trace (fetch_via_api cfg it api_key "application/xml") net
      ++ [crawl_request it (cookie_of cfg cookie)].
Proof.
  intros Hr. unfold fetch_article.
  rewrite result_bind, trace_bind, Hr. by rewrite fetch_via_crawl_trace.
Qed.
End FetchFacts.

(** C6. Fetch orchestration, on the result and on the requests sent, in
    order. The API channel only sends requests that carry the key header,
    the crawl channel sends one request, which does not. With
    [prefer_api] set, the API channel comes first: when it succeeds its
    result is returned and nothing more is sent; when it fails (a missing
    key or an item without identifier are failures, without any request)
    the crawl request follows and its result is the result. Without
    [prefer_api], the crawl request is the only one sent, so the API
    channel is never invoked, and a failure of the crawl is the failure of
    the whole. *)
Theorem fetch_article_orchestration
    (cfg : Config.t) (it : RssParser.RSSItem) (api_key cookie : option string)
    (net : Requests.Network) :
  let api_call := ArticleFetcher.fetch_via_api cfg it api_key "application/xml" in
  let crawl_call := ArticleFetcher.fetch_via_crawl cfg it cookie in
  let crawl_req := ArticleFetcher.crawl_request it (Spec.cookie_of cfg cookie) in
  let fetch prefer_api := ArticleFetcher.fetch_article cfg it prefer_api api_key cookie in
  (Forall (λ r, Spec.is_api_request r = true) (Requests.trace api_call net)
   ∧ Requests.trace crawl_call net = [crawl_req]
   ∧ Spec.is_api_request crawl_req = false)
  ∧ (Spec.api_key_of cfg api_key = "" ∨ RssParser.article_id it = None →
     Requests.result api_call net = None ∧ Requests.trace api_call net = [])
  ∧ (∀ r, Requests.result api_call net = Some r →
          Requests.result (fetch true) net = Some r
          ∧ Requests.trace (fetch true) net = Requests.trace api_call net)
  ∧ (Requests.result api_call net = None →
     Requests.result (fetch true) net = Requests.result crawl_call net
     ∧ Requests.trace (fetch true) net = Requests.trace api_call net ++ [crawl_req])
  ∧ (Requests.result (fetch false) net = Requests.result crawl_call net
     ∧ Requests.trace (fetch false) net = [crawl_req]
     ∧ Forall (λ r, Spec.is_api_request r = false) (Requests.trace (fetch false) net))
  ∧ (Requests.result crawl_call net = None →
     Requests.result (fetch false) net = None
     ∧ (Requests.result api_call net = None → Requests.result (fetch true) net = None)).
Proof.
  cbv zeta. split; [|split; [|split; [|split; [|split]]]].
  - split; [apply fetch_via_api_trace|]. split; [done|]. apply crawl_request_not_api.
  - apply fetch_via_api_unavailable.
  - intros r. apply fetch_article_api_success.
  - apply fetch_article_api_failure.
  - split; [done|]. split; [done|].
    constructor; [apply crawl_request_not_api | constructor].
  - intros Hcrawl. split; [done|]. intros Hapi.
    by rewrite (proj1 (fetch_article_api_failure cfg it api_key cookie net Hapi)).
Qed.

(** With the key [k3y] and an item that has a PII, the API answers 403:
    the request to the API is followed by the request of the page, whose
    answer is returned. *)
Lemma fetch_article_orchestration_witness :
  Requests.result
    (ArticleFetcher.fetch_article Fixtures.cfg0 Fixtures.item_a true None None)
    Fixtures.net_api_403
  = Requests.result (ArticleFetcher.fetch_via_crawl Fixtures.cfg0 Fixtures.item_a None)
                    Fixtures.net_api_403
  ∧ Requests.trace
      (ArticleFetcher.fetch_article Fixtures.cfg0 Fixtures.item_a true None None)
      Fixtures.net_api_403
    = Requests.trace
        (ArticleFetcher.fetch_via_api Fixtures.cfg0 Fixtures.item_a None "application/xml")
        Fixtures.net_api_403
      ++ [ArticleFetcher.crawl_request Fixtures.item_a (Spec.cookie_of Fixtures.cfg0 None)].
Proof.
  apply (fetch_article_orchestration Fixtures.cfg0 Fixtures.item_a None None
           Fixtures.net_api_403).
  vm_compute. reflexivity.
Defined.

(* ===================================================================== *)
(** * content_extractor: malformed XML                                    *)
(* ===================================================================== *)

(** C4, at the failing input and in general. [extract_from_api_xml]
    catches [ET.ParseError] and nothing else (line 58). On a body that is
    not well-formed and that the parser of [xml.etree] reports with its
    parse error, the three entry points return the empty content with
    origin [api], as the claim says. On a body that is not well-formed and
    on which that parser fails in another way, the three entry points
    raise: [extract_from_api_xml] lets the error through,
    [extract_from_api_xml_lxml] catches the error of its own parser (line
    122, which catches every exception) and falls back on
    [extract_from_api_xml], and [extract_content] catches the error of the
    first and calls [extract_from_api_xml] again. The body made of [<a>],
    a lone surrogate and [</a>] is such a body: encoding it fails with
    [UnicodeEncodeError] in both parsers. *)
Theorem malformed_xml_raises_past_parse_error
    (ET_fromstring : string -> ContentExtractor.et_parse)
    (lxml_fromstring : string -> option ContentExtractor.Element)
    (BeautifulSoup : string -> ContentExtractor.Node)
    (frames : nat) (raw_body : string) :
  lxml_fromstring raw_body = None →
  let structured (f : ArticleFetcher.FetchedArticle) :=
    ArticleFetcher.raw_body f = raw_body
    ∧ Py.contains "xml" (Py.lower_str (ArticleFetcher.content_type f))
      || bool_decide (ArticleFetcher.source f = ArticleFetcher.api) = true in
  (ET_fromstring raw_body = ContentExtractor.ParseError →
   ContentExtractor.extract_from_api_xml ET_fromstring frames raw_body
     = Py.Returns (ContentExtractor.mkExtracted "" "" ArticleFetcher.api)
   ∧ ContentExtractor.extract_from_api_xml_lxml ET_fromstring lxml_fromstring frames raw_body
     = Py.Returns (ContentExtractor.mkExtracted "" "" ArticleFetcher.api)
   ∧ ∀ f, structured f →
       ContentExtractor.extract_content ET_fromstring lxml_fromstring BeautifulSoup frames f
       = Py.Returns (ContentExtractor.mkExtracted "" "" ArticleFetcher.api))
  ∧ (ET_fromstring raw_body = ContentExtractor.OtherError →
     ContentExtractor.extract_from_api_xml ET_fromstring frames raw_body = Py.Raises
     ∧ ContentExtractor.extract_from_api_xml_lxml ET_fromstring lxml_fromstring frames
         raw_body = Py.Raises
     ∧ ∀ f, structured f →
         ContentExtractor.extract_content ET_fromstring lxml_fromstring BeautifulSoup
           frames f = Py.Raises).
Proof.
  intros Hlx. cbv zeta.
  assert (∀ n, ContentExtractor.extract_from_api_xml_lxml ET_fromstring lxml_fromstring n
                 raw_body
               = ContentExtractor.extract_from_api_xml ET_fromstring n raw_body) as Hfall.
  { intros n. unfold ContentExtractor.extract_from_api_xml_lxml. by rewrite Hlx. }
  split; intros HET.
  - assert (∀ n, ContentExtractor.extract_from_api_xml ET_fromstring n raw_body
                 = Py.Returns (ContentExtractor.mkExtracted "" "" ArticleFetcher.api)) as Hempty.
    { intros n. unfold ContentExtractor.extract_from_api_xml. by rewrite HET. }
    split; [apply Hempty|]. split; [by rewrite Hfall|].
    intros f [Hraw Hxml]. rewrite extract_content_structured by done.
    by rewrite Hraw, Hlx.
  - assert (∀ n, ContentExtractor.extract_from_api_xml ET_fromstring n raw_body = Py.Raises)
      as Hraises.
    { intros n. unfold ContentExtractor.extract_from_api_xml. by rewrite HET. }
    split; [apply Hraises|]. split; [by rewrite Hfall|].
    intros f [Hraw Hxml]. rewrite extract_content_structured by done.
    by rewrite Hraw, Hlx.
Qed.

(** The body with a lone surrogate: the three entry points raise. *)
Lemma malformed_xml_raises_past_parse_error_witness :
  ContentExtractor.extract_from_api_xml Fixtures.strict_ET Fixtures.frames0
    Fixtures.doc_surrogate = Py.Raises
  ∧ ContentExtractor.extract_from_api_xml_lxml Fixtures.strict_ET Fixtures.strict_lxml
      Fixtures.frames0 Fixtures.doc_surrogate = Py.Raises
  ∧ ContentExtractor.extract_content Fixtures.strict_ET Fixtures.strict_lxml
      Fixtures.sample_soup Fixtures.frames0
      (ArticleFetcher.mkFetched ArticleFetcher.api Fixtures.doc_surrogate
         "application/xml" Fixtures.item_a)
    = Py.Raises.
Proof.
  destruct (malformed_xml_raises_past_parse_error Fixtures.strict_ET Fixtures.strict_lxml
              Fixtures.sample_soup Fixtures.frames0 Fixtures.doc_surrogate)
    as (_ & Hraises).
  - vm_compute. reflexivity.
  - destruct Hraises as (Het & Hlxml & Hcontent); [vm_compute; reflexivity|].
    split; [exact Het|]. split; [exact Hlxml|]. apply Hcontent.
    split; reflexivity.
Defined.

(* ===================================================================== *)
(** * content_extractor: the abstract standing in for the body            *)
(* ===================================================================== *)

Section Finish.
Import ContentExtractor.
Implicit Types (a b : string).

Lemma len_empty_iff a : Py.len a = 0 ↔ a = "".
Proof. destruct a; simpl; split; (done || lia). Qed.

Lemma join_parts_empty_iff (parts : list string) :
  Forall (λ t, t ≠ "") parts → join_parts parts = "" ↔ parts = [].
Proof.
  intros Hne. split; [|by intros ->].
  destruct parts as [|t [|t' rest]]; [done| |]; simpl.
  - intros ->. by apply Forall_cons_1 in Hne as [? _].
  - apply Forall_cons_1 in Hne as [Ht _]. destruct t; [done|]. done.
Qed.

Lemma html_finish_promotes a b :
  b = "" → a ≠ "" →
  html_finish a b = {| abstract := a; full_text := a; ec_source := ArticleFetcher.crawl |}.
Proof.
  intros -> Ha. unfold html_finish. simpl.
  apply nonempty_true_iff in Ha. by rewrite Ha.
Qed.
End Finish.

(** C5. In the HTML path, when the joined body candidates are empty and
    the joined abstract candidates are not, the full text is the abstract
    itself, whatever its length: the abstract is returned unchanged and the
    full text equals it. *)
Theorem html_promotion_is_verbatim
    (BeautifulSoup : string -> ContentExtractor.Node) (raw_body : string) :
  let soup := BeautifulSoup raw_body in
  let collected_abstract :=
    ContentExtractor.join_parts (ContentExtractor.html_abstract_parts soup) in
  let collected_full_text :=
    ContentExtractor.join_parts (ContentExtractor.html_body_parts soup) in
  collected_full_text = "" →
  collected_abstract ≠ "" →
  ContentExtractor.extract_from_html BeautifulSoup raw_body
  = ContentExtractor.mkExtracted collected_abstract collected_abstract ArticleFetcher.crawl.
Proof.
  cbv zeta. intros Hb Ha.
  unfold ContentExtractor.extract_from_html, ContentExtractor.html_extract.
  by apply html_finish_promotes.
Qed.

(** A page with one [div] of class [abstract-group], 30 characters long,
    and no paragraph: abstract and full text are both that text. *)
Lemma html_promotion_is_verbatim_witness :
  ContentExtractor.extract_from_html Fixtures.sample_soup Fixtures.page_abstract_only
  = ContentExtractor.mkExtracted "Foo bar baz... (30 characters)"
      "Foo bar baz... (30 characters)" ArticleFetcher.crawl.
Proof.
  apply (html_promotion_is_verbatim Fixtures.sample_soup Fixtures.page_abstract_only).
  - vm_compute. reflexivity.
  - vm_compute. discriminate.
Defined.

(* ===================================================================== *)
(** * content_extractor: the abstract candidates                          *)
(* ===================================================================== *)

Section Candidates.
Import ContentExtractor Spec.
Implicit Types (ts acc parts : list string) (t : string) (p q : string → bool).

Lemma filter_filter_comm {A} (f g : A → bool) (l : list A) :
  List.filter f (List.filter g l) = List.filter g (List.filter f l).
Proof.
  induction l as [|a l IH]; simpl; [done|].
  destruct (f a) eqn:Hf, (g a) eqn:Hg; simpl; rewrite ?Hf, ?Hg, IH; done.
Qed.

Lemma filter_all {A} (f : A → bool) (l : list A) :
  Forall (λ a, f a = true) l → List.filter f l = l.
Proof.
  induction 1 as [|a l Ha _ IH]; simpl; [done|]. by rewrite Ha, IH.
Qed.

Lemma filter_none {A} (f : A → bool) (l : list A) :
  Forall (λ a, f a = false) l → List.filter f l = [].
Proof.
  induction 1 as [|a l Ha _ IH]; simpl; [done|]. by rewrite Ha.
Qed.

(** Filtering commutes with the deduplication. *)
Lemma keep_first_filter p ts :
  List.filter p (keep_first ts) = keep_first (List.filter p ts).
Proof.
  induction ts as [|t ts IH]; simpl; [done|].
  destruct (p t) eqn:Hp; simpl.
  - by rewrite filter_filter_comm, IH.
  - rewrite <- IH. rewrite filter_filter_comm. apply filter_all.
    apply Forall_forall. intros u Hu.
    apply list_elem_of_In, filter_In in Hu as [_ Hu].
    apply negb_true_iff, bool_decide_eq_false. intros ->. congruence.
Qed.

Lemma keep_first_NoDup ts : NoDup ts → keep_first ts = ts.
Proof.
  induction 1 as [|t ts Hnin _ IH]; simpl; [done|].
  rewrite IH. f_equal. apply filter_all, Forall_forall.
  intros u Hu. apply negb_true_iff, bool_decide_eq_false. intros ->. done.
Qed.

Lemma filter_filter_andb {A} (f g : A → bool) (l : list A) :
  List.filter f (List.filter g l) = List.filter (λ a, g a && f a) l.
Proof.
  induction l as [|a l IH]; simpl; [done|].
  destruct (g a); simpl; [|exact IH]. destruct (f a); by rewrite IH.
Qed.

Lemma mem_snoc t u acc : Py.mem u (acc ++ [t]) = Py.mem u acc || bool_decide (u = t).
Proof.
  unfold Py.mem. destruct (bool_decide (u ∈ acc)) eqn:Hm; simpl.
  - apply bool_decide_eq_true in Hm. apply bool_decide_eq_true.
    apply elem_of_app. by left.
  - apply bool_decide_eq_false in Hm. apply bool_decide_ext.
    rewrite elem_of_app, list_elem_of_singleton. tauto.
Qed.

(** The loop that appends the new candidates is the deduplication of the
    long ones among those not yet in the list. *)
Lemma fold_add_abstract ts : ∀ acc,
  fold_left add_abstract ts acc
  = acc ++ keep_first (List.filter (λ t, long_enough 20 t && negb (Py.mem t acc)) ts).
Proof.
  induction ts as [|t ts IH]; intros acc; simpl; [by rewrite app_nil_r|].
  unfold add_abstract at 2.
  destruct (long_enough 20 t && negb (Py.mem t acc)) eqn:Ht; simpl; [|apply IH].
  rewrite IH, <- app_assoc. simpl. do 2 f_equal.
  rewrite keep_first_filter, filter_filter_andb. f_equal.
  apply List.filter_ext. intros u.
  by rewrite mem_snoc, negb_orb, andb_assoc.
Qed.

Lemma abstract_loop_spec (flatten : Element → string) (els1 els2 : list Element) :
  take 3 (fold_left (λ parts el, add_abstract parts (flatten el)) els2
            (fold_left (λ parts el, add_abstract parts (flatten el)) els1 []))
  = abstract_parts_in_pass_order flatten (els1 ++ els2).
Proof.
  unfold abstract_parts_in_pass_order.
  rewrite <- fold_left_app, fold_left_map_arg, fold_add_abstract. simpl.
  do 2 f_equal. apply List.filter_ext. intros t. apply andb_true_r.
Qed.

Lemma et_abstract_parts_spec (root : Element) :
  et_abstract_parts root = abstract_parts_in_pass_order text_of (et_candidates root).
Proof.
  unfold et_abstract_parts, et_candidates. simpl.
  rewrite <- abstract_loop_spec.
  by destruct (fold_left _ (find_all_with_tag root "abstract") _).
Qed.

Lemma lxml_abstract_parts_spec (root : Element) :
  lxml_abstract_parts root = abstract_parts_in_pass_order lxml_text_of (lxml_candidates root).
Proof.
  unfold lxml_abstract_parts, lxml_candidates. simpl. apply abstract_loop_spec.
Qed.

Lemma pass_order_five (flatten : Element → string) (candidates : list Element)
    (t1 t2 t3 t4 t5 : string) :
  map flatten candidates = [t1; t2; t3; t4; t5] →
  NoDup [t1; t2; t3; t4; t5] →
  Forall (λ t, long_enough 20 t = true) [t1; t2; t3; t4; t5] →
  abstract_parts_in_pass_order flatten candidates = [t1; t2; t3].
Proof.
  intros Hts Hnd Hlong. unfold abstract_parts_in_pass_order.
  rewrite Hts, (filter_all _ _ Hlong), (keep_first_NoDup _ Hnd). done.
Qed.
End Candidates.

(** C7, as stated: the abstract candidates in document order. It fails
    on a document whose three abstracts precede a description: the
    description comes first in the result and the third abstract is
    dropped. *)
Lemma abstract_cap_document_order_counterexample :
  ContentExtractor.et_abstract_parts Fixtures.tree_mixed
    = [Fixtures.description_text; Fixtures.abstract_n "1"; Fixtures.abstract_n "2"]
  ∧ Spec.abstract_parts_in_document_order Fixtures.tree_mixed
    = [Fixtures.abstract_n "1"; Fixtures.abstract_n "2"; Fixtures.abstract_n "3"]
  ∧ ContentExtractor.et_abstract_parts Fixtures.tree_mixed
    ≠ Spec.abstract_parts_in_document_order Fixtures.tree_mixed.
Proof.
  split; [vm_compute; reflexivity|]. split; [vm_compute; reflexivity|].
  vm_compute. discriminate.
Qed.

(** C7, amended. In both structured extractors the abstract parts are the
    candidates longer than 20 characters, deduplicated by equality with the
    first occurrence kept, cut to the first three, where the candidates
    are taken in the order of the two passes: every element named
    [description] in document order, then every element named [abstract] in
    document order. With no [description] and five [abstract] elements
    whose texts are distinct and longer than 20, the parts are the first
    three of them in document order, joined by blank lines. *)
Theorem abstract_candidates_dedup_cap :
  (∀ root,
     ContentExtractor.et_abstract_parts root
     = Spec.abstract_parts_in_pass_order ContentExtractor.text_of (Spec.et_candidates root))
  ∧ (∀ root,
       ContentExtractor.lxml_abstract_parts root
       = Spec.abstract_parts_in_pass_order ContentExtractor.lxml_text_of
           (Spec.lxml_candidates root))
  ∧ (∀ root t1 t2 t3 t4 t5,
       ContentExtractor.find_all_with_tag root "description" = [] →
       map ContentExtractor.text_of (ContentExtractor.find_all_with_tag root "abstract")
         = [t1; t2; t3; t4; t5] →
       NoDup [t1; t2; t3; t4; t5] →
       Forall (λ t, ContentExtractor.long_enough 20 t = true) [t1; t2; t3; t4; t5] →
       ContentExtractor.et_abstract_parts root = [t1; t2; t3]
       ∧ ContentExtractor.join_parts (ContentExtractor.et_abstract_parts root)
         = t1 +:+ ContentExtractor.blank_line +:+ t2 +:+ ContentExtractor.blank_line +:+ t3)
  ∧ (∀ root t1 t2 t3 t4 t5,
       ContentExtractor.xpath_named_long root "description" = [] →
       map ContentExtractor.lxml_text_of (ContentExtractor.xpath_named_long root "abstract")
         = [t1; t2; t3; t4; t5] →
       NoDup [t1; t2; t3; t4; t5] →
       Forall (λ t, ContentExtractor.long_enough 20 t = true) [t1; t2; t3; t4; t5] →
       ContentExtractor.lxml_abstract_parts root = [t1; t2; t3]).
Proof.
  split; [exact et_abstract_parts_spec|]. split; [exact lxml_abstract_parts_spec|]. split.
  - intros root t1 t2 t3 t4 t5 Hd Ha Hnd Hlong.
    assert (ContentExtractor.et_abstract_parts root = [t1; t2; t3]) as ->; [|done].
    rewrite et_abstract_parts_spec. unfold Spec.et_candidates. rewrite Hd. simpl.
    by apply (pass_order_five _ _ t1 t2 t3 t4 t5).
  - intros root t1 t2 t3 t4 t5 Hd Ha Hnd Hlong.
    rewrite lxml_abstract_parts_spec. unfold Spec.lxml_candidates. rewrite Hd. simpl.
    by apply (pass_order_five _ _ t1 t2 t3 t4 t5).
Qed.

(** Five distinct abstracts: the first three are kept. *)
Lemma abstract_candidates_dedup_cap_witness :
  ContentExtractor.et_abstract_parts Fixtures.tree_five
    = [Fixtures.abstract_n "1"; Fixtures.abstract_n "2"; Fixtures.abstract_n "3"]
  ∧ ContentExtractor.join_parts (ContentExtractor.et_abstract_parts Fixtures.tree_five)
    = Fixtures.abstract_n "1" +:+ ContentExtractor.blank_line +:+ Fixtures.abstract_n "2"
      +:+ ContentExtractor.blank_line +:+ Fixtures.abstract_n "3".
Proof.
  destruct abstract_candidates_dedup_cap as (_ & _ & Hfive & _).
  apply (Hfive Fixtures.tree_five _ _ _ (Fixtures.abstract_n "4") (Fixtures.abstract_n "5")).
  - vm_compute. reflexivity.
  - vm_compute. reflexivity.
  - compute_done.
  - repeat constructor.
Defined.

(* ===================================================================== *)
(** * content_extractor: the promotion of the abstract                    *)
(* ===================================================================== *)

Section Promotion.
Import ContentExtractor Spec.
Implicit Types (a b : string) (root : Element).

Lemma len_positive a : 0 < Py.len a → a ≠ "".
Proof. destruct a; simpl; [lia|done]. Qed.

(** The two cases of lines 105 to 110. *)
Lemma et_finish_promoted a b :
  b = "" → 200 < Py.len a →
  et_finish a b
  = {| abstract := if 500 <? Py.len a then Py.take 500 a +:+ "..." else a;
       full_text := a; ec_source := ArticleFetcher.api |}.
Proof.
  intros -> Hlen. unfold et_finish. simpl.
  by rewrite (proj2 (Nat.ltb_lt _ _) Hlen).
Qed.

Lemma et_finish_unchanged a b :
  b ≠ "" ∨ Py.len a ≤ 200 →
  et_finish a b = {| abstract := a; full_text := b; ec_source := ArticleFetcher.api |}.
Proof.
  unfold et_finish. intros [Hb|Hlen].
  - apply nonempty_true_iff in Hb. by rewrite Hb.
  - rewrite (proj2 (Nat.ltb_ge _ _) Hlen). by rewrite andb_false_r.
Qed.

(** The two cases of lines 164 to 169: the abstract is never cut. *)
Lemma lxml_finish_promoted a b :
  b = "" → 200 < Py.len a →
  lxml_finish a b = {| abstract := a; full_text := a; ec_source := ArticleFetcher.api |}.
Proof.
  intros -> Hlen. unfold lxml_finish. simpl.
  by rewrite (proj2 (Nat.ltb_lt _ _) Hlen).
Qed.

Lemma lxml_finish_unchanged a b :
  b ≠ "" ∨ Py.len a ≤ 200 →
  lxml_finish a b = {| abstract := a; full_text := b; ec_source := ArticleFetcher.api |}.
Proof.
  unfold lxml_finish. intros [Hb|Hlen].
  - apply nonempty_true_iff in Hb. by rewrite Hb.
  - rewrite (proj2 (Nat.ltb_ge _ _) Hlen). by rewrite andb_false_r.
Qed.

Lemma lxml_finish_abstract a b : abstract (lxml_finish a b) = a.
Proof. unfold lxml_finish. by destruct (_ && _). Qed.

Lemma html_finish_unchanged a b :
  b ≠ "" ∨ a = "" →
  html_finish a b = {| abstract := a; full_text := b; ec_source := ArticleFetcher.crawl |}.
Proof.
  unfold html_finish. intros [Hb | ->].
  - apply nonempty_true_iff in Hb. by rewrite Hb.
  - by rewrite andb_false_r.
Qed.

(** The promotion rule of the tree-walk extractor. *)
Lemma et_promotion_rule root :
  let a := join_parts (et_abstract_parts root) in
  join_parts (et_body_parts root) = "" → 200 < Py.len a →
  full_text (et_extract root) = a
  ∧ abstract (et_extract root) = if 500 <? Py.len a then Py.take 500 a +:+ "..." else a.
Proof.
  cbv zeta. intros Hb Hlen. unfold et_extract.
  by rewrite (et_finish_promoted _ _ Hb Hlen).
Qed.

(** What an empty full text tells, for each of the three closing steps. *)
Lemma et_finish_empty_full_text a b :
  full_text (et_finish a b) = "" →
  abstract (et_finish a b) = a ∧ Py.len a ≤ 200 ∧ b = "".
Proof.
  destruct (decide (b = "")) as [->|Hb].
  - destruct (decide (200 < Py.len a)) as [Hlen|Hlen].
    + rewrite (et_finish_promoted a "" eq_refl Hlen). simpl. intros ->. simpl in Hlen. lia.
    + rewrite et_finish_unchanged by (right; lia). simpl. split; [done|]. split; [lia|done].
  - rewrite et_finish_unchanged by (left; done). simpl. done.
Qed.

Lemma lxml_finish_empty_full_text a b :
  full_text (lxml_finish a b) = "" →
  abstract (lxml_finish a b) = a ∧ Py.len a ≤ 200 ∧ b = "".
Proof.
  destruct (decide (b = "")) as [->|Hb].
  - destruct (decide (200 < Py.len a)) as [Hlen|Hlen].
    + rewrite (lxml_finish_promoted a "" eq_refl Hlen). simpl. intros ->. simpl in Hlen. lia.
    + rewrite lxml_finish_unchanged by (right; lia). simpl. split; [done|]. split; [lia|done].
  - rewrite lxml_finish_unchanged by (left; done). simpl. done.
Qed.

Lemma html_finish_empty_full_text a b :
  full_text (html_finish a b) = "" → abstract (html_finish a b) = "" ∧ a = "" ∧ b = "".
Proof.
  destruct (decide (b = "")) as [->|Hb].
  - destruct (decide (a = "")) as [->|Ha]; [done|].
    rewrite (html_finish_promotes a "" eq_refl Ha). simpl. done.
  - rewrite html_finish_unchanged by (left; done). simpl. done.
Qed.

(** The full text is the joined body, or the collected abstract when the
    body is empty: the abstract is copied at most once. *)
Lemma et_finish_full_text a b :
  full_text (et_finish a b) = b
  ∨ (b = "" ∧ 200 < Py.len a ∧ full_text (et_finish a b) = a).
Proof.
  destruct (decide (b = "")) as [->|Hb].
  - destruct (decide (200 < Py.len a)) as [Hlen|Hlen].
    + right. by rewrite (et_finish_promoted a "" eq_refl Hlen).
    + left. by rewrite et_finish_unchanged by (right; lia).
  - left. by rewrite et_finish_unchanged by (left; done).
Qed.

Lemma lxml_finish_full_text a b :
  full_text (lxml_finish a b) = b
  ∨ (b = "" ∧ 200 < Py.len a ∧ full_text (lxml_finish a b) = a).
Proof.
  destruct (decide (b = "")) as [->|Hb].
  - destruct (decide (200 < Py.len a)) as [Hlen|Hlen].
    + right. by rewrite (lxml_finish_promoted a "" eq_refl Hlen).
    + left. by rewrite lxml_finish_unchanged by (right; lia).
  - left. by rewrite lxml_finish_unchanged by (left; done).
Qed.

Lemma html_finish_full_text a b :
  full_text (html_finish a b) = b
  ∨ (b = "" ∧ a ≠ "" ∧ full_text (html_finish a b) = a).
Proof.
  destruct (decide (b = "")) as [->|Hb].
  - destruct (decide (a = "")) as [->|Ha]; [by left|].
    right. by rewrite (html_finish_promotes a "" eq_refl Ha).
  - left. by rewrite html_finish_unchanged by (left; done).
Qed.
End Promotion.

(** C2, at the failing input: an abstract of 600 characters and no body.
    Both extractors collect the same abstract. [extract_from_api_xml]
    follows the rule (full text of 600 characters, abstract cut to 500 and
    the ellipsis), given room for the two levels of the abstract;
    [extract_from_api_xml_lxml], which [extract_content] calls first,
    returns the 600 characters as abstract too. It never cuts the
    abstract, on any document. *)
Theorem lxml_promotion_leaves_abstract_uncut :
  Py.len Fixtures.text600 = 600
  ∧ ContentExtractor.join_parts (ContentExtractor.et_abstract_parts Fixtures.tree_600)
    = Fixtures.text600
  ∧ ContentExtractor.join_parts (ContentExtractor.lxml_abstract_parts Fixtures.tree_600)
    = Fixtures.text600
  ∧ ContentExtractor.join_parts (ContentExtractor.et_body_parts Fixtures.tree_600) = ""
  ∧ ContentExtractor.join_parts (ContentExtractor.lxml_body_parts Fixtures.tree_600) = ""
  ∧ (∀ frames, 2 ≤ frames →
       ContentExtractor.extract_from_api_xml Fixtures.sample_ET frames Fixtures.doc_600
       = Py.Returns (ContentExtractor.mkExtracted
                       (Py.take 500 Fixtures.text600 +:+ "...") Fixtures.text600
                       ArticleFetcher.api))
  ∧ (∀ frames,
       ContentExtractor.extract_from_api_xml_lxml Fixtures.sample_ET Fixtures.sample_lxml
         frames Fixtures.doc_600
       = Py.Returns (ContentExtractor.mkExtracted Fixtures.text600 Fixtures.text600
                       ArticleFetcher.api))
  ∧ (∀ frames,
       ContentExtractor.extract_content Fixtures.sample_ET Fixtures.sample_lxml
         Fixtures.sample_soup frames
         (ArticleFetcher.mkFetched ArticleFetcher.api Fixtures.doc_600 "application/xml"
            Fixtures.item_a)
       = Py.Returns (ContentExtractor.mkExtracted Fixtures.text600 Fixtures.text600
                       ArticleFetcher.api))
  ∧ ∀ root, ContentExtractor.abstract (ContentExtractor.lxml_extract root)
            = ContentExtractor.join_parts (ContentExtractor.lxml_abstract_parts root).
Proof.
  repeat (split; [vm_compute; reflexivity|]).
  assert (Fixtures.sample_lxml Fixtures.doc_600 = Some Fixtures.tree_600) as Hlx
    by (vm_compute; reflexivity).
  split; [|split; [|split]].
  - intros frames Hroom. unfold ContentExtractor.extract_from_api_xml.
    replace (Fixtures.sample_ET Fixtures.doc_600)
      with (ContentExtractor.Parsed Fixtures.tree_600) by (vm_compute; reflexivity).
    rewrite (et_extract_in_fits frames Fixtures.tree_600 2); [|vm_compute; repeat constructor|done].
    vm_compute. reflexivity.
  - intros frames. unfold ContentExtractor.extract_from_api_xml_lxml. rewrite Hlx.
    vm_compute. reflexivity.
  - intros frames. rewrite extract_content_structured by reflexivity.
    cbn [ArticleFetcher.raw_body]. rewrite Hlx. vm_compute. reflexivity.
  - intros root. apply lxml_finish_abstract.
Qed.

(** C3, as stated, fails on a document with an abstract of 26 characters
    and no body: the full text is empty, the abstract is not, and it is
    not longer than 200. *)
Lemma empty_full_text_invariant_counterexample :
  ¬ Spec.empty_full_text_invariant_as_stated
      (ContentExtractor.join_parts (ContentExtractor.et_abstract_parts Fixtures.tree_short))
      (ContentExtractor.et_extract Fixtures.tree_short).
Proof.
  unfold Spec.empty_full_text_invariant_as_stated. intros Hinv.
  destruct Hinv as [Habs|[Hlen _]].
  - vm_compute. reflexivity.
  - vm_compute in Habs. discriminate.
  - vm_compute in Hlen. lia.
Qed.

(** C3, amended. When the full text of a result is empty, the body
    candidates were empty and: on the structured path the abstract is the
    collected one, of at most 200 characters; on the HTML path the abstract
    is empty. The full text is always the joined body candidates, or, when
    these are empty, the collected abstract, copied once by the promotion
    step (on the structured path only if it is longer than 200). *)
Theorem empty_full_text_invariant :
  (∀ root,
     let a := ContentExtractor.join_parts (ContentExtractor.et_abstract_parts root) in
     let b := ContentExtractor.join_parts (ContentExtractor.et_body_parts root) in
     let r := ContentExtractor.et_extract root in
     (ContentExtractor.full_text r = "" →
      ContentExtractor.abstract r = a ∧ Py.len a ≤ 200 ∧ b = "")
     ∧ (ContentExtractor.full_text r = b
        ∨ (b = "" ∧ 200 < Py.len a ∧ ContentExtractor.full_text r = a)))
  ∧ (∀ root,
       let a := ContentExtractor.join_parts (ContentExtractor.lxml_abstract_parts root) in
       let b := ContentExtractor.join_parts (ContentExtractor.lxml_body_parts root) in
       let r := ContentExtractor.lxml_extract root in
       (ContentExtractor.full_text r = "" →
        ContentExtractor.abstract r = a ∧ Py.len a ≤ 200 ∧ b = "")
       ∧ (ContentExtractor.full_text r = b
          ∨ (b = "" ∧ 200 < Py.len a ∧ ContentExtractor.full_text r = a)))
  ∧ (∀ soup,
       let a := ContentExtractor.join_parts (ContentExtractor.html_abstract_parts soup) in
       let b := ContentExtractor.join_parts (ContentExtractor.html_body_parts soup) in
       let r := ContentExtractor.html_extract soup in
       (ContentExtractor.full_text r = "" →
        ContentExtractor.abstract r = "" ∧ a = "" ∧ b = "")
       ∧ (ContentExtractor.full_text r = b
          ∨ (b = "" ∧ a ≠ "" ∧ ContentExtractor.full_text r = a))).
Proof.
  split; [|split]; intros x; cbv zeta; split.
  - apply et_finish_empty_full_text.
  - apply et_finish_full_text.
  - apply lxml_finish_empty_full_text.
  - apply lxml_finish_full_text.
  - apply html_finish_empty_full_text.
  - apply html_finish_full_text.
Qed.

(** The document with an abstract of 26 characters: empty full text, the
    abstract returned as collected, no longer than 200. *)
Lemma empty_full_text_invariant_witness :
  ContentExtractor.abstract (ContentExtractor.et_extract Fixtures.tree_short)
    = "abcdefghijklmnopqrstuvwxyz"
  ∧ Py.len "abcdefghijklmnopqrstuvwxyz" ≤ 200
  ∧ ContentExtractor.join_parts (ContentExtractor.et_body_parts Fixtures.tree_short) = "".
Proof.
  destruct empty_full_text_invariant as (Het & _ & _).
  destruct (Het Fixtures.tree_short) as (Hempty & _).
  apply Hempty. vm_compute. reflexivity.
Defined.

(* ===================================================================== *)
(** * content_extractor: the two structured extractors side by side       *)
(* ===================================================================== *)

Section SideBySide.
Import ContentExtractor Spec.
Implicit Types (root el d : Element) (name : string).

Lemma p_only_below root el : p_only root → el ∈ iter root → p_only el.
Proof.
  unfold p_only. rewrite !Forall_forall.
  intros Hroot Hel d Hd. apply Hroot. by apply (iter_trans root el).
Qed.

Lemma find_all_p_only root name :
  p_only root → name ∈ names_but_p → find_all_with_tag root name = [].
Proof.
  intros Hroot Hname. apply filter_none. eapply Forall_impl; [exact Hroot|].
  intros el [Htag _]. cbv beta. apply bool_decide_eq_false.
  intros Heq. apply Htag. by rewrite Heq.
Qed.

Lemma xpath_named_p_only root name :
  p_only root → name ∈ names_but_p → xpath_named root name = [].
Proof.
  intros Hroot Hname. apply filter_none. eapply Forall_impl; [exact Hroot|].
  intros el [_ Hlocal]. cbv beta. apply bool_decide_eq_false.
  intros Heq. apply Hlocal. by rewrite Heq.
Qed.

Lemma xpath_named_long_p_only root name :
  p_only root → name ∈ names_but_p → xpath_named_long root name = [].
Proof.
  intros Hroot Hname. apply filter_none. eapply Forall_impl; [exact Hroot|].
  intros el [_ Hlocal]. cbv beta. apply andb_false_iff. left.
  apply bool_decide_eq_false. intros Heq. apply Hlocal. by rewrite Heq.
Qed.

Lemma xpath_para_or_section_p_only el : p_only el → xpath_para_or_section el = [].
Proof.
  intros Hp. apply filter_none, Forall_forall. intros d Hd.
  apply iter_children in Hd. unfold p_only in Hp.
  rewrite Forall_forall in Hp. destruct (Hp d Hd) as [_ Hlocal].
  apply orb_false_iff. split; apply bool_decide_eq_false; intros Heq;
    apply Hlocal; rewrite Heq; unfold names_but_p; set_solver.
Qed.

Lemma names_but_p_elem name :
  name = "description" ∨ name = "abstract" ∨ name = "section" ∨ name = "para" →
  name ∈ names_but_p.
Proof. unfold names_but_p. intros [-> | [-> | [-> | ->]]]; set_solver. Qed.

(** Where only [p] elements can be candidates, the tree-walk extractor
    returns the long [p] texts of the first [body] as full text. *)
Lemma et_extract_p_only root :
  p_only root → et_extract root = mkExtracted "" (join_parts (p_texts root)) ArticleFetcher.api.
Proof.
  intros Hroot.
  assert (et_abstract_parts root = []) as Ha.
  { unfold et_abstract_parts. simpl.
    rewrite !find_all_p_only by (done || (apply names_but_p_elem; tauto)).
    done. }
  assert (et_body_parts root = p_texts root) as Hb.
  { rewrite et_body_parts_unfold. unfold et_body_elements, p_texts.
    rewrite (find_all_p_only root "para") by (done || (apply names_but_p_elem; tauto)).
    destruct (first_named "body" (iter root)) as [body_el|] eqn:Hbody; [|done].
    apply first_named_elem in Hbody.
    pose proof (p_only_below root body_el Hroot Hbody) as Hbelow.
    rewrite !find_all_p_only by (done || (apply names_but_p_elem; tauto)).
    cbn [app map List.filter]. by destruct (List.filter _ _). }
  unfold et_extract. rewrite Ha, Hb. unfold et_finish.
  change (200 <? Py.len (join_parts [])) with false. by rewrite andb_false_r.
Qed.

(** The path-query extractor returns nothing there. *)
Lemma lxml_extract_p_only root : p_only root → lxml_extract root = empty_api.
Proof.
  intros Hroot.
  assert (lxml_abstract_parts root = []) as Ha.
  { unfold lxml_abstract_parts. simpl.
    rewrite !xpath_named_long_p_only by (done || (apply names_but_p_elem; tauto)).
    done. }
  assert (lxml_body_parts root = []) as Hb.
  { unfold lxml_body_parts.
    rewrite (xpath_named_p_only root "para") by (done || (apply names_but_p_elem; tauto)).
    destruct (xpath_named root "body") as [|body0 rest] eqn:Hbody; simpl; [done|].
    assert (body0 ∈ iter root) as Hin.
    { assert (body0 ∈ xpath_named root "body") as Hx by (rewrite Hbody; apply list_elem_of_here).
      by apply list_elem_of_In, filter_In in Hx as [Hx%list_elem_of_In _]. }
    rewrite xpath_para_or_section_p_only by by apply (p_only_below root).
    done. }
  unfold lxml_extract. by rewrite Ha, Hb.
Qed.

Lemma et_finish_source (a b : string) : ec_source (et_finish a b) = ArticleFetcher.api.
Proof. unfold et_finish. by destruct (_ && _). Qed.

Lemma lxml_finish_source (a b : string) : ec_source (lxml_finish a b) = ArticleFetcher.api.
Proof. unfold lxml_finish. by destruct (_ && _). Qed.
End SideBySide.

(** The two extractors also flatten an element differently: the tree-walk
    one joins the text nodes with a space, the path-query one concatenates
    them after the text of the element itself, which then occurs twice. *)
Lemma flattening_differs_on_own_text :
  ContentExtractor.text_of (Fixtures.leaf "abstract" "abcdefghijklmnopqrstuvwxyz")
    = "abcdefghijklmnopqrstuvwxyz"
  ∧ ContentExtractor.lxml_text_of (Fixtures.leaf "abstract" "abcdefghijklmnopqrstuvwxyz")
    = "abcdefghijklmnopqrstuvwxyzabcdefghijklmnopqrstuvwxyz".
Proof. split; vm_compute; reflexivity. Qed.

(** C1, at the failing input and in general. On a body that both parsers
    accept and whose only paragraph is a [p] element of its [body], the
    tree-walk extractor, which looks for [section], [para] and [p] in the
    body (line 90), returns the paragraph as full text, and the path-query
    extractor, which looks for [para] and [section] only (line 152),
    returns the empty content: the two results differ. So it is on every
    document in which no element is named [description], [abstract],
    [section] or [para]: the path-query extractor returns the empty
    content there, and the tree-walk extractor the [p] texts longer than
    30 of the first [body]. *)
Theorem lxml_extractor_misses_p_of_body :
  Fixtures.sample_ET Fixtures.doc_body_p = ContentExtractor.Parsed Fixtures.tree_body_p
  ∧ Fixtures.sample_lxml Fixtures.doc_body_p = Some Fixtures.tree_body_p
  ∧ (∀ frames, 2 ≤ frames →
       ContentExtractor.extract_from_api_xml Fixtures.sample_ET frames Fixtures.doc_body_p
       = Py.Returns (ContentExtractor.mkExtracted "" Fixtures.paragraph_text
                       ArticleFetcher.api))
  ∧ (∀ frames,
       ContentExtractor.extract_from_api_xml_lxml Fixtures.sample_ET Fixtures.sample_lxml
         frames Fixtures.doc_body_p
       = Py.Returns (ContentExtractor.mkExtracted "" "" ArticleFetcher.api))
  ∧ (∀ frames, 2 ≤ frames →
       ContentExtractor.extract_from_api_xml Fixtures.sample_ET frames Fixtures.doc_body_p
       ≠ ContentExtractor.extract_from_api_xml_lxml Fixtures.sample_ET Fixtures.sample_lxml
           frames Fixtures.doc_body_p)
  ∧ (∀ root, Spec.p_only root →
       ContentExtractor.lxml_extract root
       = ContentExtractor.mkExtracted "" "" ArticleFetcher.api
       ∧ ContentExtractor.et_extract root
         = ContentExtractor.mkExtracted ""
             (ContentExtractor.join_parts (Spec.p_texts root)) ArticleFetcher.api).
Proof.
  split; [vm_compute; reflexivity|]. split; [vm_compute; reflexivity|].
  assert (∀ frames, 2 ≤ frames →
            ContentExtractor.extract_from_api_xml Fixtures.sample_ET frames
              Fixtures.doc_body_p
            = Py.Returns (ContentExtractor.mkExtracted "" Fixtures.paragraph_text
                            ArticleFetcher.api)) as Het.
  { intros frames Hroom. unfold ContentExtractor.extract_from_api_xml.
    replace (Fixtures.sample_ET Fixtures.doc_body_p)
      with (ContentExtractor.Parsed Fixtures.tree_body_p) by (vm_compute; reflexivity).
    rewrite (et_extract_in_fits frames Fixtures.tree_body_p 2);
      [|vm_compute; repeat constructor|done].
    vm_compute. reflexivity. }
  assert (∀ frames,
            ContentExtractor.extract_from_api_xml_lxml Fixtures.sample_ET
              Fixtures.sample_lxml frames Fixtures.doc_body_p
            = Py.Returns (ContentExtractor.mkExtracted "" "" ArticleFetcher.api)) as Hlx.
  { intros frames. unfold ContentExtractor.extract_from_api_xml_lxml.
    replace (Fixtures.sample_lxml Fixtures.doc_body_p)
      with (Some Fixtures.tree_body_p) by (vm_compute; reflexivity).
    vm_compute. reflexivity. }
  split; [exact Het|]. split; [exact Hlx|]. split.
  - intros frames Hroom. rewrite (Het frames Hroom), Hlx. discriminate.
  - intros root Hroot. split; [by apply lxml_extract_p_only|by apply et_extract_p_only].
Qed.

(* ===================================================================== *)
(** * re: what a match has read                                           *)
(* ===================================================================== *)

Section MatchFacts.
Import Re.
Implicit Types (p : ascii → bool) (k : cont) (prev : option ascii)
  (s pre : list ascii) (cap : option (list ascii)).

Lemma last_or_nil prev : last_or prev [] = prev.
Proof. reflexivity. Qed.

Lemma last_or_app prev (a b : list ascii) :
  last_or (last_or prev a) b = last_or prev (a ++ b).
Proof.
  unfold last_or. destruct b as [|c b] using rev_ind.
  - rewrite app_nil_r. simpl. by destruct (last a).
  - rewrite app_assoc, !last_snoc. done.
Qed.

Lemma last_or_cons prev (c : ascii) (b : list ascii) :
  last_or (Some c) b = last_or prev (c :: b).
Proof. change (c :: b) with ([c] ++ b). by rewrite <- last_or_app. Qed.

(** A greedy repetition stops where the continuation first succeeds,
    coming from the longest reading: one character further, it failed. *)
Lemma repeat_greedy_reads p k s : ∀ n prev cap x,
  repeat_greedy p k n prev s cap = Some x →
  ∃ pre s', s = pre ++ s'
    ∧ n ≤ length pre ∧ Forall (λ c, p c = true) pre
    ∧ k (last_or prev pre) s' cap = Some x
    ∧ ∀ c t, s' = c :: t → p c = true → repeat_greedy p k 0 (Some c) t cap = None.
Proof.
  induction s as [|c s IH]; intros n prev cap x; simpl.
  - destruct n; [|done]. intros Hk. exists [], [].
    split; [done|]. split; [simpl; lia|]. split; [constructor|]. split; [done|]. done.
  - destruct (p c) eqn:Hc.
    + destruct (repeat_greedy p k (pred n) (Some c) s cap) as [r|] eqn:Hr.
      * intros [= <-]. destruct (IH _ _ _ _ Hr) as (pre & s' & -> & Hn & Hp & Hk & Hmax).
        exists (c :: pre), s'. split; [done|]. split; [simpl; lia|].
        split; [by constructor|]. split; [by rewrite <- (last_or_cons prev)|done].
      * destruct n; [|done]. intros Hk. exists [], (c :: s).
        split; [done|]. split; [simpl; lia|]. split; [constructor|]. split; [done|].
        intros c' t [= <- <-] _. exact Hr.
    + destruct n; [|done]. intros Hk. exists [], (c :: s).
      split; [done|]. split; [simpl; lia|]. split; [constructor|]. split; [done|].
      intros c' t [= <- <-]. congruence.
Qed.

(** A match splits the text into what it read and what it hands over. *)
Lemma rmatch_reads r : ∀ k prev s cap x,
  rmatch r k prev s cap = Some x →
  ∃ pre s' cap', s = pre ++ s' ∧ reads r pre ∧ k (last_or prev pre) s' cap' = Some x.
Proof.
  induction r as [| |p|r1 IH1 r2 IH2|r IH|p n|r IH]; intros k prev s cap x; simpl.
  - intros Hk. by exists [], s, cap.
  - destruct (at_boundary prev s); [|done]. intros Hk. by exists [], s, cap.
  - destruct s as [|c s]; [done|]. destruct (p c) eqn:Hc; [|done].
    intros Hk. exists [c], s, cap. split; [done|]. split; [by exists c|done].
  - intros H1. destruct (IH1 _ _ _ _ _ H1) as (a & s1 & c1 & -> & Ha & H2).
    destruct (IH2 _ _ _ _ _ H2) as (b & s2 & c2 & -> & Hb & Hk).
    exists (a ++ b), s2, c2. split; [by rewrite app_assoc|].
    split; [by exists a, b|]. by rewrite <- last_or_app.
  - destruct (rmatch r k prev s cap) as [y|] eqn:Hr.
    + intros [= <-]. destruct (IH _ _ _ _ _ Hr) as (pre & s' & cap' & -> & Hpre & Hk).
      exists pre, s', cap'. split; [done|]. split; [by right|done].
    + intros Hk. exists [], s, cap. split; [done|]. split; [by left|done].
  - intros Hr. destruct (repeat_greedy_reads _ _ _ _ _ _ _ Hr) as (pre & s' & -> & Hn & Hp & Hk & _).
    by exists pre, s', cap.
  - intros Hr. destruct (IH _ _ _ _ _ Hr) as (pre & s' & cap' & -> & Hpre & Hk).
    exists pre, s', (Some (take (length (pre ++ s') - length s') (pre ++ s'))).
    done.
Qed.

(** The group captures what its pattern read. *)
Lemma rmatch_group_reads r k prev s cap x :
  rmatch (Group r) k prev s cap = Some x →
  ∃ pre s', s = pre ++ s' ∧ reads r pre ∧ k (last_or prev pre) s' (Some pre) = Some x.
Proof.
  simpl. intros Hr. apply rmatch_reads in Hr as (pre & s' & cap' & -> & Hpre & Hk).
  exists pre, s'. split; [done|]. split; [done|].
  replace (length (pre ++ s') - length s') with (length pre) in Hk
    by (rewrite length_app; lia).
  by rewrite take_app_length in Hk.
Qed.

(** [search] finds its match somewhere in the text. *)
Lemma search_from_reads r s : ∀ prev x,
  search_from r prev s = Some x →
  ∃ skipped s1, s = skipped ++ s1
    ∧ rmatch r accept (last_or prev skipped) s1 None = Some x.
Proof.
  induction s as [|c s IH]; intros prev x; rewrite search_from_unfold;
    destruct (rmatch r accept prev _ None) as [y|] eqn:Hm; try done.
  - intros [= <-]. by exists [], [].
  - intros [= <-]. by exists [], (c :: s).
  - intros Hs. destruct (IH _ _ Hs) as (skipped & s1 & -> & Hr).
    exists (c :: skipped), s1. split; [done|]. by rewrite <- (last_or_cons prev).
Qed.

(** With a continuation that accepts at every word boundary and a class
    that holds every word character, a greedy repetition that starts after
    a word character succeeds. *)
Lemma repeat_greedy_after_word p k :
  (∀ c, Py.isword c = true → p c = true) →
  (∀ prev s cap, at_boundary prev s = true → k prev s cap ≠ None) →
  ∀ s (w : ascii) cap, Py.isword w = true → repeat_greedy p k 0 (Some w) s cap ≠ None.
Proof.
  intros Hword Hk. induction s as [|c s IH]; intros w cap Hw; simpl.
  - apply Hk. unfold at_boundary. simpl. by rewrite Hw.
  - destruct (p c) eqn:Hc.
    + destruct (repeat_greedy p k 0 (Some c) s cap) eqn:Hr; [done|].
      apply Hk. unfold at_boundary. simpl. rewrite Hw.
      destruct (Py.isword c) eqn:Hcw; [|done]. by destruct (IH c cap Hcw).
    + apply Hk. unfold at_boundary. simpl. rewrite Hw.
      destruct (Py.isword c) eqn:Hcw; [|done]. rewrite (Hword c Hcw) in Hc. done.
Qed.
End MatchFacts.

Section PatternFacts.
Import Re RssParser.
Implicit Types (prev : option ascii) (s pre l : list ascii).

Lemma reads_lits_lit (str : string) l : reads (lits lit str) l → l = Py.chars str.
Proof.
  unfold lits. revert l. induction (Py.chars str) as [|c cs IH]; intros l; simpl.
  - done.
  - intros (a & b & -> & (x & -> & Hx) & Hb). apply bool_decide_eq_true in Hx as ->.
    simpl. f_equal. by apply IH.
Qed.

Lemma reads_lits_lit_i (str : string) l :
  reads (lits lit_i str) l → map Py.lower l = map Py.lower (Py.chars str).
Proof.
  unfold lits. revert l. induction (Py.chars str) as [|c cs IH]; intros l; simpl.
  - by intros ->.
  - intros (a & b & -> & (x & -> & Hx) & Hb). apply bool_decide_eq_true in Hx.
    simpl. rewrite Hx. f_equal. by apply IH.
Qed.

Lemma take_read pre s' : take (length (pre ++ s') - length s') (pre ++ s') = pre.
Proof.
  replace (length (pre ++ s') - length s') with (length pre)
    by (rewrite length_app; lia).
  apply take_app_length.
Qed.

Lemma isword_doi_char (c : ascii) : Py.isword c = true → doi_char c = true.
Proof. destruct c as [[] [] [] [] [] [] [] []]; vm_compute; congruence. Qed.

Lemma lower_is_s (c : ascii) :
  Py.lower c = Py.lower "S" → c = "S"%char ∨ c = "s"%char.
Proof. destruct c as [[] [] [] [] [] [] [] []]; vm_compute; intros; (discriminate || auto). Qed.

(** What a match of [DOI_PATTERN] reads and captures. *)
Lemma doi_match_reads prev s cap :
  rmatch DOI_PATTERN accept prev s None = Some cap →
  ∃ ds suf s' w,
    s = Py.chars "10." ++ ds ++ "/"%char :: suf ++ s'
    ∧ cap = Some (Py.chars "10." ++ ds ++ "/"%char :: suf)
    ∧ 4 ≤ length ds ∧ Forall (λ c, Py.isdigit c = true) ds
    ∧ Forall (λ c, doi_char c = true) suf
    ∧ last suf = Some w ∧ Py.isword w = true
    ∧ is_word_opt prev = false ∧ is_word_opt (head s') = false.
Proof.
  unfold DOI_PATTERN.
  set (A := lits lit "10."). set (B := Repeat Py.isdigit 4). set (C := lit "/").
  intros Hm.
  change (rmatch Boundary
            (rmatch (Group (Seq A (Seq B (Seq C (Repeat doi_char 1)))))
                    (rmatch Boundary accept)) prev s None = Some cap) in Hm.
  simpl in Hm. destruct (at_boundary prev s) eqn:Hstart; [|done].
  set (K := λ (prev' : option ascii) (s' : list ascii) (_ : option (list ascii)),
              if at_boundary prev' s'
              then accept prev' s' (Some (take (length s - length s') s)) else None) in Hm.
  change (rmatch A (rmatch B (rmatch C (repeat_greedy doi_char K 1))) prev s None = Some cap)
    in Hm.
  apply rmatch_reads in Hm as (a & s1 & c1 & Hs & Ha & Hm).
  apply rmatch_reads in Hm as (ds & s2 & c2 & -> & [Hlen Hds] & Hm).
  apply rmatch_reads in Hm as (sl & s3 & c3 & -> & (x & -> & Hx) & Hm).
  apply repeat_greedy_reads in Hm as (suf & s' & -> & Hsuf & Hdoi & Hk & Hmax).
  apply reads_lits_lit in Ha as ->. apply bool_decide_eq_true in Hx as ->.
  destruct suf as [|c0 suf0] using rev_ind; [simpl in Hsuf; lia|]. clear IHsuf0.
  rewrite !last_or_app in Hk. rewrite !app_assoc in Hk. unfold last_or in Hk.
  rewrite last_snoc in Hk. unfold K in Hk.
  destruct (at_boundary (Some c0) s') eqn:Hend; [|done].
  unfold accept in Hk. injection Hk as <-.
  assert (Py.isword c0 = true) as Hw.
  { destruct (Py.isword c0) eqn:Hc0; [done|].
    unfold at_boundary in Hend. simpl in Hend. rewrite Hc0 in Hend.
    destruct s' as [|w t]; [done|]. simpl in Hend.
    exfalso. eapply (repeat_greedy_after_word doi_char K isword_doi_char); [|exact Hend|].
    - intros p' s'' cap' Hb. unfold K. by rewrite Hb.
    - apply (Hmax w t eq_refl). by apply isword_doi_char. }
  assert (s = (Py.chars "10." ++ ds ++ "/"%char :: suf0 ++ [c0]) ++ s') as Hs'.
  { rewrite Hs. rewrite <- ?app_assoc. simpl. by rewrite <- ?app_assoc. }
  exists ds, (suf0 ++ [c0]), s', c0.
  split; [rewrite Hs'; rewrite <- ?app_assoc; simpl; by rewrite <- ?app_assoc|].
  split; [f_equal; rewrite Hs'; apply take_read|].
  split; [done|]. split; [done|]. split; [done|]. split; [apply last_snoc|].
  split; [done|]. split.
  - unfold at_boundary in Hstart. rewrite Hs in Hstart. simpl in Hstart.
    by destruct (is_word_opt prev).
  - unfold at_boundary in Hend. simpl in Hend. rewrite Hw in Hend.
    by destruct (is_word_opt (head s')).
Qed.
End PatternFacts.

Section PiiFacts.
Import Re RssParser.
Implicit Types (prev : option ascii) (s pre l : list ascii).

(** With a continuation that always succeeds a greedy repetition does. *)
Lemma repeat_greedy_total (p : ascii → bool) (k : cont) :
  (∀ prev s cap, k prev s cap ≠ None) →
  ∀ s prev cap, repeat_greedy p k 0 prev s cap ≠ None.
Proof.
  intros Hk. induction s as [|c s IH]; intros prev cap; simpl; [apply Hk|].
  destruct (p c); [|apply Hk]. destruct (repeat_greedy p k 0 (Some c) s cap); [done|apply Hk].
Qed.

(** What a match of [PII_PATTERN] reads and captures: the path, in any
    case, then the whole alphanumeric token that starts with an S. *)
Lemma pii_match_reads prev s cap :
  rmatch PII_PATTERN accept prev s None = Some cap →
  ∃ path c rest s',
    s = path ++ c :: rest ++ s'
    ∧ cap = Some (c :: rest)
    ∧ (map Py.lower path = Py.chars "/science/article/pii/"
       ∨ map Py.lower path = Py.chars "/science/article/abs/pii/")
    ∧ (c = "S"%char ∨ c = "s"%char)
    ∧ rest ≠ [] ∧ Forall (λ x, is_alnum_ascii x = true) rest
    ∧ ∀ x, head s' = Some x → is_alnum_ascii x = false.
Proof.
  unfold PII_PATTERN.
  set (L1 := lits lit_i "/science/article"). set (L0 := lits lit_i "/abs").
  set (L2 := lits lit_i "/pii/").
  intros Hm.
  change (rmatch L1 (rmatch (Opt L0) (rmatch L2
            (rmatch (Group (Seq (lit_i "S") (Repeat is_alnum_ascii 1))) accept)))
            prev s None = Some cap) in Hm.
  apply rmatch_reads in Hm as (l1 & s1 & c1 & -> & Hl1 & Hm).
  apply rmatch_reads in Hm as (l0 & s2 & c2 & -> & Hl0 & Hm).
  apply rmatch_reads in Hm as (l2 & s3 & c3 & -> & Hl2 & Hm).
  simpl in Hm. destruct s3 as [|c s3]; [done|].
  destruct (bool_decide (Py.lower c = Py.lower "S")) eqn:Hc; [|done].
  apply bool_decide_eq_true, lower_is_s in Hc.
  set (K := λ (prev' : option ascii) (s' : list ascii) (_ : option (list ascii)),
              accept prev' s' (Some (take (length (c :: s3) - length s') (c :: s3)))) in Hm.
  apply repeat_greedy_reads in Hm as (rest & s' & -> & Hlen & Hrest & Hk & Hmax).
  unfold K, accept in Hk. injection Hk as <-.
  apply reads_lits_lit_i in Hl1, Hl2.
  exists (l1 ++ l0 ++ l2), c, rest, s'.
  split; [by rewrite <- !app_assoc|].
  split; [f_equal; apply (take_read (c :: rest) s')|].
  split.
  { rewrite !map_app, Hl1, Hl2. destruct Hl0 as [->|Hl0].
    - left. reflexivity.
    - right. apply reads_lits_lit_i in Hl0. rewrite Hl0. reflexivity. }
  split; [done|]. split; [destruct rest; [simpl in Hlen; lia|done]|].
  split; [done|].
  intros x Hx. destruct s' as [|y t]; [done|]. injection Hx as ->.
  destruct (is_alnum_ascii x) eqn:Halnum; [|done].
  exfalso. eapply (repeat_greedy_total is_alnum_ascii K); [|by apply (Hmax x t)].
  done.
Qed.
End PiiFacts.

(* ===================================================================== *)
(** * rss_parser: the shape of the identifiers                            *)
(* ===================================================================== *)

Section StripIdempotent.
Implicit Types (p : ascii → bool) (l : list ascii).

Lemma drop_while_cases p l :
  Py.drop_while p l = [] ∨ ∃ c l', Py.drop_while p l = c :: l' ∧ p c = false.
Proof.
  induction l as [|a l IH]; simpl; [by left|].
  destruct (p a) eqn:Ha; [exact IH|]. right. by exists a, l.
Qed.

Lemma drop_while_stop p l c : p c = false → Py.drop_while p (c :: l) = c :: l.
Proof. intros Hc. simpl. by rewrite Hc. Qed.

Lemma rstrip_by_idem p l : Py.rstrip_by p (Py.rstrip_by p l) = Py.rstrip_by p l.
Proof.
  unfold Py.rstrip_by. rewrite rev_involutive.
  destruct (drop_while_cases p (rev l)) as [->|(c & l' & -> & Hc)]; [done|].
  by rewrite drop_while_stop.
Qed.

(** A text whose last character is kept loses nothing. *)
Lemma rstrip_by_keep_last p l c :
  last l = Some c → p c = false → Py.rstrip_by p l = l.
Proof.
  intros Hl Hc. destruct l as [|a l0] using rev_ind; [done|]. clear IHl0.
  rewrite last_snoc in Hl. injection Hl as ->.
  unfold Py.rstrip_by. rewrite rev_app_distr. simpl. rewrite Hc. simpl.
  by rewrite rev_involutive.
Qed.

Lemma strip_idem (s : string) : Py.strip (Py.strip s) = Py.strip s.
Proof.
  unfold Py.strip, Py.lstrip_by. rewrite chars_str. f_equal.
  destruct (drop_while_cases Py.isspace (Py.chars s)) as [->|(c & l' & -> & Hc)]; [done|].
  rewrite (rstrip_by_cons_keep _ _ _ Hc), (drop_while_stop _ _ _ Hc).
  rewrite <- (rstrip_by_cons_keep _ _ _ Hc). apply rstrip_by_idem.
Qed.
End StripIdempotent.

Section Identifiers.
Import RssParser.

Lemma word_not_stripped (w : ascii) :
  Py.isword w = true → bool_decide (w ∈ Py.chars ".,;") = false.
Proof. destruct w as [[] [] [] [] [] [] [] []]; vm_compute; congruence. Qed.

Lemma last_or_None (l : list ascii) : Re.last_or None l = last l.
Proof. unfold Re.last_or. by destruct (last l). Qed.

Lemma doi_group_reads (text g : string) :
  Re.search_group1 DOI_PATTERN text = Some g →
  ∃ before ds suf after w,
    Py.chars text = before ++ Py.chars g ++ after
    ∧ Py.chars g = Py.chars "10." ++ ds ++ "/"%char :: suf
    ∧ 4 ≤ length ds ∧ Forall (λ c, Py.isdigit c = true) ds
    ∧ Forall (λ c, doi_char c = true) suf
    ∧ last suf = Some w ∧ Py.isword w = true
    ∧ Re.is_word_opt (last before) = false ∧ Re.is_word_opt (head after) = false.
Proof.
  unfold Re.search_group1, Re.search.
  destruct (Re.search_from _ _ _) as [[cap|]|] eqn:Hs; try done.
  intros [= <-]. apply search_from_reads in Hs as (before & s1 & Htext & Hm).
  apply doi_match_reads in Hm as (ds & suf & after & w & -> & [= ->] & H).
  rewrite last_or_None in H.
  exists before, ds, suf, after, w. rewrite chars_str.
  split; [|done]. rewrite Htext. rewrite <- ?app_assoc. simpl. by rewrite <- ?app_assoc.
Qed.

Lemma doi_group_last_word (text g : string) :
  Re.search_group1 DOI_PATTERN text = Some g →
  ∃ w, last (Py.chars g) = Some w ∧ Py.isword w = true.
Proof.
  intros (before & ds & suf & after & w & _ & -> & _ & _ & _ & Hl & Hw & _)%doi_group_reads.
  exists w. split; [|done].
  destruct suf as [|c suf0] using rev_ind; [done|]. clear IHsuf0.
  rewrite last_snoc in Hl. injection Hl as ->.
  rewrite app_assoc, app_comm_cons, app_assoc. apply last_snoc.
Qed.

(** Nothing is stripped from a match. *)
Lemma rstrip_of_doi_match (text g : string) :
  Re.search_group1 DOI_PATTERN text = Some g → Py.rstrip_chars ".,;" g = g.
Proof.
  intros Hg. destruct (doi_group_last_word text g Hg) as (w & Hl & Hw).
  unfold Py.rstrip_chars.
  rewrite (rstrip_by_keep_last _ _ w Hl) by (by apply word_not_stripped).
  apply str_chars.
Qed.

Lemma pii_group_reads (link p : string) :
  _extract_pii link = Some p →
  ∃ before path c rest after,
    Py.chars link = before ++ path ++ Py.chars p ++ after
    ∧ Py.chars p = c :: rest
    ∧ (map Py.lower path = Py.chars "/science/article/pii/"
       ∨ map Py.lower path = Py.chars "/science/article/abs/pii/")
    ∧ (c = "S"%char ∨ c = "s"%char)
    ∧ rest ≠ [] ∧ Forall (λ x, is_alnum_ascii x = true) rest
    ∧ ∀ x, head after = Some x → is_alnum_ascii x = false.
Proof.
  unfold _extract_pii, Re.search_group1, Re.search.
  destruct (Re.search_from _ _ _) as [[cap|]|] eqn:Hs; try done.
  intros [= <-]. apply search_from_reads in Hs as (before & s1 & Htext & Hm).
  apply pii_match_reads in Hm as (path & c & rest & after & -> & [= ->] & H).
  exists before, path, c, rest, after. rewrite chars_str.
  split; [|done]. rewrite Htext. by rewrite <- ?app_assoc.
Qed.

Lemma extract_pii_truthy (link p : string) :
  _extract_pii link = Some p → Py.truthy (Some p) = true.
Proof.
  intros (before & path & c & rest & after & _ & Hp & _)%pii_group_reads.
  destruct p; [done|done].
Qed.
End Identifiers.

(** X1. The DOI found in a text is a part of that text, not preceded and
    not followed by a word character. It is made of [10.], four digits or
    more, a slash and a non-empty suffix without white space, quote or angle
    bracket, whose last character is a word character. *)
Theorem extract_doi_from_text_shape (text d : string) :
  RssParser._extract_doi_from_text text = Some d →
  ∃ before digits suffix after w,
    Py.chars text = before ++ Py.chars d ++ after
    ∧ Py.chars d = Py.chars "10." ++ digits ++ "/"%char :: suffix
    ∧ 4 ≤ length digits ∧ Forall (λ c, Py.isdigit c = true) digits
    ∧ Forall (λ c, RssParser.doi_char c = true) suffix
    ∧ last suffix = Some w ∧ Py.isword w = true
    ∧ Re.is_word_opt (last before) = false ∧ Re.is_word_opt (head after) = false.
Proof.
  unfold RssParser._extract_doi_from_text.
  destruct (Re.search_group1 RssParser.DOI_PATTERN text) as [g|] eqn:Hg; [|done].
  rewrite (rstrip_of_doi_match text g Hg). intros [= <-]. by apply doi_group_reads.
Qed.

(** In a sentence that ends with the DOI and a full stop. *)
Lemma extract_doi_from_text_shape_witness :
  ∃ before digits suffix after w,
    Py.chars "See doi:10.1016/j.tcs.2020.01.001."
      = before ++ Py.chars "10.1016/j.tcs.2020.01.001" ++ after
    ∧ Py.chars "10.1016/j.tcs.2020.01.001" = Py.chars "10." ++ digits ++ "/"%char :: suffix
    ∧ 4 ≤ length digits ∧ Forall (λ c, Py.isdigit c = true) digits
    ∧ Forall (λ c, RssParser.doi_char c = true) suffix
    ∧ last suffix = Some w ∧ Py.isword w = true
    ∧ Re.is_word_opt (last before) = false ∧ Re.is_word_opt (head after) = false.
Proof.
  apply (extract_doi_from_text_shape "See doi:10.1016/j.tcs.2020.01.001."
           "10.1016/j.tcs.2020.01.001").
  vm_compute. reflexivity.
Defined.

(** X2. [rstrip] removes nothing from a match of [DOI_PATTERN]: the
    closing word boundary already ends the match on a word character, so
    the DOI of a text is the match itself. *)
Theorem extract_doi_from_text_is_the_match (text : string) :
  RssParser._extract_doi_from_text text = Re.search_group1 RssParser.DOI_PATTERN text.
Proof.
  unfold RssParser._extract_doi_from_text.
  destruct (Re.search_group1 RssParser.DOI_PATTERN text) as [g|] eqn:Hg; [|done].
  by rewrite (rstrip_of_doi_match text g Hg).
Qed.

(** X3. In a link made of ASCII characters, as a URL is, the PII found
    is a part of the link: it follows the path [/science/article/pii/] or
    [/science/article/abs/pii/], written in any case, starts with the
    letter S in either case and goes on with one ASCII letter or digit or
    more, up to the end of the run of letters and digits. (A link with
    characters beyond code point 255 is outside the statement: there the
    pattern, which ignores case, accepts more than ASCII.) *)
Theorem extract_pii_shape (link p : string) :
  Spec.ascii_only link →
  RssParser._extract_pii link = Some p →
  ∃ before path c rest after,
    Py.chars link = before ++ path ++ Py.chars p ++ after
    ∧ Py.chars p = c :: rest
    ∧ (map Py.lower path = Py.chars "/science/article/pii/"
       ∨ map Py.lower path = Py.chars "/science/article/abs/pii/")
    ∧ (c = "S"%char ∨ c = "s"%char)
    ∧ rest ≠ [] ∧ Forall (λ x, RssParser.is_alnum_ascii x = true) rest
    ∧ ∀ x, head after = Some x → RssParser.is_alnum_ascii x = false.
Proof. intros _. apply pii_group_reads. Qed.

(** The link of an article, with a query string. *)
Lemma extract_pii_shape_witness :
  ∃ before path c rest after,
    Py.chars "https://www.sciencedirect.com/science/article/abs/pii/S0304397520301234?via=rss"
      = before ++ path ++ Py.chars "S0304397520301234" ++ after
    ∧ Py.chars "S0304397520301234" = c :: rest
    ∧ (map Py.lower path = Py.chars "/science/article/pii/"
       ∨ map Py.lower path = Py.chars "/science/article/abs/pii/")
    ∧ (c = "S"%char ∨ c = "s"%char)
    ∧ rest ≠ [] ∧ Forall (λ x, RssParser.is_alnum_ascii x = true) rest
    ∧ ∀ x, head after = Some x → RssParser.is_alnum_ascii x = false.
Proof.
  apply (extract_pii_shape
           "https://www.sciencedirect.com/science/article/abs/pii/S0304397520301234?via=rss"
           "S0304397520301234").
  - unfold Spec.ascii_only. vm_compute. repeat constructor.
  - vm_compute. reflexivity.
Defined.

(* ===================================================================== *)
(** * rss_parser: what an item of a feed holds                            *)
(* ===================================================================== *)

Section Items.
Import RssParser.

Lemma first_doi_none_iff (raws : list string) :
  first_doi raws = None ↔ Forall (λ raw, _extract_doi_from_text raw = None) raws.
Proof.
  induction raws as [|raw raws IH]; simpl; [by split|].
  destruct (_extract_doi_from_text raw) as [d|] eqn:Hd.
  - rewrite (extract_doi_from_text_truthy raw d Hd). split; [done|].
    intros [Hn _]%Forall_cons_1. simpl in Hn. congruence.
  - simpl. rewrite IH. split; [by constructor|by intros [_ ?]%Forall_cons_1].
Qed.

Lemma first_doi_truthy (raws : list string) (d : string) :
  first_doi raws = Some d → d ≠ "".
Proof.
  induction raws as [|raw raws IH]; simpl; [done|].
  destruct (_extract_doi_from_text raw) as [d'|] eqn:Hd; [|exact IH].
  rewrite (extract_doi_from_text_truthy raw d' Hd). intros [= ->].
  apply extract_doi_from_text_truthy in Hd. by apply nonempty_true_iff.
Qed.

Lemma extract_doi_nonempty (e : entry) (d : string) : _extract_doi e = Some d → d ≠ "".
Proof.
  unfold _extract_doi. destruct (first_doi _) as [d'|] eqn:Hf.
  - intros [= <-]. by apply first_doi_truthy in Hf.
  - destruct (Py.nonempty (Py.strip _)) eqn:Hdc; [|done].
    unfold Py.or_else. destruct (_extract_doi_from_text _) as [d'|] eqn:Hd.
    + rewrite (extract_doi_from_text_truthy _ d' Hd). intros [= <-].
      apply extract_doi_from_text_truthy in Hd. by apply nonempty_true_iff.
    + simpl. intros [= <-]. by apply nonempty_true_iff.
Qed.

Lemma parse_entries_elem (es : list entry) (it : RSSItem) :
  it ∈ parse_entries es [] → ∃ e, e ∈ es ∧ parse_entry e = Some it.
Proof.
  induction es as [|e es IH]; simpl; [by intros ?%elem_of_nil|].
  destruct (parse_entry e) as [it'|] eqn:He.
  - rewrite parse_entries_acc. intros [->%list_elem_of_singleton|Hin]%elem_of_app.
    + exists e. split; [apply list_elem_of_here|done].
    + destruct (IH Hin) as (e' & He' & Hp). exists e'. split; [by apply list_elem_of_further|done].
  - intros Hin. destruct (IH Hin) as (e' & He' & Hp).
    exists e'. split; [by apply list_elem_of_further|done].
Qed.

Lemma parse_entry_fields (e : entry) (it : RSSItem) :
  parse_entry e = Some it →
  Py.strip (link it) = link it ∧ Py.strip (title it) = title it
  ∧ Py.strip (description it) = description it
  ∧ pii it = _extract_pii (link it)
  ∧ doi it ≠ Some "" ∧ pii it ≠ Some "".
Proof.
  unfold parse_entry. destruct (negb _); [done|]. intros [= <-]. simpl.
  split; [apply strip_idem|]. split; [apply strip_idem|]. split; [apply strip_idem|].
  split; [done|]. split.
  - unfold Py.or_else. destruct (_extract_doi e) as [d|] eqn:Hd.
    + apply extract_doi_nonempty in Hd. apply nonempty_true_iff in Hd as Hd'.
      simpl. rewrite Hd'. by intros [= ->].
    + simpl. destruct (_extract_doi_from_text _) as [d|] eqn:Hd'; [|done].
      apply extract_doi_from_text_truthy in Hd'. intros [= ->]. done.
  - destruct (_extract_pii _) as [p|] eqn:Hp; [|done].
    apply extract_pii_truthy in Hp. intros [= ->]. done.
Qed.

Lemma article_id_of_clean (it : RSSItem) :
  doi it ≠ Some "" → pii it ≠ Some "" →
  (article_id it = None ↔ doi it = None ∧ pii it = None)
  ∧ (∀ d, doi it = Some d → article_id it = Some ("doi", d))
  ∧ (∀ p, doi it = None → pii it = Some p → article_id it = Some ("pii", p)).
Proof.
  intros Hd Hp. unfold article_id.
  destruct (doi it) as [[|c d]|], (pii it) as [[|c' p]|]; simpl; try done;
    (split; [split; [done|by intros [? ?]]|]); split; intros; by simplify_eq.
Qed.
End Items.

(** X4. Every item that [parse_feed_content] returns has a link, a title
    and a description without white space at either end, its PII is the
    one of its link, and neither its DOI nor its PII is the empty string;
    so the item has no identifier exactly when it has neither, a DOI is
    used when there is one and the PII otherwise. *)
Theorem parse_feed_content_items_clean
    (feedparser_entries : string -> list RssParser.entry) (content : string) :
  Forall (λ it,
            Py.strip (RssParser.link it) = RssParser.link it
            ∧ Py.strip (RssParser.title it) = RssParser.title it
            ∧ Py.strip (RssParser.description it) = RssParser.description it
            ∧ RssParser.pii it = RssParser._extract_pii (RssParser.link it)
            ∧ RssParser.doi it ≠ Some "" ∧ RssParser.pii it ≠ Some ""
            ∧ (RssParser.article_id it = None
               ↔ RssParser.doi it = None ∧ RssParser.pii it = None)
            ∧ (∀ d, RssParser.doi it = Some d → RssParser.article_id it = Some ("doi", d))
            ∧ (∀ p, RssParser.doi it = None → RssParser.pii it = Some p →
                    RssParser.article_id it = Some ("pii", p)))
         (RssParser.parse_feed_content feedparser_entries content).
Proof.
  apply Forall_forall. intros it Hit. unfold RssParser.parse_feed_content in Hit.
  apply parse_entries_elem in Hit as (e & _ & He).
  destruct (parse_entry_fields e it He) as (Hl & Ht & Hdesc & Hpii & Hd & Hp).
  repeat (split; [done|]). by apply article_id_of_clean.
Qed.

(** The items of the sample feed. *)
Lemma parse_feed_content_items_clean_witness :
  Forall (λ it,
            Py.strip (RssParser.link it) = RssParser.link it
            ∧ Py.strip (RssParser.title it) = RssParser.title it
            ∧ Py.strip (RssParser.description it) = RssParser.description it
            ∧ RssParser.pii it = RssParser._extract_pii (RssParser.link it)
            ∧ RssParser.doi it ≠ Some "" ∧ RssParser.pii it ≠ Some ""
            ∧ (RssParser.article_id it = None
               ↔ RssParser.doi it = None ∧ RssParser.pii it = None)
            ∧ (∀ d, RssParser.doi it = Some d → RssParser.article_id it = Some ("doi", d))
            ∧ (∀ p, RssParser.doi it = None → RssParser.pii it = Some p →
                    RssParser.article_id it = Some ("pii", p)))
         (RssParser.parse_feed_content Fixtures.feed_entries "FEED").
Proof. apply (parse_feed_content_items_clean Fixtures.feed_entries "FEED"). Defined.

(** X5. [_extract_doi] never returns the empty string. It returns nothing
    exactly when neither the link nor the description holds a DOI and the
    identifier field ([dc_identifier], or [prism_doi] when that one is
    empty) is blank; with no DOI in the link and the description and an
    identifier field that is not blank, it returns the DOI of that field
    or, when it holds none, the field itself, stripped. *)
Theorem extract_doi_metadata_fallback (e : RssParser.entry) :
  let link := RssParser.get_or_empty e "link" in
  let desc := RssParser.str_or (RssParser.get_or_empty e "description")
                               (RssParser.get_or_empty e "summary") in
  let dc_id := RssParser.str_or (RssParser.get_or_empty e "dc_identifier")
                                (RssParser.get_or_empty e "prism_doi") in
  (∀ d, RssParser._extract_doi e = Some d → d ≠ "")
  ∧ (RssParser._extract_doi e = None
     ↔ RssParser._extract_doi_from_text link = None
       ∧ RssParser._extract_doi_from_text desc = None
       ∧ Py.strip dc_id = "")
  ∧ (RssParser._extract_doi_from_text link = None →
     RssParser._extract_doi_from_text desc = None →
     Py.strip dc_id ≠ "" →
     RssParser._extract_doi e
     = Some (default (Py.strip dc_id) (RssParser._extract_doi_from_text dc_id))).
Proof.
  cbv zeta. split; [apply extract_doi_nonempty|].
  assert (RssParser.first_doi
            [RssParser.str_or (RssParser.get_or_empty e "link") "";
             RssParser.str_or (RssParser.get_or_empty e "description")
               (RssParser.str_or (RssParser.get_or_empty e "summary") "")] = None
          ↔ RssParser._extract_doi_from_text (RssParser.get_or_empty e "link") = None
            ∧ RssParser._extract_doi_from_text
                (RssParser.str_or (RssParser.get_or_empty e "description")
                                  (RssParser.get_or_empty e "summary")) = None) as Hfirst.
  { rewrite first_doi_none_iff, !str_or_empty_r. split.
    - intros [? [? _]%Forall_cons_1]%Forall_cons_1. done.
    - intros [? ?]. by repeat constructor. }
  assert (∀ dc, Py.strip dc ≠ "" →
            Py.or_else (RssParser._extract_doi_from_text dc) (Some (Py.strip dc))
            = Some (default (Py.strip dc) (RssParser._extract_doi_from_text dc))) as Hdc.
  { intros dc Hne. unfold Py.or_else.
    destruct (RssParser._extract_doi_from_text dc) as [d|] eqn:Hd; [|done].
    by rewrite (extract_doi_from_text_truthy dc d Hd). }
  split.
  - unfold RssParser._extract_doi. destruct (RssParser.first_doi _) as [d|] eqn:Hf.
    + split; [done|]. intros (Hl & Hd & _).
      discriminate (proj2 Hfirst (conj Hl Hd)).
    + apply proj1 in Hfirst. destruct (Hfirst eq_refl) as [Hl Hd].
      destruct (Py.nonempty (Py.strip _)) eqn:Hne.
      * apply nonempty_true_iff in Hne. rewrite (Hdc _ Hne). split; [done|].
        intros (_ & _ & Hblank). done.
      * apply nonempty_false_iff in Hne. done.
  - intros Hl Hd Hne. unfold RssParser._extract_doi.
    rewrite (proj2 Hfirst) by done.
    apply nonempty_true_iff in Hne as Hne'. rewrite Hne'. by apply Hdc.
Qed.

(** An entry identified by its [dc_identifier] alone: the field is
    returned without the white space around it. *)
Lemma extract_doi_metadata_fallback_witness :
  RssParser._extract_doi Fixtures.dc_entry = Some "urn:issn:0304-3975".
Proof.
  destruct (extract_doi_metadata_fallback Fixtures.dc_entry) as (_ & _ & Hdc).
  apply Hdc.
  - vm_compute. reflexivity.
  - vm_compute. reflexivity.
  - vm_compute. discriminate.
Defined.

(* ===================================================================== *)
(** * config, main: the feeds of a run                                    *)
(* ===================================================================== *)

Section EnvFeeds.
Implicit Types (cur l : list ascii) (c : ascii).

Lemma linebreak_isspace c : Py.is_linebreak c = true → Py.isspace c = true.
Proof. destruct c as [[] [] [] [] [] [] [] []]; vm_compute; congruence. Qed.

(** The first line starts with what has been read of it. *)
Lemma splitlines_go_first l : ∀ cur,
  cur ≠ [] → ∃ u rest tl, Py.splitlines_go cur l = u :: rest ∧ Py.chars u = rev cur ++ tl.
Proof.
  induction l as [|c l IH]; intros cur Hcur; simpl.
  - destruct cur as [|a cur]; [done|]. exists (Py.str (rev (a :: cur))), [], [].
    by rewrite chars_str, app_nil_r.
  - destruct (Py.is_linebreak c).
    + eexists _, _, []. split; [done|]. by rewrite chars_str, app_nil_r.
    + destruct (IH (c :: cur)) as (u & rest & tl & -> & Hu); [done|].
      exists u, rest, (c :: tl). split; [done|]. rewrite Hu. simpl.
      by rewrite <- app_assoc.
Qed.

Lemma strip_keeps_head c l :
  Py.isspace c = false → Py.strip (Py.str (c :: l)) ≠ "".
Proof.
  intros Hc. unfold Py.strip, Py.lstrip_by. rewrite chars_str.
  rewrite (drop_while_stop _ _ _ Hc), (rstrip_by_cons_keep _ _ _ Hc). done.
Qed.

Lemma strip_head (s : string) :
  Py.strip s = "" ∨ ∃ c l, Py.chars (Py.strip s) = c :: l ∧ Py.isspace c = false.
Proof.
  unfold Py.strip, Py.lstrip_by. rewrite chars_str.
  destruct (drop_while_cases Py.isspace (Py.chars s)) as [->|(c & l & -> & Hc)]; [by left|].
  right. exists c, (Py.rstrip_by Py.isspace l). split; [|done].
  by apply rstrip_by_cons_keep.
Qed.
End EnvFeeds.

Lemma get_rss_feeds_from_env_nil_iff (RSS_FEEDS : option string) :
  Config.get_rss_feeds_from_env RSS_FEEDS = [] ↔ Py.strip (default "" RSS_FEEDS) = "".
Proof.
  unfold Config.get_rss_feeds_from_env.
  destruct (Py.nonempty (Py.strip (default "" RSS_FEEDS))) eqn:Hraw; simpl.
  - apply nonempty_true_iff in Hraw as Hne. split; [|done]. intros Hnil. exfalso.
    destruct (strip_head (default "" RSS_FEEDS)) as [?|(c & l & Hchars & Hc)]; [done|].
    unfold Py.splitlines in Hnil. rewrite Hchars in Hnil. simpl in Hnil.
    destruct (Py.is_linebreak c) eqn:Hlb.
    { apply linebreak_isspace in Hlb. congruence. }
    destruct (splitlines_go_first l [c]) as (u & rest & tl & Hgo & Hu); [done|].
    rewrite Hgo in Hnil. simpl in Hnil, Hu.
    assert (Py.strip u ≠ "") as Hstrip.
    { rewrite <- (str_chars u), Hu. by apply strip_keeps_head. }
    apply nonempty_true_iff in Hstrip. rewrite Hstrip in Hnil. done.
  - apply nonempty_false_iff in Hraw. done.
Qed.

(** X6. The feed URLs read from [RSS_FEEDS]: each one is a line of the
    stripped value, stripped, and is neither empty nor surrounded by white
    space; there is none when the variable is unset or blank, and at least
    one otherwise. *)
Theorem get_rss_feeds_from_env_urls (RSS_FEEDS : option string) :
  let raw := Py.strip (default "" RSS_FEEDS) in
  let urls := Config.get_rss_feeds_from_env RSS_FEEDS in
  Forall (λ u, u ≠ "" ∧ Py.strip u = u ∧ ∃ line, line ∈ Py.splitlines raw ∧ u = Py.strip line)
         urls
  ∧ (urls = [] ↔ raw = "").
Proof.
  cbv zeta. split; [|apply get_rss_feeds_from_env_nil_iff].
  unfold Config.get_rss_feeds_from_env.
  destruct (Py.nonempty (Py.strip (default "" RSS_FEEDS))) eqn:Hraw; simpl; [|constructor].
  apply Forall_forall. intros u Hu.
  apply list_elem_of_fmap in Hu as (line & -> & Hline).
  apply list_elem_of_In, filter_In in Hline as [Hline Hne].
  split; [by apply nonempty_true_iff|]. split; [apply strip_idem|].
  exists line. by rewrite list_elem_of_In.
Qed.

(** X7. A run started without URL on the command line and with
    [RSS_FEEDS] unset or blank exits with status 1 and sends no request.
    URLs on the command line are used as they are and [RSS_FEEDS] is not
    consulted; [--no-api] is the run with [prefer_api] off. *)
Theorem main_feed_selection
    (cfg : Config.t) (feedparser_entries : string -> list RssParser.entry)
    (ET_fromstring : string -> ContentExtractor.et_parse)
    (lxml_fromstring : string -> option ContentExtractor.Element)
    (BeautifulSoup : string -> ContentExtractor.Node) (frames : nat)
    (limit : option Z) (no_api : bool) (RSS_FEEDS : option string)
    (net : Requests.Network) :
  let main :=
    Main.main cfg feedparser_entries ET_fromstring lxml_fromstring BeautifulSoup frames in
  let run :=
    Main.run cfg feedparser_entries ET_fromstring lxml_fromstring BeautifulSoup frames in
  (Py.strip (default "" RSS_FEEDS) = "" →
   main [] limit no_api RSS_FEEDS net = (Main.Exit1, []))
  ∧ (∀ url urls,
       main (url :: urls) limit no_api RSS_FEEDS = run (url :: urls) limit (negb no_api))
  ∧ (Py.strip (default "" RSS_FEEDS) ≠ "" →
     Config.get_rss_feeds_from_env RSS_FEEDS ≠ []
     ∧ main [] limit no_api RSS_FEEDS
       = run (Config.get_rss_feeds_from_env RSS_FEEDS) limit (negb no_api)).
Proof.
  cbv zeta. split; [|split].
  - intros Hblank. unfold Main.main.
    by rewrite (proj2 (get_rss_feeds_from_env_nil_iff RSS_FEEDS) Hblank).
  - done.
  - intros Hne. split; [|done]. intros Hnil.
    by apply (get_rss_feeds_from_env_nil_iff RSS_FEEDS) in Hnil.
Qed.

(** Started with nothing, the run exits before any request. *)
Lemma main_feed_selection_witness :
  Main.main Fixtures.cfg0 Fixtures.feed_entries Fixtures.sample_ET Fixtures.sample_lxml
            Fixtures.sample_soup Fixtures.frames0 [] None false (Some "   ")
            Fixtures.net_api_403
  = (Main.Exit1, []).
Proof.
  destruct (main_feed_selection Fixtures.cfg0 Fixtures.feed_entries Fixtures.sample_ET
              Fixtures.sample_lxml Fixtures.sample_soup Fixtures.frames0 None false
              (Some "   ") Fixtures.net_api_403) as (Hexit & _ & _).
  apply Hexit. vm_compute. reflexivity.
Defined.

(* ===================================================================== *)
(** * rss_parser, article_fetcher: what goes over the network             *)
(* ===================================================================== *)

Section NetFacts.
Import RssParser ArticleFetcher Spec.
Variable cfg : Config.t.
Variable feedparser_entries : string → list entry.
Implicit Types (it : RSSItem) (net : Requests.Network) (api_key cookie : option string)
  (urls : list string).

Lemma parse_feed_url_run (url : string) net :
  parse_feed_url feedparser_entries url net
  = (match net (feed_request url) with
     | Some resp =>
         if Requests.raises_for_status resp then None
         else Some (parse_feed_content feedparser_entries (Requests.resp_text resp))
     | None => None
     end, [feed_request url]).
Proof.
  unfold parse_feed_url, Requests.get_ok, Requests.bind, Requests.get, Requests.ret,
    feed_request. simpl.
  destruct (net _) as [resp|]; [|done]. by destruct (Requests.raises_for_status resp).
Qed.

Lemma parse_feeds_run urls net :
  parse_feeds feedparser_entries urls net
  = (flat_map (feed_items feedparser_entries net) urls, map feed_request urls).
Proof.
  induction urls as [|url urls IH]; [done|].
  simpl. unfold Requests.bind at 1. rewrite parse_feed_url_run.
  unfold Requests.bind. rewrite IH. unfold Requests.ret, feed_items. simpl.
  rewrite app_nil_r.
  destruct (net (feed_request url)) as [resp|]; [|done].
  by destruct (Requests.raises_for_status resp).
Qed.

Lemma feed_request_not_api (url : string) : is_api_request (feed_request url) = false.
Proof. apply bool_decide_eq_false. simpl. apply not_elem_of_nil. Qed.

Lemma get_ok_run (r : Requests.Request) net :
  Requests.get_ok r net
  = (match net r with
     | Some resp => if Requests.raises_for_status resp then None else Some resp
     | None => None
     end, [r]).
Proof. unfold Requests.get_ok, Requests.bind, Requests.get, Requests.ret. by destruct (net r). Qed.

(** [fetch_via_api], unfolded on the network. *)
Lemma fetch_via_api_run it api_key (accept : string) net :
  fetch_via_api cfg it api_key accept net
  = match Py.nonempty (api_key_of cfg api_key), article_id it with
    | true, Some (id_type, id_value) =>
        let req := api_request (api_key_of cfg api_key) id_type id_value accept in
        (match net req with
         | Some resp =>
             if Requests.raises_for_status resp then None
             else Some {| source := api; raw_body := Requests.resp_text resp;
                          content_type := str_or (media_type resp) accept; item := it |}
         | None => None
         end, [req])
    | _, _ => (None, [])
    end.
Proof.
  unfold fetch_via_api, api_key_of.
  destruct (Py.nonempty _); simpl; [|done].
  destruct (article_id it) as [[id_type id_value]|]; [|done].
  unfold Requests.bind. rewrite get_ok_run. unfold Requests.ret. simpl.
  destruct (net _) as [resp|]; [|done]. by destruct (Requests.raises_for_status resp).
Qed.

Lemma fetch_via_crawl_run it cookie net :
  fetch_via_crawl cfg it cookie net
  = (match net (crawl_request it (cookie_of cfg cookie)) with
     | Some resp =>
         if Requests.raises_for_status resp then None
         else Some {| source := crawl; raw_body := Requests.resp_text resp;
                      content_type := str_or (media_type resp) "text/html"; item := it |}
     | None => None
     end, [crawl_request it (cookie_of cfg cookie)]).
Proof.
  unfold fetch_via_crawl, cookie_of. unfold Requests.bind. rewrite get_ok_run.
  unfold Requests.ret. simpl.
  destruct (net _) as [resp|]; [|done]. by destruct (Requests.raises_for_status resp).
Qed.

Lemma str_or_nonempty (a b : string) : b ≠ "" → str_or a b ≠ "".
Proof. unfold str_or. destruct a; simpl; done. Qed.

Lemma fetch_via_api_some it api_key (accept : string) net (f : FetchedArticle) :
  accept ≠ "" →
  Requests.result (fetch_via_api cfg it api_key accept) net = Some f →
  source f = api ∧ item f = it ∧ content_type f ≠ "".
Proof.
  intros Hacc. unfold Requests.result. rewrite fetch_via_api_run.
  destruct (Py.nonempty _); [|done].
  destruct (article_id it) as [[id_type id_value]|]; [|done]. simpl.
  destruct (net _) as [resp|]; [|done].
  destruct (Requests.raises_for_status resp); [done|].
  intros [= <-]. simpl. split; [done|]. split; [done|]. by apply str_or_nonempty.
Qed.

Lemma fetch_via_crawl_some it cookie net (f : FetchedArticle) :
  Requests.result (fetch_via_crawl cfg it cookie) net = Some f →
  source f = crawl ∧ item f = it ∧ content_type f ≠ "".
Proof.
  unfold Requests.result. rewrite fetch_via_crawl_run. simpl.
  destruct (net _) as [resp|]; [|done].
  destruct (Requests.raises_for_status resp); [done|].
  intros [= <-]. simpl. split; [done|]. split; [done|]. by apply str_or_nonempty.
Qed.
End NetFacts.

(** X8. [parse_feeds] sends one GET per feed URL, in the order of the
    list and without header or parameter, whatever the answers; the items
    it yields are, feed after feed, those of the feeds that answered with a
    status below 400 or above 599, a feed that fails contributing nothing.
    So the items of two lists of feeds are those of the first followed by
    those of the second. *)
Theorem parse_feeds_one_request_per_feed
    (feedparser_entries : string -> list RssParser.entry)
    (urls urls' : list string) (net : Requests.Network) :
  Requests.trace (RssParser.parse_feeds feedparser_entries urls) net
    = map Spec.feed_request urls
  ∧ Requests.result (RssParser.parse_feeds feedparser_entries urls) net
    = flat_map (Spec.feed_items feedparser_entries net) urls
  ∧ Requests.result (RssParser.parse_feeds feedparser_entries (urls ++ urls')) net
    = Requests.result (RssParser.parse_feeds feedparser_entries urls) net
      ++ Requests.result (RssParser.parse_feeds feedparser_entries urls') net
  ∧ (∀ url, url ∈ urls →
       (net (Spec.feed_request url) = None
        ∨ ∃ resp, net (Spec.feed_request url) = Some resp
                  ∧ 400 ≤ Requests.status_code resp < 600) →
       Spec.feed_items feedparser_entries net url = []).
Proof.
  unfold Requests.trace, Requests.result. rewrite !parse_feeds_run. simpl.
  split; [done|]. split; [done|]. split; [apply flat_map_app|].
  intros url _ [Hnone|(resp & Hresp & Hstatus)]; unfold Spec.feed_items.
  - by rewrite Hnone.
  - rewrite Hresp. unfold Requests.raises_for_status.
    rewrite (proj2 (Nat.leb_le _ _)) by lia. rewrite (proj2 (Nat.ltb_lt _ _)) by lia. done.
Qed.

(** X9. [fetch_via_api] returns an article exactly when a key is
    available (the argument or the configured one, not blank), the item has
    an identifier, and the request to [ELSEVIER_ARTICLE_BASE/kind/value]
    with that key is answered with a status outside 400 to 599. The article
    then has the source [api], the body of the answer, the item, and as
    content type the media type of the answer or, without one, the accepted
    type. Without key or identifier nothing is sent; otherwise that one
    request is. *)
Theorem fetch_via_api_succeeds_iff
    (cfg : Config.t) (it : RssParser.RSSItem) (api_key : option string) (accept : string)
    (net : Requests.Network) (f : ArticleFetcher.FetchedArticle) :
  let key := Spec.api_key_of cfg api_key in
  (Requests.result (ArticleFetcher.fetch_via_api cfg it api_key accept) net = Some f
   ↔ key ≠ ""
     ∧ ∃ id_type id_value resp,
         RssParser.article_id it = Some (id_type, id_value)
         ∧ net (ArticleFetcher.api_request key id_type id_value accept) = Some resp
         ∧ ¬ (400 ≤ Requests.status_code resp < 600)
         ∧ f = ArticleFetcher.mkFetched ArticleFetcher.api (Requests.resp_text resp)
                 (RssParser.str_or (ArticleFetcher.media_type resp) accept) it)
  ∧ Requests.trace (ArticleFetcher.fetch_via_api cfg it api_key accept) net
    = (if Py.nonempty key
       then match RssParser.article_id it with
            | Some (id_type, id_value) =>
                [ArticleFetcher.api_request key id_type id_value accept]
            | None => []
            end
       else []).
Proof.
  cbv zeta. unfold Requests.result, Requests.trace. rewrite fetch_via_api_run.
  destruct (Py.nonempty (Spec.api_key_of cfg api_key)) eqn:Hkey.
  - apply nonempty_true_iff in Hkey.
    destruct (RssParser.article_id it) as [[id_type id_value]|] eqn:Hid; simpl.
    + split; [|done]. split.
      * destruct (net _) as [resp|] eqn:Hnet; [|done].
        destruct (Requests.raises_for_status resp) eqn:Hst; [done|].
        intros [= <-]. split; [done|]. exists id_type, id_value, resp.
        split; [done|]. split; [done|]. split; [|done].
        unfold Requests.raises_for_status in Hst.
        apply andb_false_iff in Hst as [Hst%Nat.leb_gt|Hst%Nat.ltb_ge]; lia.
      * intros (_ & t & v & resp & [= <- <-] & -> & Hst & ->).
        unfold Requests.raises_for_status.
        destruct (400 <=? Requests.status_code resp) eqn:H1; [|done].
        destruct (Requests.status_code resp <? 600) eqn:H2; [|done].
        apply Nat.leb_le in H1. apply Nat.ltb_lt in H2. lia.
    + split; [|done]. split; [done|]. by intros (_ & t & v & resp & ? & _).
  - apply nonempty_false_iff in Hkey. simpl. split; [|done]. split; [done|].
    by intros [? _].
Qed.

(** X10. [fetch_via_crawl] always sends exactly one request, to the link
    of the item, with a [Cookie] header exactly when a cookie is available
    (the argument or the configured one, not blank) and never with the API
    key. It returns an article exactly when the answer has a status outside
    400 to 599; the article has the source [crawl] and a content type that
    is never empty ([text/html] when the answer declares none). *)
Theorem fetch_via_crawl_one_request
    (cfg : Config.t) (it : RssParser.RSSItem) (cookie : option string)
    (net : Requests.Network) :
  let c := Spec.cookie_of cfg cookie in
  let req := ArticleFetcher.crawl_request it c in
  Requests.trace (ArticleFetcher.fetch_via_crawl cfg it cookie) net = [req]
  ∧ Requests.req_url req = RssParser.link it
  ∧ (("Cookie", c) ∈ Requests.req_headers req ↔ c ≠ "")
  ∧ Spec.is_api_request req = false
  ∧ (∀ f, Requests.result (ArticleFetcher.fetch_via_crawl cfg it cookie) net = Some f
          ↔ ∃ resp, net req = Some resp
                    ∧ ¬ (400 ≤ Requests.status_code resp < 600)
                    ∧ f = ArticleFetcher.mkFetched ArticleFetcher.crawl
                            (Requests.resp_text resp)
                            (RssParser.str_or (ArticleFetcher.media_type resp) "text/html")
                            it)
  ∧ (∀ f, Requests.result (ArticleFetcher.fetch_via_crawl cfg it cookie) net = Some f →
          ArticleFetcher.content_type f ≠ "").
Proof.
  cbv zeta. unfold Requests.result, Requests.trace. rewrite fetch_via_crawl_run. simpl.
  split; [done|]. split; [done|]. split.
  { destruct (Py.nonempty (Spec.cookie_of cfg cookie)) eqn:Hc; simpl.
    - apply nonempty_true_iff in Hc. split; [done|]. intros _.
      do 2 apply list_elem_of_further. apply list_elem_of_here.
    - apply nonempty_false_iff in Hc. split; [|done].
      intros Hin. repeat (apply elem_of_cons in Hin as [Hin|Hin]; [done|]).
      by apply elem_of_nil in Hin. }
  split; [apply crawl_request_not_api|]. split.
  - intros f. destruct (net _) as [resp|] eqn:Hnet.
    + destruct (Requests.raises_for_status resp) eqn:Hst.
      * split; [done|]. intros (resp' & [= <-] & Hst' & _).
        unfold Requests.raises_for_status in Hst.
        apply andb_true_iff in Hst as [H1%Nat.leb_le H2%Nat.ltb_lt]. lia.
      * split.
        -- intros [= <-]. exists resp. split; [done|]. split; [|done].
           unfold Requests.raises_for_status in Hst.
           apply andb_false_iff in Hst as [Hst%Nat.leb_gt|Hst%Nat.ltb_ge]; lia.
        -- by intros (resp' & [= <-] & _ & ->).
    + split; [done|]. by intros (resp' & ? & _).
  - intros f. destruct (net _) as [resp|]; [|done].
    destruct (Requests.raises_for_status resp); [done|].
    intros [= <-]. simpl. by apply str_or_nonempty.
Qed.

(** A feed that answers 403 gives no item. *)
Lemma parse_feeds_one_request_per_feed_witness :
  Spec.feed_items Fixtures.feed_entries Fixtures.net_api_403 "https://rss.example/missing"
  = [].
Proof.
  destruct (parse_feeds_one_request_per_feed Fixtures.feed_entries
              ["https://rss.example/missing"] [] Fixtures.net_api_403)
    as (_ & _ & _ & Hfail).
  apply Hfail; [apply list_elem_of_here|]. right.
  exists (Requests.mkResponse 403 "" ∅). split; [vm_compute; reflexivity|simpl; lia].
Defined.

(** The API answers 200 with an XML body and a content type that has a
    parameter: the article carries the media type alone. *)
Lemma fetch_via_api_succeeds_iff_witness :
  Requests.result
    (ArticleFetcher.fetch_via_api Fixtures.cfg0 Fixtures.item_a None "application/xml")
    Fixtures.net_api_ok
  = Some (ArticleFetcher.mkFetched ArticleFetcher.api Fixtures.doc_short
            "application/xml" Fixtures.item_a).
Proof.
  apply (fetch_via_api_succeeds_iff Fixtures.cfg0 Fixtures.item_a None "application/xml"
           Fixtures.net_api_ok).
  split; [vm_compute; discriminate|].
  exists "pii", "S0304397520301234", (Requests.mkResponse 200 Fixtures.doc_short
                                        Fixtures.xml_headers).
  split; [vm_compute; reflexivity|]. split; [vm_compute; reflexivity|].
  split; [simpl; lia|]. vm_compute. reflexivity.
Defined.

(** The page of the sample item answers 200. *)
Lemma fetch_via_crawl_one_request_witness :
  Requests.result (ArticleFetcher.fetch_via_crawl Fixtures.cfg0 Fixtures.item_a None)
                  Fixtures.net_api_403
  = Some (ArticleFetcher.mkFetched ArticleFetcher.crawl "<html></html>" "text/html"
            Fixtures.item_a).
Proof.
  destruct (fetch_via_crawl_one_request Fixtures.cfg0 Fixtures.item_a None
              Fixtures.net_api_403) as (_ & _ & _ & _ & Hiff & _).
  apply Hiff.
  exists (Requests.mkResponse 200 "<html></html>" Fixtures.html_headers).
  split; [vm_compute; reflexivity|]. split; [simpl; lia|]. vm_compute. reflexivity.
Defined.

(* ===================================================================== *)
(** * article_fetcher, main: one item, then the whole run                 *)
(* ===================================================================== *)

Section RunFacts.
Import RssParser ArticleFetcher ContentExtractor Main Spec.
Variable cfg : Config.t.
Variable feedparser_entries : string → list entry.
Variable ET_fromstring : string → et_parse.
Variable lxml_fromstring : string → option Element.
Variable BeautifulSoup : string → Node.
Variable frames : nat.
Implicit Types (it : RSSItem) (net : Requests.Network) (api_key cookie : option string)
  (items : list RSSItem) (prefer_api : bool).

Lemma fetch_article_run it prefer_api api_key cookie net :
  fetch_article cfg it prefer_api api_key cookie net
  = if prefer_api then
      match fetch_via_api cfg it api_key "application/xml" net with
      | (Some r, t) => (Some r, t)
      | (None, t) =>
          (fst (fetch_via_crawl cfg it cookie net), t ++ snd (fetch_via_crawl cfg it cookie net))
      end
    else fetch_via_crawl cfg it cookie net.
Proof.
  unfold fetch_article. destruct prefer_api; [|done]. unfold Requests.bind.
  destruct (fetch_via_api cfg it api_key "application/xml" net) as [[r|] t].
  - unfold Requests.ret. by rewrite app_nil_r.
  - by destruct (fetch_via_crawl cfg it cookie net).
Qed.

(** The key that [run] hands to [fetch_article] is the configured one. *)
Lemma run_api_key :
  api_key_of cfg (Py.or_else (Some (Config.ELSEVIER_API_KEY cfg)) None)
  = Py.strip (Config.ELSEVIER_API_KEY cfg).
Proof.
  unfold api_key_of, Py.or_else. simpl.
  by destruct (Py.nonempty (Config.ELSEVIER_API_KEY cfg)) eqn:Hk; simpl; rewrite ?Hk.
Qed.

Lemma fetch_article_no_api_request it prefer_api api_key cookie net :
  prefer_api = false ∨ api_key_of cfg api_key = "" →
  Forall (λ r, is_api_request r = false)
         (Requests.trace (fetch_article cfg it prefer_api api_key cookie) net).
Proof.
  intros Hno. unfold Requests.trace. rewrite fetch_article_run.
  assert (Forall (λ r, is_api_request r = false) (snd (fetch_via_crawl cfg it cookie net)))
    as Hcrawl.
  { rewrite fetch_via_crawl_run. simpl.
    constructor; [apply crawl_request_not_api|constructor]. }
  destruct prefer_api; [|done]. destruct Hno as [?|Hkey]; [done|].
  rewrite fetch_via_api_run, Hkey. simpl. done.
Qed.

Lemma process_trace it prefer_api net :
  Requests.trace
    (process cfg ET_fromstring lxml_fromstring BeautifulSoup frames it prefer_api) net
  = match article_id it with
    | Some _ =>
        Requests.trace
          (fetch_article cfg it prefer_api
             (Py.or_else (Some (Config.ELSEVIER_API_KEY cfg)) None) None) net
    | None => []
    end.
Proof.
  unfold process. destruct (article_id it); [|done].
  by rewrite trace_bind, trace_ret, app_nil_r.
Qed.

Lemma process_all_no_api_request items prefer_api net :
  prefer_api = false ∨ Py.strip (Config.ELSEVIER_API_KEY cfg) = "" →
  Forall (λ r, is_api_request r = false)
         (Requests.trace
            (process_all cfg ET_fromstring lxml_fromstring BeautifulSoup frames items
               prefer_api)
            net).
Proof.
  intros Hno. induction items as [|it items IH]; simpl; [constructor|].
  rewrite trace_bind. apply Forall_app. split.
  - rewrite process_trace. destruct (article_id it); [|constructor].
    apply fetch_article_no_api_request. rewrite run_api_key. done.
  - destruct (Requests.result _ net) as [r|]; [|constructor].
    rewrite trace_bind, trace_ret, app_nil_r. exact IH.
Qed.

Lemma run_trace (urls : list string) (limit : option Z) prefer_api net :
  Requests.trace
    (run cfg feedparser_entries ET_fromstring lxml_fromstring BeautifulSoup frames
         urls limit prefer_api) net
  = match urls with
    | [] => []
    | _ :: _ =>
        map feed_request urls
        ++ Requests.trace
             (process_all cfg ET_fromstring lxml_fromstring BeautifulSoup frames
                (selected_items limit
                   (Requests.result (parse_feeds feedparser_entries urls) net))
                prefer_api) net
    end.
Proof.
  unfold run, run_items. destruct urls as [|u us]; [done|].
  rewrite !trace_bind, !result_bind, !trace_ret, !result_ret, !app_nil_r.
  f_equal. unfold Requests.trace. by rewrite parse_feeds_run.
Qed.

(** What [process] returns for one item. *)
Lemma process_result it prefer_api net :
  Requests.result
    (process cfg ET_fromstring lxml_fromstring BeautifulSoup frames it prefer_api) net
  = match article_id it with
    | None => Py.Returns (skipped it "no_doi_or_pii")
    | Some _ =>
        match Requests.result
                (fetch_article cfg it prefer_api
                   (Py.or_else (Some (Config.ELSEVIER_API_KEY cfg)) None) None) net with
        | None => Py.Returns (skipped it "fetch_failed")
        | Some f =>
            match extract_content ET_fromstring lxml_fromstring BeautifulSoup frames f with
            | Py.Raises => Py.Raises
            | Py.Returns c =>
                Py.Returns (mkResult (title it) (link it) (doi it) (pii it)
                              (abstract c) (full_text c) (source_name (ec_source c)) None)
            end
        end
    end.
Proof.
  unfold process. destruct (article_id it); [|done].
  by rewrite result_bind, result_ret.
Qed.

Lemma process_record it prefer_api net (r : Result) :
  Requests.result
    (process cfg ET_fromstring lxml_fromstring BeautifulSoup frames it prefer_api) net
  = Py.Returns r →
  record_of it r ∧ well_formed_record r
  ∧ (r_error r = Some "no_doi_or_pii" ↔ article_id it = None).
Proof.
  rewrite process_result. unfold record_of, well_formed_record.
  destruct (article_id it) as [aid|].
  - destruct (Requests.result _ net) as [f|].
    + destruct (extract_content _ _ _ _ f) as [c|]; [|done]. intros [= <-]. simpl.
      split; [done|]. split; [|done]. left. split; [done|]. by destruct (ec_source c); [left|right].
    + intros [= <-]. simpl. split; [done|]. split; [|done]. right. split; [by right|done].
  - intros [= <-]. simpl. split; [done|]. split; [|done]. right. split; [by left|done].
Qed.


Section NoOtherError.
Hypothesis ET_only_parse_errors : ∀ raw, ET_fromstring raw ≠ OtherError.
Hypothesis ET_within_frames :
  ∀ raw root, ET_fromstring raw = Parsed root → height root ≤ frames.

End NoOtherError.

End RunFacts.

(** X11. What [fetch_article] returns belongs to the item and has a
    content type that is not empty. An article of source [api] is the
    result of the API channel and is returned only with [prefer_api]; an
    article of source [crawl] is the result of the crawl channel. Nothing is
    returned exactly when the crawl channel fails and, with [prefer_api],
    the API channel as well. No more than two requests are sent: no channel
    is tried twice. *)
Theorem fetch_article_result
    (cfg : Config.t) (it : RssParser.RSSItem) (prefer_api : bool)
    (api_key cookie : option string) (net : Requests.Network) :
  let api_result :=
    Requests.result (ArticleFetcher.fetch_via_api cfg it api_key "application/xml") net in
  let crawl_result := Requests.result (ArticleFetcher.fetch_via_crawl cfg it cookie) net in
  let fetched :=
    Requests.result (ArticleFetcher.fetch_article cfg it prefer_api api_key cookie) net in
  (∀ f, fetched = Some f →
        ArticleFetcher.item f = it ∧ ArticleFetcher.content_type f ≠ ""
        ∧ (ArticleFetcher.source f = ArticleFetcher.api →
           prefer_api = true ∧ api_result = Some f)
        ∧ (ArticleFetcher.source f = ArticleFetcher.crawl → crawl_result = Some f))
  ∧ (fetched = None ↔ crawl_result = None ∧ (prefer_api = true → api_result = None))
  ∧ length (Requests.trace
              (ArticleFetcher.fetch_article cfg it prefer_api api_key cookie) net) ≤ 2.
Proof.
  cbv zeta. unfold Requests.result, Requests.trace. rewrite fetch_article_run.
  pose proof (fetch_via_api_some cfg it api_key "application/xml" net) as Hapi.
  pose proof (fetch_via_crawl_some cfg it cookie net) as Hcrawl.
  unfold Requests.result in Hapi, Hcrawl.
  assert (length (snd (ArticleFetcher.fetch_via_crawl cfg it cookie net)) = 1) as Hlc
    by by rewrite fetch_via_crawl_run.
  assert (length (snd (ArticleFetcher.fetch_via_api cfg it api_key "application/xml" net)) ≤ 1)
    as Hla.
  { rewrite fetch_via_api_run. destruct (Py.nonempty _); [|simpl; lia].
    destruct (RssParser.article_id it) as [[? ?]|]; simpl; lia. }
  destruct prefer_api.
  - destruct (ArticleFetcher.fetch_via_api cfg it api_key "application/xml" net)
      as [[r|] t] eqn:Hr; cbn [fst snd] in Hapi, Hla |- *.
    + split; [|split; [|lia]].
      * intros f [= <-]. destruct (Hapi r) as (Hs & Hi & Hc); [done|done|].
        split; [done|]. split; [done|]. split; [done|]. rewrite Hs. done.
      * split; [done|]. intros [_ Hn]. by specialize (Hn eq_refl).
    + split; [|split; [|rewrite length_app, Hlc; lia]].
      * intros f Hf. destruct (Hcrawl f Hf) as (Hs & Hi & Hc).
        split; [done|]. split; [done|]. split; [|done]. rewrite Hs. done.
      * split; [done|]. by intros [? _].
  - split; [|split; [|lia]].
    + intros f Hf. destruct (Hcrawl f Hf) as (Hs & Hi & Hc).
      split; [done|]. split; [done|]. split; [|done]. rewrite Hs. done.
    + split; [done|]. by intros [? _].
Qed.

(** With the API refusing, the article returned is the one of the crawl
    channel. *)
Lemma fetch_article_result_witness :
  Requests.result (ArticleFetcher.fetch_via_crawl Fixtures.cfg0 Fixtures.item_a None)
                  Fixtures.net_api_403
  = Some (ArticleFetcher.mkFetched ArticleFetcher.crawl "<html></html>" "text/html"
            Fixtures.item_a).
Proof.
  destruct (fetch_article_result Fixtures.cfg0 Fixtures.item_a true None None
              Fixtures.net_api_403) as (Hsome & _ & _).
  destruct (Hsome (ArticleFetcher.mkFetched ArticleFetcher.crawl "<html></html>" "text/html"
                     Fixtures.item_a)) as (_ & _ & _ & Hcrawl).
  - vm_compute. reflexivity.
  - apply Hcrawl. reflexivity.
Defined.

(** X19. A run sends no request that carries the API key when it is
    started with [prefer_api] off, or when the configured key is blank: the
    only requests are the GET of each feed and, for each item that has an
    identifier, the GET of its page. *)
Theorem run_without_api_sends_no_key
    (cfg : Config.t) (feedparser_entries : string -> list RssParser.entry)
    (ET_fromstring : string -> ContentExtractor.et_parse)
    (lxml_fromstring : string -> option ContentExtractor.Element)
    (BeautifulSoup : string -> ContentExtractor.Node) (frames : nat)
    (feed_urls : list string) (limit : option Z) (prefer_api : bool)
    (net : Requests.Network) :
  prefer_api = false ∨ Py.strip (Config.ELSEVIER_API_KEY cfg) = "" →
  Forall (λ r, Spec.is_api_request r = false)
         (Requests.trace
            (Main.run cfg feedparser_entries ET_fromstring lxml_fromstring BeautifulSoup
                      frames feed_urls limit prefer_api) net).
Proof.
  intros Hno. rewrite run_trace. destruct feed_urls as [|u us]; [constructor|].
  apply Forall_app. split.
  - apply Forall_forall. intros r (url & -> & _)%list_elem_of_fmap.
    apply feed_request_not_api.
  - by apply process_all_no_api_request.
Qed.

(** The sample run with [--no-api]. *)
Lemma run_without_api_sends_no_key_witness :
  Forall (λ r, Spec.is_api_request r = false)
         (Requests.trace
            (Main.run Fixtures.cfg0 Fixtures.feed_entries Fixtures.sample_ET
                      Fixtures.sample_lxml Fixtures.sample_soup Fixtures.frames0
                      [Fixtures.feed_url] None false) Fixtures.net_api_403).
Proof.
  apply (run_without_api_sends_no_key Fixtures.cfg0 Fixtures.feed_entries
           Fixtures.sample_ET Fixtures.sample_lxml Fixtures.sample_soup Fixtures.frames0
           [Fixtures.feed_url] None false Fixtures.net_api_403).
  left. reflexivity.
Defined.

(** X21. The result [run] records for an item copies its title, link, DOI
    and PII. It is either an extraction (no error, source [api] or
    [crawl]) or a skip (source [skip], empty abstract and full text, error
    [no_doi_or_pii] or [fetch_failed]). The error is [no_doi_or_pii]
    exactly when the item has no identifier, and then no request is sent
    for it, not even to its link. *)
Theorem process_records_item_or_skip
    (cfg : Config.t)
    (ET_fromstring : string -> ContentExtractor.et_parse)
    (lxml_fromstring : string -> option ContentExtractor.Element)
    (BeautifulSoup : string -> ContentExtractor.Node) (frames : nat)
    (it : RssParser.RSSItem) (prefer_api : bool) (net : Requests.Network) :
  let call :=
    Main.process cfg ET_fromstring lxml_fromstring BeautifulSoup frames it prefer_api in
  (∀ r, Requests.result call net = Py.Returns r →
        Spec.record_of it r ∧ Spec.well_formed_record r
        ∧ (Main.r_error r = Some "no_doi_or_pii" ↔ RssParser.article_id it = None))
  ∧ (RssParser.article_id it = None →
     call net = (Py.Returns (Main.skipped it "no_doi_or_pii"), [])).
Proof.
  cbv zeta. split.
  - intros r. apply process_record.
  - intros Hid. unfold Main.process. by rewrite Hid.
Qed.

(** An item with a link and no identifier. *)
Lemma process_records_item_or_skip_witness :
  Main.process Fixtures.cfg0 Fixtures.sample_ET Fixtures.sample_lxml Fixtures.sample_soup
    Fixtures.frames0
    (RssParser.mkRSSItem "T" "https://example.org/articles/42" None None "")
    true Fixtures.net_api_403
  = (Py.Returns
       (Main.skipped (RssParser.mkRSSItem "T" "https://example.org/articles/42" None None "")
          "no_doi_or_pii"), []).
Proof.
  apply (process_records_item_or_skip Fixtures.cfg0 Fixtures.sample_ET Fixtures.sample_lxml
           Fixtures.sample_soup Fixtures.frames0
           (RssParser.mkRSSItem "T" "https://example.org/articles/42" None None "")
           true Fixtures.net_api_403).
  reflexivity.
Defined.



(* ===================================================================== *)
(** * content_extractor: dispatch, names and text nodes                   *)
(* ===================================================================== *)

Section Dispatch.
Import ArticleFetcher ContentExtractor.

Lemma html_finish_source (a b : string) : ec_source (html_finish a b) = crawl.
Proof. unfold html_finish. by destruct (_ && _). Qed.
End Dispatch.

Lemma forallb_false_iff {A} (f : A → bool) (l : list A) :
  forallb f l = false ↔ ∃ x, x ∈ l ∧ f x = false.
Proof.
  induction l as [|a l IH]; simpl.
  - split; [done|]. by intros (x & Hx%elem_of_nil & _).
  - rewrite andb_false_iff, IH. split.
    + intros [Ha|(x & Hx & Hf)]; [exists a|exists x]; split; try done;
        [apply list_elem_of_here|by apply list_elem_of_further].
    + intros (x & [->|Hx]%elem_of_cons & Hf); [by left|right; by exists x].
Qed.

(** X12. [extract_content] uses the structured extractors when the content
    type holds [xml], in any case, or when the source is [api], and the
    HTML extractor otherwise. On the structured side the result is the one
    of the [lxml] extractor when its parser accepts the body, else the one
    of the tree-walk extractor, and its origin is [api] whatever the source
    of the article was; on the HTML side the origin is [crawl]. The call
    raises exactly when it is on the structured side, the [lxml] parser
    rejects the body, and the [xml.etree] parser either raises something
    else than a parse error or returns a document in which an element that
    the tree-walk extractor flattens has more levels than the recursion
    limit leaves frames. *)
Theorem extract_content_dispatch
    (ET_fromstring : string -> ContentExtractor.et_parse)
    (lxml_fromstring : string -> option ContentExtractor.Element)
    (BeautifulSoup : string -> ContentExtractor.Node) (frames : nat)
    (f : ArticleFetcher.FetchedArticle) :
  let structured :=
    Py.contains "xml" (Py.lower_str (ArticleFetcher.content_type f))
    || bool_decide (ArticleFetcher.source f = ArticleFetcher.api) in
  let raw := ArticleFetcher.raw_body f in
  let outcome :=
    ContentExtractor.extract_content ET_fromstring lxml_fromstring BeautifulSoup frames f in
  (structured = false →
   outcome = Py.Returns (ContentExtractor.html_extract (BeautifulSoup raw))
   ∧ ContentExtractor.ec_source (ContentExtractor.html_extract (BeautifulSoup raw))
     = ArticleFetcher.crawl)
  ∧ (structured = true →
     outcome
     = match lxml_fromstring raw with
       | Some root => Py.Returns (ContentExtractor.lxml_extract root)
       | None =>
           match ET_fromstring raw with
           | ContentExtractor.Parsed root =>
               if forallb (Spec.fits frames) (Spec.et_flattened root)
               then Py.Returns (ContentExtractor.et_extract root)
               else Py.Raises
           | ContentExtractor.ParseError => Py.Returns ContentExtractor.empty_api
           | ContentExtractor.OtherError => Py.Raises
           end
       end
     ∧ ∀ c, outcome = Py.Returns c → ContentExtractor.ec_source c = ArticleFetcher.api)
  ∧ (outcome = Py.Raises
     ↔ structured = true ∧ lxml_fromstring raw = None
       ∧ (ET_fromstring raw = ContentExtractor.OtherError
          ∨ ∃ root el, ET_fromstring raw = ContentExtractor.Parsed root
                       ∧ el ∈ Spec.et_flattened root
                       ∧ frames < ContentExtractor.height el)).
Proof.
  cbv zeta.
  destruct (Py.contains "xml" (Py.lower_str (ArticleFetcher.content_type f))
            || bool_decide (ArticleFetcher.source f = ArticleFetcher.api)) eqn:Hxml.
  - rewrite extract_content_structured by done.
    unfold ContentExtractor.extract_from_api_xml.
    split; [done|]. split.
    + intros _. split.
      * destruct (lxml_fromstring _) as [root|]; [done|].
        destruct (ET_fromstring _) as [root| |]; [|done|done]. apply et_extract_in_spec.
      * destruct (lxml_fromstring _) as [root|].
        { intros c [= <-]. apply lxml_finish_source. }
        destruct (ET_fromstring _) as [root| |]; intros c Hc; simplify_eq; [|done].
        rewrite et_extract_in_spec in Hc. destruct (forallb _ _); [|done].
        injection Hc as <-. apply et_finish_source.
    + destruct (lxml_fromstring _) as [root|].
      { split; [done|]. by intros (_ & ? & _). }
      destruct (ET_fromstring _) as [root| |].
      * rewrite et_extract_in_spec. split.
        -- destruct (forallb _ _) eqn:Hfits; [done|]. intros _.
           apply forallb_false_iff in Hfits as (el & Hel & Hfit).
           split; [done|]. split; [done|]. right. exists root, el.
           split; [done|]. split; [done|]. by apply Nat.leb_gt in Hfit.
        -- intros (_ & _ & [?|(root' & el & [= <-] & Hel & Hdeep)]); [done|].
           assert (forallb (Spec.fits frames) (Spec.et_flattened root) = false) as ->; [|done].
           apply forallb_false_iff. exists el. split; [done|]. by apply Nat.leb_gt.
      * split; [done|]. by intros (_ & _ & [?|(? & ? & ? & _)]).
      * split; [by intros _; split; [|split; [|left]]|done].
  - rewrite extract_content_html by done. split; [|split; [done|]].
    + intros _. split; [done|]. apply html_finish_source.
    + split; [done|]. by intros (? & _).
Qed.

(** A page fetched by the crawl channel and served as XHTML goes through
    the structured extractors; an article whose abstract lies under 3000
    nested elements makes the call raise. *)
Lemma extract_content_dispatch_witness :
  ContentExtractor.extract_content Fixtures.sample_ET Fixtures.sample_lxml
    Fixtures.sample_soup Fixtures.frames0
    (ArticleFetcher.mkFetched ArticleFetcher.crawl Fixtures.doc_short
       "application/XHTML+xml" Fixtures.item_a)
  = Py.Returns (ContentExtractor.lxml_extract Fixtures.tree_short)
  ∧ ContentExtractor.extract_content Fixtures.strict_ET Fixtures.strict_lxml
      Fixtures.sample_soup Fixtures.frames0
      (ArticleFetcher.mkFetched ArticleFetcher.api Fixtures.doc_deep
         "application/xml" Fixtures.item_a)
    = Py.Raises.
Proof.
  split.
  - destruct (extract_content_dispatch Fixtures.sample_ET Fixtures.sample_lxml
                Fixtures.sample_soup Fixtures.frames0
                (ArticleFetcher.mkFetched ArticleFetcher.crawl Fixtures.doc_short
                   "application/XHTML+xml" Fixtures.item_a)) as (_ & Hxml & _).
    destruct Hxml as [Heq _]; [vm_compute; reflexivity|].
    rewrite Heq. vm_compute. reflexivity.
  - destruct (extract_content_dispatch Fixtures.strict_ET Fixtures.strict_lxml
                Fixtures.sample_soup Fixtures.frames0
                (ArticleFetcher.mkFetched ArticleFetcher.api Fixtures.doc_deep
                   "application/xml" Fixtures.item_a)) as (_ & Hxml & _).
    destruct Hxml as [Heq _]; [vm_compute; reflexivity|].
    rewrite Heq. vm_compute. reflexivity.
Defined.

Section Names.
Import ContentExtractor Spec.
Implicit Types (l : list ascii) (c : ascii).

Lemma chars_append (a b : string) : Py.chars (a +:+ b) = Py.chars a ++ Py.chars b.
Proof. induction a as [|x a IH]; simpl; [done|]. by rewrite <- IH. Qed.

Lemma after_first_absent c l : c ∉ l → Py.after_first c l = None.
Proof.
  induction l as [|x l IH]; simpl; [done|].
  intros Hnin. rewrite bool_decide_eq_false_2.
  - apply IH. intros ?. apply Hnin. by apply list_elem_of_further.
  - intros ->. apply Hnin. apply list_elem_of_here.
Qed.

Lemma after_first_split c l1 l2 :
  c ∉ l1 → Py.after_first c (l1 ++ c :: l2) = Some l2.
Proof.
  induction l1 as [|x l1 IH]; simpl.
  - intros _. by rewrite bool_decide_eq_true_2.
  - intros Hnin. rewrite bool_decide_eq_false_2.
    + apply IH. intros ?. apply Hnin. by apply list_elem_of_further.
    + intros ->. apply Hnin. apply list_elem_of_here.
Qed.

Lemma strip_ns_brace_free (tag : string) : brace_free tag → _strip_ns tag = tag.
Proof.
  intros Hfree. unfold _strip_ns. destruct (Py.nonempty tag) eqn:Hne.
  - by rewrite after_first_absent.
  - by apply nonempty_false_iff in Hne.
Qed.

Lemma strip_ns_clark (uri local : string) :
  brace_free uri → _strip_ns ("{" +:+ uri +:+ "}" +:+ local) = local.
Proof.
  intros Hfree.
  assert (Py.after_first "}" (Py.chars ("{" +:+ uri +:+ "}" +:+ local))
          = Some (Py.chars local)) as Hafter.
  { rewrite !chars_append.
    apply (after_first_split "}" ("{"%char :: Py.chars uri) (Py.chars local)).
    intros [?|?]%elem_of_cons; done. }
  unfold _strip_ns. rewrite Hafter. simpl. apply str_chars.
Qed.

Lemma strip_ns_el_tag (el : Element) : well_named el → _strip_ns (el_tag el) = el_local el.
Proof.
  intros [Hlocal Hns]. unfold el_tag. destruct (el_ns el) as [uri|] eqn:Huri.
  - apply strip_ns_clark. by apply Hns.
  - by apply strip_ns_brace_free.
Qed.
End Names.

(** X13. [_strip_ns] leaves a tag without closing brace as it is and
    returns the local name of a tag in Clark notation whose namespace URI
    holds no closing brace. So on a document whose names hold no closing
    brace, the name test of the tree-walk extractor and the [local-name()]
    test of the path-query extractor select the same elements. *)
Theorem strip_ns_is_local_name :
  (∀ tag, Spec.brace_free tag → ContentExtractor._strip_ns tag = tag)
  ∧ (∀ uri local, Spec.brace_free uri →
       ContentExtractor._strip_ns ("{" +:+ uri +:+ "}" +:+ local) = local)
  ∧ (∀ el, Spec.well_named el →
       ContentExtractor._strip_ns (ContentExtractor.el_tag el) = ContentExtractor.el_local el)
  ∧ (∀ root name, Forall Spec.well_named (ContentExtractor.iter root) →
       ContentExtractor.find_all_with_tag root name = ContentExtractor.xpath_named root name).
Proof.
  split; [exact strip_ns_brace_free|]. split; [exact strip_ns_clark|].
  split; [exact strip_ns_el_tag|].
  intros root name Hnamed.
  unfold ContentExtractor.find_all_with_tag, ContentExtractor.xpath_named.
  induction Hnamed as [|el els Hel _ IH]; simpl; [done|].
  by rewrite (strip_ns_el_tag el Hel), IH.
Qed.

(** A Dublin Core description. *)
Lemma strip_ns_is_local_name_witness :
  ContentExtractor._strip_ns "{http://purl.org/dc/elements/1.1/}description" = "description".
Proof.
  destruct strip_ns_is_local_name as (_ & Hclark & _).
  apply (Hclark "http://purl.org/dc/elements/1.1/" "description").
  unfold Spec.brace_free. compute_done.
Defined.

Section TextNodes.
Import ContentExtractor.





End TextNodes.


(* ===================================================================== *)
(** * content_extractor: what the kept candidates look like               *)
(* ===================================================================== *)

Section Parts.
Import ContentExtractor Spec.
Implicit Types (ts acc parts : list string) (t : string) (m : nat).

Lemma filter_NoDup {A} (f : A → bool) (l : list A) : NoDup l → NoDup (List.filter f l).
Proof.
  induction 1 as [|a l Hnin _ IH]; simpl; [constructor|].
  destruct (f a); [|done]. constructor; [|done]. by intros [? _]%filter_elem.
Qed.

Lemma keep_first_elem t ts : t ∈ keep_first ts → t ∈ ts.
Proof.
  revert t. induction ts as [|u ts IH]; intros t; simpl; [done|].
  intros [->|[Hin _]%filter_elem]%elem_of_cons; [apply list_elem_of_here|].
  by apply list_elem_of_further, IH.
Qed.

Lemma NoDup_keep_first ts : NoDup (keep_first ts).
Proof.
  induction ts as [|u ts IH]; simpl; [constructor|].
  constructor; [|by apply filter_NoDup].
  intros [_ Hne]%filter_elem. apply negb_true_iff, bool_decide_eq_false in Hne. done.
Qed.

Lemma long_enough_len m t : long_enough m t = true → m < Py.len t.
Proof. unfold long_enough. by intros [_ ?%Nat.ltb_lt]%andb_true_iff. Qed.

(** At most three parts, all different, all longer than 20. *)
Lemma dedup_cap_invariant (texts : list string) :
  length (dedup_cap texts) ≤ 3 ∧ NoDup (dedup_cap texts)
  ∧ Forall (λ t, 20 < Py.len t) (dedup_cap texts).
Proof.
  unfold dedup_cap. split; [rewrite length_take; lia|]. split.
  - eapply sublist_NoDup; [apply NoDup_keep_first|apply sublist_take].
  - apply Forall_take, Forall_forall. intros t [_ Ht]%keep_first_elem%filter_elem.
    by apply long_enough_len.
Qed.

Lemma abstract_fold_texts {A} (flatten : A → string) (els : list A) :
  take 3 (fold_left (λ parts el, add_abstract parts (flatten el)) els [])
  = dedup_cap (map flatten els).
Proof.
  unfold dedup_cap. rewrite fold_left_map_arg, fold_add_abstract. simpl.
  do 2 f_equal. apply List.filter_ext. intros t. apply andb_true_r.
Qed.

Lemma html_abstract_parts_spec (soup : Node) :
  html_abstract_parts soup
  = dedup_cap (map get_text (flat_map (select soup) abstract_selectors)).
Proof.
  unfold html_abstract_parts. rewrite <- abstract_fold_texts.
  unfold abstract_selectors. simpl. by rewrite app_nil_r, !fold_left_app.
Qed.

Lemma et_body_parts_spec (root : Element) : et_body_parts root = et_body_selection root.
Proof.
  unfold et_body_parts, et_body_selection, body_or_fallback.
  destruct (first_named "body" (iter root)) as [body_el|]; cbn [fold_left].
  - rewrite !body_loop_spec. cbn [app].
    rewrite !map_app, !List.filter_app.
    rewrite <- (app_assoc (List.filter _ (map _ (find_all_with_tag body_el "section")))
                          (List.filter _ (map _ (find_all_with_tag body_el "para")))).
    by destruct (_ ++ _ ++ _) as [|t ts].
  - by rewrite body_loop_spec.
Qed.

Lemma lxml_body_parts_spec (root : Element) : lxml_body_parts root = lxml_body_selection root.
Proof.
  unfold lxml_body_parts, lxml_body_selection, body_or_fallback.
  destruct (xpath_named root "body") as [|body0 rest].
  - by rewrite body_loop_spec.
  - rewrite !body_loop_spec. cbn [app].
    by destruct (List.filter _ _) as [|t ts].
Qed.

Lemma body_or_fallback_long (in_body fallback : list string) :
  Forall (λ t, 30 < Py.len t) in_body →
  Forall (λ t, 30 < Py.len t) (body_or_fallback in_body fallback).
Proof.
  intros Hin. unfold body_or_fallback. destruct in_body; [|done].
  apply Forall_forall. intros t [_ Ht%long_enough_len]%filter_elem. lia.
Qed.

Lemma filter_long m (ts : list string) :
  Forall (λ t, m < Py.len t) (List.filter (long_enough m) ts).
Proof. apply Forall_forall. by intros t [_ Ht%long_enough_len]%filter_elem. Qed.

(** A loop whose steps only append long texts keeps a list of long
    texts. *)
Lemma fold_left_long {A} m (step : list string → A → list string) (l : list A) :
  (∀ parts a, Forall (λ t, m < Py.len t) parts → Forall (λ t, m < Py.len t) (step parts a)) →
  ∀ acc, Forall (λ t, m < Py.len t) acc → Forall (λ t, m < Py.len t) (fold_left step l acc).
Proof.
  intros Hstep. induction l as [|a l IH]; intros acc Hacc; simpl; [done|].
  by apply IH, Hstep.
Qed.

Lemma add_body_long m m' parts t :
  m ≤ m' → Forall (λ t, m < Py.len t) parts → Forall (λ t, m < Py.len t) (add_body m' parts t).
Proof.
  intros Hm Hparts. unfold add_body. destruct (long_enough m' t) eqn:Ht; [|done].
  apply Forall_app. split; [done|]. repeat constructor.
  apply long_enough_len in Ht. lia.
Qed.

Lemma add_leaves_long (el : Node) parts :
  Forall (λ t, 40 < Py.len t) parts → Forall (λ t, 40 < Py.len t) (add_leaves el parts).
Proof.
  unfold add_leaves. apply fold_left_long. intros ps p Hps.
  destruct (List.filter is_p_or_div (child_tags p)); [|done]. by apply add_body_long.
Qed.

Lemma body_of_containers_long (els : list Node) parts :
  Forall (λ t, 40 < Py.len t) parts →
  Forall (λ t, 40 < Py.len t) (body_of_containers els parts).
Proof.
  revert parts. induction els as [|el els IH]; intros parts Hparts; simpl; [done|].
  pose proof (add_leaves_long el parts Hparts) as Hleaves.
  destruct (add_leaves el parts); [by apply IH|done].
Qed.

Lemma body_of_selectors_long (soup : Node) (sels : list selector) parts :
  Forall (λ t, 40 < Py.len t) parts →
  Forall (λ t, 40 < Py.len t) (body_of_selectors soup sels parts).
Proof.
  revert parts. induction sels as [|sel sels IH]; intros parts Hparts; simpl; [done|].
  pose proof (body_of_containers_long (select soup sel) parts Hparts) as Hc.
  destruct (body_of_containers (select soup sel) parts); [by apply IH|done].
Qed.

Lemma html_body_parts_long (soup : Node) :
  Forall (λ t, 40 < Py.len t) (html_body_parts soup).
Proof.
  unfold html_body_parts.
  pose proof (body_of_selectors_long soup body_selectors [] (Forall_nil_2 _)) as Hb.
  destruct (body_of_selectors soup body_selectors []); [|done].
  apply fold_left_long; [|constructor]. intros ps p Hps. apply add_body_long; [lia|done].
Qed.
End Parts.

Section Lengths.
Import ContentExtractor Spec.
Implicit Types (a b s : string) (parts : list string).

Lemma len_append a b : Py.len (a +:+ b) = Py.len a + Py.len b.
Proof.
  induction a as [|c a IH]; [done|].
  change (S (Py.len (a +:+ b)) = S (Py.len a + Py.len b)). by rewrite IH.
Qed.

Lemma len_take (n : nat) s : Py.len (Py.take n s) = n `min` Py.len s.
Proof.
  revert s. induction n as [|n IH]; intros [|c s]; simpl; try done.
  by rewrite IH.
Qed.

Lemma take_append_exact (n : nat) a b : Py.len a = n → Py.take n (a +:+ b) = a.
Proof.
  revert a. induction n as [|n IH]; intros [|c a]; simpl; try done.
  intros [= Hlen]. change (String c (Py.take n (a +:+ b)) = String c a).
  by rewrite IH.
Qed.

Lemma len_join_head (sep p : string) (rest : list string) :
  Py.len p ≤ Py.len (Py.join sep (p :: rest)).
Proof. destruct rest; simpl; [done|]. rewrite len_append. lia. Qed.

Lemma join_parts_long (m : nat) parts :
  Forall (λ t, m < Py.len t) parts →
  join_parts parts = "" ∨ m < Py.len (join_parts parts).
Proof.
  destruct parts as [|p rest]; [by left|]. intros [Hp _]%Forall_cons_1. right.
  unfold join_parts. pose proof (len_join_head blank_line p rest). lia.
Qed.
End Lengths.

(** X15. In the three extractors the abstract is made of at most three
    parts, all different and each longer than 20 characters. *)
Theorem abstract_parts_at_most_three_distinct :
  (∀ root, let parts := ContentExtractor.et_abstract_parts root in
           length parts ≤ 3 ∧ NoDup parts ∧ Forall (λ t, 20 < Py.len t) parts)
  ∧ (∀ root, let parts := ContentExtractor.lxml_abstract_parts root in
             length parts ≤ 3 ∧ NoDup parts ∧ Forall (λ t, 20 < Py.len t) parts)
  ∧ (∀ soup, let parts := ContentExtractor.html_abstract_parts soup in
             length parts ≤ 3 ∧ NoDup parts ∧ Forall (λ t, 20 < Py.len t) parts).
Proof.
  split; [|split]; intros x; cbv zeta.
  - rewrite et_abstract_parts_spec. apply dedup_cap_invariant.
  - rewrite lxml_abstract_parts_spec. apply dedup_cap_invariant.
  - rewrite html_abstract_parts_spec. apply dedup_cap_invariant.
Qed.

(** X16. In the HTML extractor the abstract parts are the texts of the
    elements the four abstract selectors match, taken selector after
    selector and in document order for each, those longer than 20 kept,
    deduplicated with the first occurrence kept, the first three: an
    element that several selectors match counts once. *)
Theorem html_abstract_candidates_dedup_cap (soup : ContentExtractor.Node) :
  ContentExtractor.html_abstract_parts soup
  = Spec.dedup_cap
      (map ContentExtractor.get_text
           (ContentExtractor.select soup (ContentExtractor.AttrContains "class" "abstract")
            ++ ContentExtractor.select soup (ContentExtractor.HasClass "abstract")
            ++ ContentExtractor.select soup (ContentExtractor.HasAttr "data-abstract")
            ++ ContentExtractor.select soup
                 (ContentExtractor.TagClass "div" "abstract-group"))).
Proof.
  rewrite html_abstract_parts_spec. unfold ContentExtractor.abstract_selectors. simpl.
  by rewrite app_nil_r.
Qed.

(** X17. The body candidates of the two structured extractors, without
    deduplication or cap. Tree-walk: inside the first [body], the texts
    longer than 30 of every [section], then every [para], then every [p];
    path-query: inside the first [body], the texts longer than 30 of its
    [para] and [section] descendants in document order. For both, when
    this gives nothing (or there is no [body]), the texts longer than 50 of
    the [para] elements of the whole document. *)
Theorem body_candidates_selection (root : ContentExtractor.Element) :
  ContentExtractor.et_body_parts root = Spec.et_body_selection root
  ∧ ContentExtractor.lxml_body_parts root = Spec.lxml_body_selection root.
Proof. split; [apply et_body_parts_spec|apply lxml_body_parts_spec]. Qed.

(** X18. Every body part kept by a structured extractor is longer than 30
    characters, every one kept by the HTML extractor longer than 40. So a
    full text is never a short fragment: it is empty or longer than 30
    characters on the structured path, empty or longer than 20 on the HTML
    path (where it may be the abstract). *)
Theorem full_text_is_empty_or_long :
  (∀ root,
     Forall (λ t, 30 < Py.len t) (ContentExtractor.et_body_parts root)
     ∧ Forall (λ t, 30 < Py.len t) (ContentExtractor.lxml_body_parts root)
     ∧ (ContentExtractor.full_text (ContentExtractor.et_extract root) = ""
        ∨ 30 < Py.len (ContentExtractor.full_text (ContentExtractor.et_extract root)))
     ∧ (ContentExtractor.full_text (ContentExtractor.lxml_extract root) = ""
        ∨ 30 < Py.len (ContentExtractor.full_text (ContentExtractor.lxml_extract root))))
  ∧ (∀ soup,
       Forall (λ t, 40 < Py.len t) (ContentExtractor.html_body_parts soup)
       ∧ (ContentExtractor.full_text (ContentExtractor.html_extract soup) = ""
          ∨ 20 < Py.len (ContentExtractor.full_text (ContentExtractor.html_extract soup)))).
Proof.
  split.
  - intros root.
    assert (Forall (λ t, 30 < Py.len t) (ContentExtractor.et_body_parts root)) as Het.
    { rewrite et_body_parts_spec. unfold Spec.et_body_selection.
      apply body_or_fallback_long. destruct (ContentExtractor.first_named _ _); [|constructor].
      apply filter_long. }
    assert (Forall (λ t, 30 < Py.len t) (ContentExtractor.lxml_body_parts root)) as Hlx.
    { rewrite lxml_body_parts_spec. unfold Spec.lxml_body_selection.
      apply body_or_fallback_long. destruct (ContentExtractor.xpath_named _ _); [constructor|].
      apply filter_long. }
    split; [done|]. split; [done|]. split.
    + unfold ContentExtractor.et_extract.
      destruct (et_finish_full_text
                  (ContentExtractor.join_parts (ContentExtractor.et_abstract_parts root))
                  (ContentExtractor.join_parts (ContentExtractor.et_body_parts root)))
        as [->|(_ & Hlen & ->)]; [by apply join_parts_long|right; lia].
    + unfold ContentExtractor.lxml_extract.
      destruct (lxml_finish_full_text
                  (ContentExtractor.join_parts (ContentExtractor.lxml_abstract_parts root))
                  (ContentExtractor.join_parts (ContentExtractor.lxml_body_parts root)))
        as [->|(_ & Hlen & ->)]; [by apply join_parts_long|right; lia].
  - intros soup. pose proof (html_body_parts_long soup) as Hbody. split; [done|].
    unfold ContentExtractor.html_extract.
    destruct (html_finish_full_text
                (ContentExtractor.join_parts (ContentExtractor.html_abstract_parts soup))
                (ContentExtractor.join_parts (ContentExtractor.html_body_parts soup)))
      as [->|(_ & _ & ->)].
    + destruct (join_parts_long 40 _ Hbody) as [?|?]; [by left|right; lia].
    + apply join_parts_long. rewrite html_abstract_parts_spec. apply dedup_cap_invariant.
Qed.

(** X22. The promotion of the tree-walk extractor: with no body candidate
    and a collected abstract longer than 200 characters, the full text is
    that abstract, and the abstract returned is the same text when it has
    at most 500 characters, else its first 500 characters and three full
    stops: 503 characters that start like the full text. *)
Theorem et_promotion_cuts_abstract (root : ContentExtractor.Element) :
  let a := ContentExtractor.join_parts (ContentExtractor.et_abstract_parts root) in
  let r := ContentExtractor.et_extract root in
  ContentExtractor.join_parts (ContentExtractor.et_body_parts root) = "" →
  200 < Py.len a →
  ContentExtractor.full_text r = a
  ∧ (Py.len a ≤ 500 → ContentExtractor.abstract r = a)
  ∧ (500 < Py.len a →
     ContentExtractor.abstract r = Py.take 500 a +:+ "..."
     ∧ Py.len (ContentExtractor.abstract r) = 503
     ∧ Py.take 500 (ContentExtractor.abstract r)
       = Py.take 500 (ContentExtractor.full_text r)).
Proof.
  cbv zeta. intros Hb Hlen. unfold ContentExtractor.et_extract.
  rewrite (et_finish_promoted _ _ Hb Hlen).
  cbn [ContentExtractor.abstract ContentExtractor.full_text]. split; [done|]. split.
  - intros Hle. by rewrite (proj2 (Nat.ltb_ge _ _) Hle).
  - intros Hgt. rewrite (proj2 (Nat.ltb_lt _ _) Hgt). split; [done|]. split.
    + rewrite len_append, len_take. change (Py.len "...") with 3. lia.
    + apply take_append_exact. rewrite len_take. lia.
Qed.

(** The document with an abstract of 600 characters. *)
Lemma et_promotion_cuts_abstract_witness :
  ContentExtractor.full_text (ContentExtractor.et_extract Fixtures.tree_600)
  = ContentExtractor.join_parts (ContentExtractor.et_abstract_parts Fixtures.tree_600)
  ∧ Py.len (ContentExtractor.abstract (ContentExtractor.et_extract Fixtures.tree_600)) = 503.
Proof.
  destruct (et_promotion_cuts_abstract Fixtures.tree_600) as (Hfull & _ & Hcut).
  - vm_compute. reflexivity.
  - vm_compute. lia.
  - split; [exact Hfull|]. apply Hcut. vm_compute. lia.
Defined.
